(** * llm-neofetch-plus: the hardware detection layer, embedded and verified

    Shallow embedding of [src/detectors.py] (the probes), of
    [LLMNeofetch.collect_system_info], [export] and [interactive_mode] in
    [llm_neofetch.py] and of [UIRenderer.format_size] and [center_text] in
    [src/ui.py].

    Conventions of the embedding:
    - everything the program reads from outside itself (the operating
      system, psutil, external commands, WMI, the clock) is a field of the
      record [Host], and a probe is a function of the host;
    - Python exceptions are values of the error monad [result], and a
      [try]/[except] is a [match] on the raised class;
    - a [float] is a binary64 number of [SpecFloat]; the true division of two
      [int]s rounds the exact quotient once; the builtin [float(s)] and the
      function [log] of the C library are parameters, and [math.log] on
      [int]s, its quotient and [int] of it are computed from that function;
    - the path names that exist, for the temporary file of the benchmark, are
      a finite set passed through the call;
    - a dictionary with fixed keys is a record, the snapshot of the
      collector, whose keys vary, a finite map. *)

From stdpp Require Import base numbers list strings gmap sorting.
From Stdlib Require Import Ascii SpecFloat DecimalString.

Local Open Scope Z_scope.

(** ** Exceptions and the error monad *)

(** The exception classes the detection layer can meet.  All of them derive
    from [Exception]; [FileNotFoundError] and [PermissionError] are the two
    subclasses of [OSError] that the source names, [OSError] stands for every
    other operating-system error. *)
Inductive exn : Type :=
  | TimeoutExpired
  | CalledProcessError
  | FileNotFoundError
  | PermissionError
  | OSError
  | ValueError
  | AttributeError
  | KeyError
  | ZeroDivisionError
  | OverflowError
  | IndexError
  | RuntimeError.

Global Instance exn_eq_dec : EqDecision exn.
Proof. solve_decision. Defined.

Inductive result (A : Type) : Type :=
  | Ok (a : A)
  | Raise (e : exn).
Global Arguments Ok {A} a.
Global Arguments Raise {A} e.

Global Instance result_ret : MRet result := fun A a => Ok a.

Global Instance result_bind : MBind result := fun A B k m =>
  match m with
  | Ok a => k a
  | Raise e => Raise e
  end.

Global Instance result_fmap : FMap result := fun A B f m =>
  match m with
  | Ok a => Ok (f a)
  | Raise e => Raise e
  end.

Definition is_ok {A : Type} (m : result A) : Prop := exists a, m = Ok a.

(** ** Python strings

    A [str] is a Rocq [string]; its characters are the code points below 128
    and the predicates below follow Python on them ([str.isspace],
    [str.splitlines], [str.lower], [str.isdigit]).  Code points from 128 on
    stand for non-ASCII text and are ordinary characters here. *)

Module Py.

Definition code (c : ascii) : nat := nat_of_ascii c.

(** [str.isspace] on one character: TAB, LF, VT, FF, CR, FS, GS, RS, US, SP. *)
Definition is_space (c : ascii) : bool :=
  let n := code c in
  (((9 <=? n) && (n <=? 13)) || ((28 <=? n) && (n <=? 32)))%nat.

(** Line boundaries of [str.splitlines]: LF, VT, FF, CR, FS, GS, RS. *)
Definition is_linebreak (c : ascii) : bool :=
  let n := code c in
  (((10 <=? n) && (n <=? 13)) || ((28 <=? n) && (n <=? 30)))%nat.

Definition is_lower_az (c : ascii) : bool :=
  let n := code c in ((97 <=? n) && (n <=? 122))%nat.

Definition is_decimal (c : ascii) : bool :=
  let n := code c in ((48 <=? n) && (n <=? 57))%nat.

Definition lower_char (c : ascii) : ascii :=
  let n := code c in
  if ((65 <=? n) && (n <=? 90))%nat then ascii_of_nat (n + 32) else c.

Definition is_empty (s : string) : bool :=
  match s with
  | EmptyString => true
  | String _ _ => false
  end.

(** Truth value of a [str]: non-empty. *)
Definition truthy (s : string) : bool := negb (is_empty s).

Fixpoint lstrip (s : string) : string :=
  match s with
  | EmptyString => EmptyString
  | String c r => if is_space c then lstrip r else s
  end.

Fixpoint rstrip (s : string) : string :=
  match s with
  | EmptyString => EmptyString
  | String c r =>
      let r' := rstrip r in
      if is_space c && is_empty r' then EmptyString else String c r'
  end.

(** [s.strip()] *)
Definition strip (s : string) : string := rstrip (lstrip s).

(** [s.lower()] *)
Fixpoint lower (s : string) : string :=
  match s with
  | EmptyString => EmptyString
  | String c r => String (lower_char c) (lower r)
  end.

(** [s.startswith(p)] *)
Fixpoint startswith (p s : string) : bool :=
  match p, s with
  | EmptyString, _ => true
  | String _ _, EmptyString => false
  | String a p', String b s' => Ascii.eqb a b && startswith p' s'
  end.

(** [needle in hay] *)
Fixpoint contains (needle hay : string) : bool :=
  startswith needle hay ||
  match hay with
  | EmptyString => false
  | String _ r => contains needle r
  end.

(** Adds a character in front of the first piece of a split. *)
Definition cons_first (c : ascii) (l : list string) : list string :=
  match l with
  | [] => [String c EmptyString]
  | x :: xs => String c x :: xs
  end.

(** [s.splitlines()]: no piece for the end of the text after a final line
    boundary, CR LF is one boundary. *)
Fixpoint splitlines (s : string) : list string :=
  match s with
  | EmptyString => []
  | String c r =>
      if is_linebreak c then
        match r with
        | String c' r' =>
            if Ascii.eqb c "013" && Ascii.eqb c' "010"
            then EmptyString :: splitlines r'
            else EmptyString :: splitlines r
        | EmptyString => [EmptyString]
        end
      else cons_first c (splitlines r)
  end.

(** [s.split(sep)] for a separator of one character. *)
Fixpoint split (sep : ascii) (s : string) : list string :=
  match s with
  | EmptyString => [EmptyString]
  | String c r =>
      if Ascii.eqb c sep then EmptyString :: split sep r
      else cons_first c (split sep r)
  end.

(** [s.isdigit()] *)
Fixpoint all_decimal (s : string) : bool :=
  match s with
  | EmptyString => true
  | String c r => is_decimal c && all_decimal r
  end.

Definition isdigit (s : string) : bool := truthy s && all_decimal s.

(** [int(s)] for a string of decimal digits. *)
Fixpoint int_of_digits (acc : Z) (s : string) : Z :=
  match s with
  | EmptyString => acc
  | String c r => int_of_digits (10 * acc + (Z.of_nat (code c) - 48)) r
  end.

(** [l[-1]] of a non-empty list, with a default for the empty one. *)
Definition last_line (l : list string) : string := List.last l EmptyString.

(** [s.isascii()]: every code point is below 128. *)
Fixpoint isascii (s : string) : bool :=
  match s with
  | EmptyString => true
  | String c r => (code c <? 128)%nat && isascii r
  end.

(** [sys.get_int_max_str_digits()]: the limit of CPython, 4300 unless it is
    configured otherwise, on the number of digits of a decimal string that
    [int] converts. *)
Definition int_max_str_digits : nat := 4300.

(** [int(s)] on a string of decimal digits, which is what the program passes
    to it: leading zeros count as digits, and a string with more digits than
    the limit raises [ValueError], as the empty string does. *)
Definition int_of_str (s : string) : result Z :=
  if negb (isdigit s) then Raise ValueError
  else if (int_max_str_digits <? String.length s)%nat then Raise ValueError
  else Ok (int_of_digits 0 s).

End Py.

(** ** Python numbers

    A Python [float] is an IEEE 754 binary64 number, here a [spec_float] of
    the Standard Library at precision 53 and maximal exponent 1024.  An [int]
    is a [Z]. *)

Module Float.

Definition prec : Z := 53.
Definition emax : Z := 1024.

Definition zero : spec_float := S754_zero false.

(** [float(z)] for an [int] in the range of binary64. *)
Definition of_int (z : Z) : spec_float := binary_normalize prec emax z 0 false.

(** [x / y] on floats, for a divisor that is not zero. *)
Definition div (x y : spec_float) : spec_float := SFdiv prec emax x y.

(** [x - y] on floats. *)
Definition sub (x y : spec_float) : spec_float := SFsub prec emax x y.

(** [x + y] and [x * y] on floats. *)
Definition add (x y : spec_float) : spec_float := SFadd prec emax x y.

Definition mul (x y : spec_float) : spec_float := SFmul prec emax x y.

(** [x == 0.0] *)
Definition is_zero (x : spec_float) : bool :=
  match x with
  | S754_zero _ => true
  | _ => false
  end.

(** [x / y] on two floats as Python evaluates it: [ZeroDivisionError] for a
    divisor that is zero, the IEEE quotient otherwise (a quotient beyond the
    floats is an infinity, not an exception). *)
Definition float_div (x y : spec_float) : result spec_float :=
  if is_zero y then Raise ZeroDivisionError else Ok (div x y).

(** [1024 ** i] for a negative [i], through the float 2^[k] with [k = 10 i]:
    the power of two itself down to the smallest subnormal, 0.0 below. *)
Definition pow2 (k : Z) : spec_float := binary_normalize prec emax 1 k false.

(** [x > z] for a float and an [int]: Python compares the exact values. *)
Definition gt_int (x : spec_float) (z : Z) : bool :=
  match x with
  | S754_zero _ => z <? 0
  | S754_finite s m e =>
      let v := if s then Z.neg m else Z.pos m in
      if 0 <=? e then z <? v * 2 ^ e else z * 2 ^ (- e) <? v
  | S754_infinity s => negb s
  | S754_nan => false
  end.

(** The conversion of an [int] operand of a float operation; an [int] beyond
    the floats raises. *)
Definition of_int_checked (z : Z) : result spec_float :=
  match of_int z with
  | S754_infinity _ => Raise OverflowError
  | x => Ok x
  end.

(** [n / d] rounded to the nearest integer, ties to the even one ([0 < d]). *)
Definition rne_div (n d : Z) : Z :=
  let q := n / d in
  match 2 * (n mod d) ?= d with
  | Lt => q
  | Gt => q + 1
  | Eq => if Z.even q then q else q + 1
  end.

(** [_PyLong_Frexp] on a positive [int]: the [int] rounded to 53 bits, ties
    to even, as a float [x] with [0.5 <= x < 1] and the exponent [e] with
    [a] about [x * 2**e]; a mantissa that rounds up to 1.0 becomes 0.5 with
    the next exponent. *)
Definition frexp_int (a : Z) : spec_float * Z :=
  let a_bits := Z.log2 a + 1 in
  let m := if 53 <=? a_bits then rne_div a (2 ^ (a_bits - 53))
           else a * 2 ^ (53 - a_bits) in
  if m =? 2 ^ 53 then (S754_finite false (Z.to_pos (2 ^ 52)) (-53), a_bits + 1)
  else (S754_finite false (Z.to_pos m) (-53), a_bits).

(** The integer part of the binary logarithm of [a / b], for [0 < a] and
    [0 < b]. *)
Definition floor_log2_quot (a b : Z) : Z :=
  let d := Z.log2 a - Z.log2 b in
  let below := if 0 <=? d then a <? b * 2 ^ d else a * 2 ^ (- d) <? b in
  if below then d - 1 else d.

(** [a / b] on two [int]s: the quotient of the exact integers, rounded once
    to binary64 (CPython's [long_true_divide]); [ZeroDivisionError] for a zero
    divisor, [OverflowError] when the quotient is beyond the floats. *)
Definition int_true_div (a b : Z) : result spec_float :=
  if b =? 0 then Raise ZeroDivisionError
  else if a =? 0 then Ok (S754_zero (b <? 0))
  else
    let s := xorb (a <? 0) (b <? 0) in
    let a' := Z.abs a in
    let b' := Z.abs b in
    let e := Z.max (floor_log2_quot a' b' - 52) (-1074) in
    let m := if 0 <=? e then rne_div a' (b' * 2 ^ e)
             else rne_div (a' * 2 ^ (- e)) b' in
    if 2 ^ 1024 <=? m * 2 ^ e then Raise OverflowError
    else if m =? 0 then Ok (S754_zero s)
    else if m =? 2 ^ 53 then Ok (S754_finite s (Z.to_pos (2 ^ 52)) (e + 1))
    else Ok (S754_finite s (Z.to_pos m) e).

(** [int(x)]: truncation toward zero. *)
Definition to_int (x : spec_float) : result Z :=
  match x with
  | S754_zero _ => Ok 0
  | S754_finite s m e =>
      let v := if 0 <=? e then Z.pos m * 2 ^ e else Z.pos m / 2 ^ (- e) in
      Ok (if s then - v else v)
  | S754_infinity _ => Raise OverflowError
  | S754_nan => Raise ValueError
  end.

(** [str(z)] for an [int]. *)
Definition str_of_int (z : Z) : string :=
  NilZero.string_of_int (Z.to_int z).

(** [f"{x:.1f}"]: the exact binary value rounded to one decimal, ties to
    even. *)
Definition format_1f (x : spec_float) : string :=
  match x with
  | S754_zero s => (if s then "-0.0" else "0.0")
  | S754_finite s m e =>
      let t := if 0 <=? e then Z.pos m * 2 ^ e * 10
               else rne_div (Z.pos m * 10) (2 ^ (- e)) in
      (if s then "-" else "") +:+ str_of_int (t / 10) +:+ "." +:+
      str_of_int (t mod 10)
  | S754_infinity s => (if s then "-inf" else "inf")
  | S754_nan => "nan"
  end.

End Float.

(** A value that is an [int] on some paths and a [float] on others. *)
Inductive pynum : Type :=
  | PInt (z : Z)
  | PFloat (x : spec_float).

(** [n == 0] *)
Definition pynum_is_zero (n : pynum) : bool :=
  match n with
  | PInt z => z =? 0
  | PFloat x => SFeqb x Float.zero
  end.

(** ** The host

    What the probes read.  A call that can raise is a [result]; the platform
    metadata calls of the standard library are plain values. *)

(** [platform.uname()] *)
Record uname_result : Type := {
  uname_system : string;
  uname_release : string;
  uname_version : string;
  uname_machine : string;
  uname_processor : string;
}.

(** [psutil.cpu_freq()]: current and max frequency. *)
Record scpufreq : Type := {
  freq_current : spec_float;
  freq_max : spec_float;
}.

(** [psutil.virtual_memory()] *)
Record svmem : Type := {
  vmem_total : Z;
  vmem_available : Z;
  vmem_used : Z;
  vmem_percent : spec_float;
}.

(** [psutil.swap_memory()] *)
Record sswap : Type := {
  swap_total : Z;
  swap_used : Z;
  swap_percent : spec_float;
}.

(** One entry of [psutil.disk_partitions()]. *)
Record sdiskpart : Type := {
  part_device : string;
  part_mountpoint : string;
  part_fstype : string;
  part_opts : string;
}.

(** [psutil.disk_usage(path)] *)
Record sdiskusage : Type := {
  usage_total : Z;
  usage_used : Z;
  usage_free : Z;
  usage_percent : spec_float;
}.

(** [psutil.sensors_battery()]; [power_plugged] is [None] where the platform
    cannot tell. *)
Record sbattery : Type := {
  batt_percent : spec_float;
  batt_secsleft : Z;
  batt_power_plugged : option bool;
}.

(** One [Win32_VideoController] of WMI; an attribute can be [None]. *)
Record wmi_video : Type := {
  video_Name : option string;
  video_AdapterRAM : option Z;
}.

(** One [Win32_BaseBoard] of WMI. *)
Record wmi_board : Type := {
  board_Manufacturer : option string;
  board_Product : option string;
}.

(** The outcome of the file operations and the clock readings of one run of
    the disk benchmark, in the order the source performs them; and, when the
    temporary name is a symbolic link, the file it points to: [open] follows
    the link and creates that file, [os.remove] removes the link only. *)
Record bench_io : Type := {
  io_clock_write_start : spec_float;
  io_open_write : result unit;
  io_write_sync : result unit;
  io_clock_write_end : spec_float;
  io_clock_read_start : spec_float;
  io_read : result unit;
  io_clock_read_end : spec_float;
  io_remove : result unit;
  io_remove_in_handler : result unit;
  io_link_target : option string;
}.

Record Host : Type := {
  (** [sys.platform] *)
  sys_platform : string;
  (** module constant [WMI_AVAILABLE]: the import of [wmi] succeeded *)
  WMI_AVAILABLE : bool;
  (** [subprocess.check_output(cmd, shell=True, text=True, stderr=DEVNULL,
      timeout=timeout)] *)
  check_output : string -> Z -> result string;
  (** [shutil.which(tool)] found the tool *)
  which : string -> bool;
  (** the builtin [float(s)]; [None] is its [ValueError] *)
  float_of_str : string -> option spec_float;
  platform_uname : uname_result;
  platform_system : string;
  platform_platform : string;
  platform_python_version : string;
  platform_processor : string;
  (** [datetime.now().isoformat()] *)
  now_isoformat : string;
  (** [datetime.now()], in microseconds since 0001-01-01 *)
  datetime_now : Z;
  (** [datetime.fromtimestamp(psutil.boot_time())], in the same unit *)
  boot_datetime : result Z;
  cpu_count_physical : result (option Z);
  cpu_count_logical : result (option Z);
  cpu_freq : result (option scpufreq);
  (** [psutil.cpu_percent(interval=1)] *)
  cpu_percent : result spec_float;
  (** [psutil.sensors_temperatures()]: sensor group name to the [current]
      readings of the group, in the order of the dictionary; raises
      [AttributeError] where psutil has no such function *)
  sensors_temperatures : result (list (string * list spec_float));
  virtual_memory : result svmem;
  swap_memory : result sswap;
  (** [psutil.disk_partitions(all=False)] *)
  disk_partitions : result (list sdiskpart);
  disk_usage : string -> result sdiskusage;
  (** [open(path).read()] *)
  read_file : string -> result string;
  sensors_battery : result (option sbattery);
  (** [wmi.WMI().Win32_VideoController()] *)
  wmi_video_controllers : result (list wmi_video);
  (** [wmi.WMI().Win32_BaseBoard()] *)
  wmi_base_boards : result (list wmi_board);
  (** [os.path.expanduser("~")] *)
  home_directory : string;
  (** [os.path.join(directory, name)] *)
  path_join : string -> string -> string;
  (** the benchmark run in a directory *)
  benchmark_io : string -> bench_io;
}.

(** ** [BaseDetector] *)

(** [BaseDetector.run_command]: the output without surrounding whitespace;
    the first handler takes the three named classes, the second every other
    [Exception] (and logs it at debug level). *)
Definition run_command (h : Host) (cmd : string) (timeout : Z) : result string :=
  match check_output h cmd timeout with
  | Ok out => Ok (Py.strip out)
  | Raise TimeoutExpired | Raise CalledProcessError | Raise FileNotFoundError =>
      Ok ""
  | Raise _ => Ok ""
  end.

(** The default of the parameter [timeout]. *)
Definition default_timeout : Z := 5.

(** ** [OSDetector] *)

Record os_info : Type := {
  os_system : string;
  os_release : string;
  os_version : string;
  os_machine : string;
  os_platform : string;
  os_python_version : string;
}.

Definition OSDetector_detect (h : Host) : result os_info :=
  let uname := platform_uname h in
  Ok {| os_system := platform_system h;
        os_release := uname_release uname;
        os_version := uname_version uname;
        os_machine := uname_machine uname;
        os_platform := platform_platform h;
        os_python_version := platform_python_version h |}.

(** A [datetime.timedelta], normalized as Python keeps it:
    [0 <= seconds < 86400] and [0 <= microseconds < 1000000]. *)
Record timedelta : Type := {
  td_days : Z;
  td_seconds : Z;
  td_microseconds : Z;
}.

Definition us_per_day : Z := 86400 * 1000000.

(** The difference of two datetimes that are [us] microseconds apart. *)
Definition timedelta_of_us (us : Z) : timedelta :=
  {| td_days := us / us_per_day;
     td_seconds := (us mod us_per_day) / 1000000;
     td_microseconds := us mod 1000000 |}.

(** [timedelta.total_seconds()]: the true division of the microseconds by
    [10**6]. *)
Definition total_seconds (td : timedelta) : result spec_float :=
  Float.int_true_div
    ((td_days td * 86400 + td_seconds td) * 1000000 + td_microseconds td)
    1000000.

Record uptime_info : Type := {
  up_days : Z;
  up_hours : Z;
  up_minutes : Z;
  up_total_seconds : Z;
}.

Definition OSDetector_get_uptime (h : Host) : result uptime_info :=
  boot ← boot_datetime h;
  let uptime := timedelta_of_us (datetime_now h - boot) in
  total ← total_seconds uptime;
  total_int ← Float.to_int total;
  mret {| up_days := td_days uptime;
          up_hours := td_seconds uptime / 3600;
          up_minutes := (td_seconds uptime mod 3600) / 60;
          up_total_seconds := total_int |}.

(** ** [CPUDetector] *)

Record cpu_info : Type := {
  cpu_name : string;
  cpu_cores_physical : Z;
  cpu_cores_logical : Z;
  cpu_current_freq_mhz : pynum;
  cpu_max_freq_mhz : pynum;
  cpu_usage_percent : spec_float;
  cpu_temperature_c : option spec_float;
}.

(** [temps[name]] of a dictionary kept as an association list. *)
Fixpoint dict_get {A : Type} (name : string) (d : list (string * A)) : option A :=
  match d with
  | [] => None
  | (k, v) :: rest => if String.eqb k name then Some v else dict_get name rest
  end.

(** The first loop of [_get_temperature]: the first preferred sensor group
    that is present and not empty. *)
Fixpoint preferred_reading (names : list string)
    (temps : list (string * list spec_float)) : option spec_float :=
  match names with
  | [] => None
  | name :: rest =>
      match dict_get name temps with
      | Some (t :: _) => Some t
      | _ => preferred_reading rest temps
      end
  end.

(** The second loop: the first group that is not empty. *)
Fixpoint first_reading (temps : list (string * list spec_float))
    : option spec_float :=
  match temps with
  | [] => None
  | (_, t :: _) :: _ => Some t
  | (_, []) :: rest => first_reading rest
  end.

Definition preferred_sensors : list string :=
  ["coretemp"; "cpu_thermal"; "k10temp"; "zenpower"].

(** [CPUDetector._get_temperature]: the handler takes [AttributeError] and
    [KeyError] only. *)
Definition CPUDetector_get_temperature (h : Host) : result (option spec_float) :=
  match sensors_temperatures h with
  | Ok [] => Ok None
  | Ok temps =>
      match preferred_reading preferred_sensors temps with
      | Some t => Ok (Some t)
      | None => Ok (first_reading temps)
      end
  | Raise AttributeError | Raise KeyError => Ok None
  | Raise e => Raise e
  end.

(** [x or 0] for an optional count. *)
Definition or_zero (x : option Z) : Z :=
  match x with
  | Some n => n
  | None => 0
  end.

(** [a or b] on strings. *)
Definition str_or (a b : string) : string := if Py.truthy a then a else b.

Definition CPUDetector_detect (h : Host) : result cpu_info :=
  let uname := platform_uname h in
  let cpu_name0 := str_or (platform_processor h) (uname_processor uname) in
  cpu_name1 ←
    (if negb (Py.truthy cpu_name0) && Py.startswith "win" (sys_platform h) then
       out ← run_command h "wmic cpu get name" default_timeout;
       if Py.truthy out then
         let lines := Py.splitlines out in
         mret (if (1 <? length lines)%nat then Py.strip (Py.last_line lines)
               else "Unknown")
       else mret out
     else mret cpu_name0);
  cpu_name2 ←
    (if String.eqb (sys_platform h) "darwin" && negb (Py.truthy cpu_name1) then
       run_command h "sysctl -n machdep.cpu.brand_string" default_timeout
     else mret cpu_name1);
  cpu_name3 ←
    (if negb (Py.truthy cpu_name2) && Py.startswith "linux" (sys_platform h) then
       run_command h
         "cat /proc/cpuinfo | grep 'model name' | head -1 | cut -d':' -f2"
         default_timeout
     else mret cpu_name2);
  physical ← cpu_count_physical h;
  logical ← cpu_count_logical h;
  freq ← cpu_freq h;
  let current_freq :=
    match freq with Some f => PFloat (freq_current f) | None => PInt 0 end in
  let max_freq :=
    match freq with Some f => PFloat (freq_max f) | None => PInt 0 end in
  percent ← cpu_percent h;
  temperature ← CPUDetector_get_temperature h;
  mret {| cpu_name := str_or (Py.strip cpu_name3) "Unknown CPU";
          cpu_cores_physical := or_zero physical;
          cpu_cores_logical := or_zero logical;
          cpu_current_freq_mhz := current_freq;
          cpu_max_freq_mhz := max_freq;
          cpu_usage_percent := percent;
          cpu_temperature_c := temperature |}.

(** ** [GPUDetector] *)

Record gpu_info : Type := {
  gpu_vendor : string;
  gpu_name : string;
  gpu_vram_total_gb : pynum;
  gpu_vram_used_gb : pynum;
  gpu_utilization_percent : pynum;
  gpu_temperature_c : option pynum;
}.

(** The dictionary built from one line of nvidia-smi; [None] is the
    [ValueError] of a field that is not a number, which skips the line. *)
Definition nvidia_record (h : Host) (parts : list string) : option gpu_info :=
  match parts with
  | p0 :: p1 :: p2 :: p3 :: p4 :: _ =>
      total ← float_of_str h p1;
      used ← float_of_str h p2;
      utilization ← float_of_str h p3;
      temperature ←
        (if String.eqb p4 "[N/A]" then Some None
         else t ← float_of_str h p4; Some (Some (PFloat t)));
      Some {| gpu_vendor := "NVIDIA";
              gpu_name := p0;
              gpu_vram_total_gb := PFloat (Float.div total (Float.of_int 1024));
              gpu_vram_used_gb := PFloat (Float.div used (Float.of_int 1024));
              gpu_utilization_percent := PFloat utilization;
              gpu_temperature_c := temperature |}
  | _ => None
  end.

Definition nvidia_line (h : Host) (line : string) : option gpu_info :=
  let parts := Py.strip <$> Py.split "," line in
  if (5 <=? length parts)%nat then nvidia_record h parts else None.

Definition nvidia_query : string :=
  "nvidia-smi --query-gpu=name,memory.total,memory.used,utilization.gpu,temperature.gpu --format=csv,noheader,nounits".

Definition GPUDetector_detect_nvidia (h : Host) : result (list gpu_info) :=
  if negb (which h "nvidia-smi") then mret []
  else
    output ← run_command h nvidia_query default_timeout;
    if negb (Py.truthy output) then mret []
    else mret (omap (nvidia_line h) (Py.splitlines output)).

(** The name loop of [_detect_amd]: the text after the first colon of the
    first line that mentions GPU or Card and has a colon. *)
Fixpoint amd_name (lines : list string) : string :=
  match lines with
  | [] => "AMD GPU"
  | line :: rest =>
      if Py.contains "GPU" line || Py.contains "Card" line then
        match Py.split ":" line with
        | _ :: p1 :: _ => Py.strip p1
        | _ => amd_name rest
        end
      else amd_name rest
  end.

Definition GPUDetector_detect_amd (h : Host) : result (list gpu_info) :=
  if negb (which h "rocm-smi") then mret []
  else
    name_output ← run_command h "rocm-smi --showproductname" default_timeout;
    _ ← run_command h "rocm-smi --showmeminfo vram" default_timeout;
    _ ← run_command h "rocm-smi --showtemp" default_timeout;
    _ ← run_command h "rocm-smi --showuse" default_timeout;
    if Py.truthy name_output then
      mret [ {| gpu_vendor := "AMD";
                gpu_name := amd_name (Py.splitlines name_output);
                gpu_vram_total_gb := PInt 0;
                gpu_vram_used_gb := PInt 0;
                gpu_utilization_percent := PInt 0;
                gpu_temperature_c := None |} ]
    else mret [].

Definition GPUDetector_detect_intel (h : Host) : result (list gpu_info) :=
  if which h "sycl-ls" then
    output ← run_command h "sycl-ls" default_timeout;
    if Py.contains "Intel" output then
      mret [ {| gpu_vendor := "Intel";
                gpu_name := "Intel GPU (Arc/Xe)";
                gpu_vram_total_gb := PInt 0;
                gpu_vram_used_gb := PInt 0;
                gpu_utilization_percent := PInt 0;
                gpu_temperature_c := None |} ]
    else mret []
  else mret [].

Definition wmi_keywords : list string :=
  ["NVIDIA"; "AMD"; "Intel"; "Radeon"; "GeForce"].

(** [any(vendor in name for vendor in [...])] *)
Definition mentions_keyword (name : string) : bool :=
  existsb (fun vendor => Py.contains vendor name) wmi_keywords.

(** The body of the [try] of [_detect_wmi], one controller at a time, with
    the list built so far.  A controller without a name makes [.strip()]
    raise, and a quotient beyond the floats raises too: the handler around the
    whole loop ends it and the list built so far is returned. *)
Fixpoint wmi_loop (videos : list wmi_video) (gpus : list gpu_info)
    : list gpu_info :=
  match videos with
  | [] => gpus
  | video :: rest =>
      match video_Name video with
      | None => gpus
      | Some raw =>
          let name := Py.strip raw in
          if mentions_keyword name then
            let vram_bytes := or_zero (video_AdapterRAM video) in
            let vram_gb :=
              if vram_bytes =? 0 then Ok (PInt 0)
              else PFloat <$> Float.int_true_div vram_bytes (1024 ^ 3) in
            match vram_gb with
            | Raise _ => gpus
            | Ok gb =>
                wmi_loop rest
                  (gpus ++ [ {| gpu_vendor := "Integrated/Discrete";
                                gpu_name := name;
                                gpu_vram_total_gb := gb;
                                gpu_vram_used_gb := PInt 0;
                                gpu_utilization_percent := PInt 0;
                                gpu_temperature_c := None |} ])
            end
          else wmi_loop rest gpus
      end
  end.

(** [GPUDetector._detect_wmi]: every exception is logged and dropped. *)
Definition GPUDetector_detect_wmi (h : Host) : result (list gpu_info) :=
  match wmi_video_controllers h with
  | Ok videos => Ok (wmi_loop videos [])
  | Raise _ => Ok []
  end.

Definition no_gpu : gpu_info :=
  {| gpu_vendor := "Unknown";
     gpu_name := "No dedicated GPU detected";
     gpu_vram_total_gb := PInt 0;
     gpu_vram_used_gb := PInt 0;
     gpu_utilization_percent := PInt 0;
     gpu_temperature_c := Some (PFloat Float.zero) |}.

Definition is_nil {A : Type} (l : list A) : bool :=
  match l with
  | [] => true
  | _ :: _ => false
  end.

Definition GPUDetector_detect (h : Host) : result (list gpu_info) :=
  nvidia ← GPUDetector_detect_nvidia h;
  amd ← GPUDetector_detect_amd h;
  intel ← GPUDetector_detect_intel h;
  let gpus := nvidia ++ amd ++ intel in
  gpus' ←
    (if is_nil gpus && WMI_AVAILABLE h && Py.startswith "win" (sys_platform h)
     then wmi ← GPUDetector_detect_wmi h; mret (gpus ++ wmi)
     else mret gpus);
  mret (if is_nil gpus' then [no_gpu] else gpus').

(** ** [MemoryDetector] *)

Record memory_info : Type := {
  ram_total_bytes : Z;
  ram_available_bytes : Z;
  ram_used_bytes : Z;
  ram_percent : spec_float;
  swap_total_bytes : Z;
  swap_used_bytes : Z;
  mem_swap_percent : spec_float;
}.

Definition MemoryDetector_detect (h : Host) : result memory_info :=
  vmem ← virtual_memory h;
  swap ← swap_memory h;
  mret {| ram_total_bytes := vmem_total vmem;
          ram_available_bytes := vmem_available vmem;
          ram_used_bytes := vmem_used vmem;
          ram_percent := vmem_percent vmem;
          swap_total_bytes := swap_total swap;
          swap_used_bytes := swap_used swap;
          mem_swap_percent := swap_percent swap |}.

(** ** [DiskDetector] *)

Record bench_result : Type := {
  read_mb_s : pynum;
  write_mb_s : pynum;
}.

(** The dictionary of one disk; the key [benchmark] is added by the collector
    and absent ([None]) until then. *)
Record disk_info : Type := {
  disk_mountpoint : string;
  disk_device : string;
  disk_fstype : string;
  disk_total_bytes : Z;
  disk_used_bytes : Z;
  disk_free_bytes : Z;
  disk_percent : spec_float;
  disk_type : string;
  disk_is_system : bool;
  disk_benchmark : option bench_result;
}.

(** The longest prefix made of the letters a to z: the group [[a-z]+]. *)
Fixpoint take_az (s : string) : string :=
  match s with
  | EmptyString => EmptyString
  | String c r => if Py.is_lower_az c then String c (take_az r) else EmptyString
  end.

(** [s] without the prefix [p], when it starts with it. *)
Fixpoint after_prefix (p s : string) : option string :=
  match p, s with
  | EmptyString, _ => Some s
  | String _ _, EmptyString => None
  | String a p', String b s' =>
      if Ascii.eqb a b then after_prefix p' s' else None
  end.

(** [re.search(r"/dev/([a-z]+)", s)]: group 1 of the leftmost match. *)
Fixpoint search_dev (s : string) : option string :=
  let here :=
    match after_prefix "/dev/" s with
    | Some rest => let g := take_az rest in if Py.truthy g then Some g else None
    | None => None
    end in
  match here with
  | Some g => Some g
  | None =>
      match s with
      | EmptyString => None
      | String _ r => search_dev r
      end
  end.

(** [DiskDetector._detect_disk_type] *)
Definition DiskDetector_detect_disk_type (h : Host) (device : string) : string :=
  let device_lower := Py.lower device in
  if Py.contains "nvme" device_lower then "NVMe"
  else
    let by_name := if Py.contains "ssd" device_lower then "SSD" else "Unknown" in
    if Py.startswith "linux" (sys_platform h) then
      match search_dev device_lower with
      | Some dev_name =>
          match read_file h ("/sys/block/" +:+ dev_name +:+ "/queue/rotational") with
          | Ok content => if String.eqb (Py.strip content) "0" then "SSD" else "HDD"
          | Raise _ => by_name
          end
      | None => by_name
      end
    else by_name.

(** [partition.mountpoint in ["/", "C:\\"] or "Windows" in partition.opts] *)
Definition is_system_partition (p : sdiskpart) : bool :=
  String.eqb (part_mountpoint p) "/" || String.eqb (part_mountpoint p) "C:\"
  || Py.contains "Windows" (part_opts p).

(** The loop of [DiskDetector.detect]: only [PermissionError] is handled, it
    skips the partition. *)
Fixpoint disk_loop (h : Host) (partitions : list sdiskpart)
    : result (list disk_info) :=
  match partitions with
  | [] => Ok []
  | partition :: rest =>
      if String.eqb (part_fstype partition) "" ||
         Py.contains "loop" (part_device partition)
      then disk_loop h rest
      else
        match disk_usage h (part_mountpoint partition) with
        | Ok usage =>
            let info :=
              {| disk_mountpoint := part_mountpoint partition;
                 disk_device := part_device partition;
                 disk_fstype := part_fstype partition;
                 disk_total_bytes := usage_total usage;
                 disk_used_bytes := usage_used usage;
                 disk_free_bytes := usage_free usage;
                 disk_percent := usage_percent usage;
                 disk_type := DiskDetector_detect_disk_type h (part_device partition);
                 disk_is_system := is_system_partition partition;
                 disk_benchmark := None |} in
            disks ← disk_loop h rest;
            mret (info :: disks)
        | Raise PermissionError => disk_loop h rest
        | Raise e => Raise e
        end
  end.

(** The sort key [(not x["is_system"], x["mountpoint"])] and the order of
    Python on such pairs: [False < True], then the strings by code point. *)
Definition disk_key_le (a b : disk_info) : bool :=
  match negb (disk_is_system a), negb (disk_is_system b) with
  | false, true => true
  | true, false => false
  | _, _ => String.leb (disk_mountpoint a) (disk_mountpoint b)
  end.

(** [list.sort] is a stable sort: an element goes in front of the first one
    that is not smaller, so equal keys keep their order. *)
Fixpoint insert_by {A : Type} (le : A -> A -> bool) (x : A) (l : list A) : list A :=
  match l with
  | [] => [x]
  | y :: r => if le x y then x :: l else y :: insert_by le x r
  end.

Definition stable_sort {A : Type} (le : A -> A -> bool) (l : list A) : list A :=
  foldr (insert_by le) [] l.

(** The list [disks] of [DiskDetector.detect] when its loop ends: the volumes
    enumerated. *)
Definition DiskDetector_enumerate (h : Host) : result (list disk_info) :=
  partitions ← disk_partitions h;
  disk_loop h partitions.

(** [DiskDetector.detect] *)
Definition DiskDetector_detect (h : Host) : result (list disk_info) :=
  disks ← DiskDetector_enumerate h;
  mret (take 3 (stable_sort disk_key_le disks)).

Definition benchmark_file_name : string := ".llm_neofetch_benchmark.tmp".

(** [size_mb / t if t > 0 else 0] *)
Definition mb_per_second (size_mb : Z) (t : spec_float) : result pynum :=
  if Float.gt_int t 0 then
    size ← Float.of_int_checked size_mb;
    mret (PFloat (Float.div size t))
  else mret (PInt 0).

(** The names that exist once [open(test_file, "wb")] has returned: the
    temporary name and, when that name is a symbolic link, the file it
    points to. *)
Definition created_by_open (io : bench_io) (test_file : string) : gset string :=
  match io_link_target io with
  | Some target => {[ test_file; target ]}
  | None => {[ test_file ]}
  end.

(** The [except Exception] block of [benchmark_speed], entered with the names
    [fs] existing: the temporary name is removed when [os.path.exists] holds
    of it, and a failure of that removal is dropped. *)
Definition benchmark_handler (io : bench_io) (test_file : string)
    (fs : gset string) : option bench_result * gset string :=
  if decide (test_file ∈ fs) then
    match io_remove_in_handler io with
    | Ok _ => (None, fs ∖ {[ test_file ]})
    | Raise _ => (None, fs)
    end
  else (None, fs).

(** [DiskDetector.benchmark_speed], with the set of the path names that exist
    ([os.path.exists]) before and after the call.  Opening the temporary name
    for writing creates the file, through the link when the name is a
    symbolic link; removing the name leaves the file a link points to. *)
Definition DiskDetector_benchmark_speed (h : Host) (fs : gset string)
    (path : option string) (size_mb timeout : Z)
    : option bench_result * gset string :=
  let path := default (home_directory h) path in
  let test_file := path_join h path benchmark_file_name in
  let io := benchmark_io h path in
  match io_open_write io with
  | Raise _ => benchmark_handler io test_file fs
  | Ok _ =>
      let fs1 := fs ∪ created_by_open io test_file in
      match io_write_sync io with
      | Raise _ => benchmark_handler io test_file fs1
      | Ok _ =>
          let write_time :=
            Float.sub (io_clock_write_end io) (io_clock_write_start io) in
          if Float.gt_int write_time timeout then (None, fs1)
          else
            match io_read io with
            | Raise _ => benchmark_handler io test_file fs1
            | Ok _ =>
                let read_time :=
                  Float.sub (io_clock_read_end io) (io_clock_read_start io) in
                match io_remove io with
                | Raise _ => benchmark_handler io test_file fs1
                | Ok _ =>
                    let fs2 := fs1 ∖ {[ test_file ]} in
                    match
                      (r ← mb_per_second size_mb read_time;
                       w ← mb_per_second size_mb write_time;
                       mret {| read_mb_s := r; write_mb_s := w |})
                    with
                    | Ok speeds => (Some speeds, fs2)
                    | Raise _ => benchmark_handler io test_file fs2
                    end
                end
            end
      end
  end.

(** ** [BatteryDetector] *)

Record battery_info : Type := {
  battery_percent : spec_float;
  battery_plugged : option bool;
  battery_time_left : string;
  battery_time_left_seconds : Z;
}.

(** [psutil.POWER_TIME_UNLIMITED] and [psutil.POWER_TIME_UNKNOWN] *)
Definition POWER_TIME_UNLIMITED : Z := -2.
Definition POWER_TIME_UNKNOWN : Z := -1.

Definition battery_time_left_label (battery : sbattery) : string :=
  let secsleft := batt_secsleft battery in
  if bool_decide (batt_power_plugged battery = Some true) then "Charging"
  else if secsleft =? POWER_TIME_UNLIMITED then "Unlimited"
  else if secsleft =? POWER_TIME_UNKNOWN then "Unknown"
  else Float.str_of_int (secsleft / 3600) +:+ "h " +:+
       Float.str_of_int ((secsleft mod 3600) / 60) +:+ "m".

Definition BatteryDetector_detect (h : Host) : result (option battery_info) :=
  match sensors_battery h with
  | Ok None => Ok None
  | Ok (Some battery) =>
      Ok (Some {| battery_percent := batt_percent battery;
                  battery_plugged := batt_power_plugged battery;
                  battery_time_left := battery_time_left_label battery;
                  battery_time_left_seconds :=
                    if 0 <=? batt_secsleft battery then batt_secsleft battery
                    else 0 |})
  | Raise _ => Ok None
  end.

(** ** [MotherboardDetector] *)

(** The WMI block: the first base board returns from the function; a missing
    attribute raises and the handler passes. *)
Definition wmi_motherboard (h : Host) : option string :=
  match wmi_base_boards h with
  | Ok (board :: _) =>
      match board_Manufacturer board, board_Product board with
      | Some manufacturer, Some product =>
          Some (Py.strip manufacturer +:+ " " +:+ Py.strip product)
      | _, _ => None
      end
  | _ => None
  end.

Definition MotherboardDetector_detect (h : Host) : result string :=
  let from_wmi :=
    if WMI_AVAILABLE h && Py.startswith "win" (sys_platform h)
    then wmi_motherboard h else None in
  match from_wmi with
  | Some board => mret board
  | None =>
      if Py.startswith "linux" (sys_platform h) then
        manufacturer ←
          run_command h "cat /sys/class/dmi/id/board_vendor 2>/dev/null"
            default_timeout;
        product ←
          run_command h "cat /sys/class/dmi/id/board_name 2>/dev/null"
            default_timeout;
        if Py.truthy manufacturer && Py.truthy product
        then mret (manufacturer +:+ " " +:+ product)
        else mret "N/A"
      else mret "N/A"
  end.

(** ** [AppleSiliconDetector] *)

Record apple_silicon_info : Type := {
  apple_chip : string;
  apple_variant : string;
  apple_unified_memory_gb : pynum;
  apple_supports_mlx : bool;
}.

Fixpoint chip_variant (variants : list string) (chip : string) : string :=
  match variants with
  | [] => "Unknown"
  | variant :: rest =>
      if Py.contains variant chip then variant else chip_variant rest chip
  end.

Definition AppleSiliconDetector_detect (h : Host)
    : result (option apple_silicon_info) :=
  if negb (String.eqb (sys_platform h) "darwin") then mret None
  else
    chip ← run_command h "sysctl -n machdep.cpu.brand_string" default_timeout;
    if negb (Py.truthy chip) || negb (Py.contains "Apple" chip) then mret None
    else
      mem_bytes ← run_command h "sysctl -n hw.memsize" default_timeout;
      mem_gb ←
        (if Py.isdigit mem_bytes
         then memory ← Py.int_of_str mem_bytes;
              PFloat <$> Float.int_true_div memory (1024 ^ 3)
         else mret (PInt 0));
      mret (Some {| apple_chip := chip;
                    apple_variant := chip_variant ["M1"; "M2"; "M3"; "M4"] chip;
                    apple_unified_memory_gb := mem_gb;
                    apple_supports_mlx := true |}).

(** ** The collector: [LLMNeofetch.collect_system_info] *)

(** The values of the dictionary [info]. *)
Inductive info_value : Type :=
  | VTimestamp (s : string)
  | VOs (os : os_info)
  | VUptime (u : uptime_info)
  | VCpu (c : cpu_info)
  | VGpus (l : list gpu_info)
  | VMemory (m : memory_info)
  | VDisks (l : list disk_info)
  | VBattery (b : option battery_info)
  | VMotherboard (s : string)
  | VAppleSilicon (a : apple_silicon_info).

(** [main_disk["benchmark"] = bench_result] on the first disk, which is the
    object held by [info["disks"]].  The progress line printed before the
    benchmark is output only and is left out. *)
Definition attach_benchmark (bench : bench_result) (disks : list disk_info)
    : list disk_info :=
  match disks with
  | [] => []
  | main :: rest =>
      {| disk_mountpoint := disk_mountpoint main;
         disk_device := disk_device main;
         disk_fstype := disk_fstype main;
         disk_total_bytes := disk_total_bytes main;
         disk_used_bytes := disk_used_bytes main;
         disk_free_bytes := disk_free_bytes main;
         disk_percent := disk_percent main;
         disk_type := disk_type main;
         disk_is_system := disk_is_system main;
         disk_benchmark := Some bench |} :: rest
  end.

Definition collect_system_info (h : Host) (fs : gset string) (benchmark : bool)
    : result (gmap string info_value * gset string) :=
  let timestamp := now_isoformat h in
  os ← OSDetector_detect h;
  uptime ← OSDetector_get_uptime h;
  cpu ← CPUDetector_detect h;
  gpus ← GPUDetector_detect h;
  memory ← MemoryDetector_detect h;
  disks ← DiskDetector_detect h;
  battery ← BatteryDetector_detect h;
  motherboard ← MotherboardDetector_detect h;
  let info : gmap string info_value :=
    <["motherboard" := VMotherboard motherboard]>
    (<["battery" := VBattery battery]>
    (<["disks" := VDisks disks]>
    (<["memory" := VMemory memory]>
    (<["gpus" := VGpus gpus]>
    (<["cpu" := VCpu cpu]>
    (<["uptime" := VUptime uptime]>
    (<["os" := VOs os]>
    (<["timestamp" := VTimestamp timestamp]> ∅)))))))) in
  apple_silicon ← AppleSiliconDetector_detect h;
  let info :=
    match apple_silicon with
    | Some apple => <["apple_silicon" := VAppleSilicon apple]> info
    | None => info
    end in
  match disks with
  | main_disk :: _ =>
      if benchmark then
        let '(bench_result, fs') :=
          DiskDetector_benchmark_speed h fs (Some (disk_mountpoint main_disk))
            100 30 in
        match bench_result with
        | Some bench =>
            mret (<["disks" := VDisks (attach_benchmark bench disks)]> info, fs')
        | None => mret (info, fs')
        end
      else mret (info, fs)
  | [] => mret (info, fs)
  end.

(** ** [UIRenderer.format_size] *)

(** [l[i]] with the negative indices of Python, which count from the end. *)
Definition list_item {A : Type} (l : list A) (i : Z) : result A :=
  let j := if i <? 0 then i + Z.of_nat (length l) else i in
  if j <? 0 then Raise IndexError
  else match l !! Z.to_nat j with
       | Some x => Ok x
       | None => Raise IndexError
       end.

Section UIRenderer.

(** The function [log] of the C library on doubles, the natural logarithm:
    IEEE 754 does not fix its results, so it is a parameter.  All that Python
    does around it is computed below. *)
Variable libm_log : spec_float -> spec_float.

(** [loghelper(arg, m_log)] of [mathmodule.c] on a positive [int]: the
    logarithm of its float, and for an [int] beyond the floats
    [log(x) + log(2.0) * e] with [x] and [e] of [_PyLong_Frexp]. *)
Definition loghelper (arg : Z) : spec_float :=
  match Float.of_int_checked arg with
  | Ok x => libm_log x
  | Raise _ =>
      let '(x, e) := Float.frexp_int arg in
      Float.add (libm_log x) (Float.mul (libm_log (Float.of_int 2)) (Float.of_int e))
  end.

(** [math.log(x, base)] on two [int]s: [ValueError] unless both are positive,
    then the quotient of the two logarithms as floats. *)
Definition math_log (x base : Z) : result spec_float :=
  if x <=? 0 then Raise ValueError
  else if base <=? 0 then Raise ValueError
  else Float.float_div (loghelper x) (loghelper base).

(** [int(math.log(bytes_val, 1024))] *)
Definition int_log1024 (bytes_val : Z) : result Z :=
  logarithm ← math_log bytes_val 1024;
  Float.to_int logarithm.

Definition units : list string := [""; "Ki"; "Mi"; "Gi"; "Ti"; "Pi"].

(** [i = int(math.log(bytes_val, 1024))] and [i = min(i, len(units) - 1)] *)
Definition unit_index (bytes_val : Z) : result Z :=
  i ← int_log1024 bytes_val;
  mret (Z.min i (Z.of_nat (length units) - 1)).

(** [UIRenderer.format_size] on an [int].  [p = 1024**i] is an [int] for
    [i >= 0] and a float for a negative [i], which only a logarithm below
    zero can give; the scaled value is formatted before [units[i]] is
    indexed. *)
Definition format_size (bytes_val : Z) (suffix : string) : result string :=
  if bytes_val =? 0 then Ok "0 B"
  else
    i ← unit_index bytes_val;
    scaled ←
      (if 0 <=? i then Float.int_true_div bytes_val (1024 ^ i)
       else value ← Float.of_int_checked bytes_val;
            Float.float_div value (Float.pow2 (10 * i)));
    unit ← list_item units i;
    mret (Float.format_1f scaled +:+ " " +:+ unit +:+ suffix).

End UIRenderer.

(** The logarithm of a reference platform, CPython 3.11 on x86-64 Linux, at
    the floats of a few integers: for each integer the mantissa and the
    exponent of [math.log(float(n))].  The logarithms of 2^50 - 1 and of 2^50
    are the same float. *)
Definition reference_log_table : list (Z * (Z * Z)) :=
  [ (1024, (7804143460206699, -50));
    (1536, (8260656587653616, -50));
    (1024 ^ 2, (7804143460206699, -49));
    (1024 ^ 3, (5853107595155024, -48));
    (1024 ^ 4, (7804143460206699, -48));
    (2 ^ 50 - 1, (4877589662629187, -47));
    (1024 ^ 5, (4877589662629187, -47));
    (1024 ^ 6, (5853107595155024, -47)) ].

Fixpoint table_log (table : list (Z * (Z * Z))) (x : spec_float) : spec_float :=
  match table with
  | [] => S754_nan
  | (n, (m, e)) :: rest =>
      if SFeqb x (Float.of_int n) then S754_finite false (Z.to_pos m) e
      else table_log rest x
  end.

(** It is 0.0 at 1.0 and not a number off the table. *)
Definition reference_log (x : spec_float) : spec_float :=
  if SFeqb x (Float.of_int 1) then Float.zero
  else table_log reference_log_table x.

(** ** Hosts used as concrete inputs *)

Definition newline : string := String "010" EmptyString.

Definition usage_of (total used : Z) : sdiskusage :=
  {| usage_total := total;
     usage_used := used;
     usage_free := total - used;
     usage_percent := Float.of_int 50 |}.

Definition quiet_io : bench_io :=
  {| io_clock_write_start := Float.of_int 100;
     io_open_write := Ok ();
     io_write_sync := Ok ();
     io_clock_write_end := Float.of_int 101;
     io_clock_read_start := Float.of_int 101;
     io_read := Ok ();
     io_clock_read_end := Float.of_int 102;
     io_remove := Ok ();
     io_remove_in_handler := Ok ();
     io_link_target := None |}.

(** A host described by the facilities the examples vary; the others are
    fixed.  Its [float] parser reads unsigned decimal integers, which is all
    the examples feed it. *)
Definition make_host (platform : string) (wmi : bool)
    (commands : string -> Z -> result string) (tools : string -> bool)
    (processor : string)
    (now boot : Z)
    (memory : result svmem)
    (partitions : list sdiskpart) (usage : string -> result sdiskusage)
    (files : string -> result string)
    (videos : result (list wmi_video))
    (io : bench_io) : Host :=
  {| sys_platform := platform;
     WMI_AVAILABLE := wmi;
     check_output := commands;
     which := tools;
     float_of_str := fun s =>
       if Py.isdigit s then Some (Float.of_int (Py.int_of_digits 0 s)) else None;
     platform_uname :=
       {| uname_system := "System"; uname_release := "1.0";
          uname_version := "#1"; uname_machine := "x86_64";
          uname_processor := processor |};
     platform_system := "System";
     platform_platform := "System-1.0";
     platform_python_version := "3.11.0";
     platform_processor := processor;
     now_isoformat := "2024-01-01T00:00:00";
     datetime_now := now;
     boot_datetime := Ok boot;
     cpu_count_physical := Ok (Some 4);
     cpu_count_logical := Ok (Some 8);
     cpu_freq := Ok None;
     cpu_percent := Ok (Float.of_int 3);
     sensors_temperatures := Raise AttributeError;
     virtual_memory := memory;
     swap_memory :=
       Ok {| swap_total := 0; swap_used := 0; swap_percent := Float.zero |};
     disk_partitions := Ok partitions;
     disk_usage := usage;
     read_file := files;
     sensors_battery := Ok None;
     wmi_video_controllers := videos;
     wmi_base_boards := Raise RuntimeError;
     home_directory := "/home/user";
     path_join := fun d name => d +:+ "/" +:+ name;
     benchmark_io := fun _ => io |}.

Definition no_commands (cmd : string) (timeout : Z) : result string :=
  Raise CalledProcessError.

Definition no_tools (tool : string) : bool := false.

Definition memory_16g : result svmem :=
  Ok {| vmem_total := 16 * 1024 ^ 3; vmem_available := 8 * 1024 ^ 3;
        vmem_used := 8 * 1024 ^ 3; vmem_percent := Float.of_int 50 |}.

Definition partition_of (device mountpoint : string) : sdiskpart :=
  {| part_device := device; part_mountpoint := mountpoint;
     part_fstype := "ext4"; part_opts := "rw" |}.

Definition sample_partitions : list sdiskpart :=
  [ partition_of "/dev/sdb1" "/data";
    partition_of "/dev/loop3" "/snap/core";
    partition_of "/dev/sda2" "/home";
    partition_of "/dev/nvme0n1p2" "/";
    partition_of "/dev/sdc1" "/backup" ].

Definition every_usage (mountpoint : string) : result sdiskusage :=
  Ok (usage_of 1000 400).

Definition rotational_files (path : string) : result string :=
  if String.eqb path "/sys/block/sda/queue/rotational" then Ok ("0" +:+ newline)
  else if String.eqb path "/sys/block/sdb/queue/rotational" then Ok ("1" +:+ newline)
  else Raise FileNotFoundError.

(** A Linux machine without vendor tools, one second short of a day up. *)
Definition linux_host : Host :=
  make_host "linux" false no_commands no_tools "x86_64"
    (86400 * 1000000 * 739000) (86400 * 1000000 * 738999 + 1000000)
    memory_16g sample_partitions every_usage rotational_files
    (Raise RuntimeError) quiet_io.

(** ** Vocabulary of the properties, and further hosts *)

Definition echo_commands (cmd : string) (timeout : Z) : result string :=
  if String.eqb cmd "echo test" then Ok ("test" +:+ newline)
  else Raise CalledProcessError.

Definition echo_host : Host :=
  make_host "linux" false echo_commands no_tools "x86_64"
    2000000 1000000 memory_16g [] every_usage rotational_files
    (Raise RuntimeError) quiet_io.

(** A Windows machine without vendor tools, whose WMI lists one adapter. *)
Definition windows_wmi_host : Host :=
  make_host "win32" true no_commands no_tools "Intel64 Family 6"
    2000000 1000000 memory_16g [] every_usage rotational_files
    (Ok [ {| video_Name := Some "NVIDIA GeForce RTX 3080";
             video_AdapterRAM := Some (4 * 1024 ^ 3) |} ])
    quiet_io.

(** [== 0] on the four numeric fields of a GPU record. *)
Definition gpu_numbers_all_zero (g : gpu_info) : bool :=
  pynum_is_zero (gpu_vram_total_gb g) && pynum_is_zero (gpu_vram_used_gb g) &&
  pynum_is_zero (gpu_utilization_percent g) &&
  match gpu_temperature_c g with
  | Some t => pynum_is_zero t
  | None => false
  end.

(** The vendor strings of the documented set. *)
Definition claimed_vendors : list string := ["NVIDIA"; "AMD"; "Intel"; "Unknown"].

(** The vendor strings the four paths and the sentinel write. *)
Definition written_vendors : list string :=
  ["NVIDIA"; "AMD"; "Intel"; "Integrated/Discrete"; "Unknown"].

(** The exceptions of the temperature sensors that [_get_temperature]
    handles. *)
Definition temperature_guarded (h : Host) : Prop :=
  match sensors_temperatures h with
  | Ok _ => True
  | Raise e => e = AttributeError \/ e = KeyError
  end.

(** The psutil calls of [CPUDetector.detect] return. *)
Definition cpu_facilities_ok (h : Host) : Prop :=
  is_ok (cpu_count_physical h) /\ is_ok (cpu_count_logical h) /\
  is_ok (cpu_freq h) /\ is_ok (cpu_percent h) /\ temperature_guarded h.

(** A Windows machine whose processor identifier is empty and whose wmic
    prints its header line only. *)
Definition wmic_commands (cmd : string) (timeout : Z) : result string :=
  if String.eqb cmd "wmic cpu get name" then Ok ("Name  " +:+ newline)
  else Raise CalledProcessError.

Definition windows_header_only_host : Host :=
  make_host "win32" false wmic_commands no_tools ""
    2000000 1000000 memory_16g [] every_usage rotational_files
    (Raise RuntimeError) quiet_io.





(** The partitions the loop of [DiskDetector.detect] does not pass over. *)
Definition partition_kept (partition : sdiskpart) : bool :=
  negb (String.eqb (part_fstype partition) "" ||
        Py.contains "loop" (part_device partition)).

(** Every exception of [psutil.disk_usage] on a partition the loop reads is a
    [PermissionError]. *)
Definition disk_usage_guarded (h : Host) : Prop :=
  forall partitions partition e,
    disk_partitions h = Ok partitions ->
    partition ∈ partitions ->
    partition_kept partition = true ->
    disk_usage h (part_mountpoint partition) = Raise e ->
    e = PermissionError.

(** The temporary file of a benchmark in [path]. *)
Definition benchmark_test_file (h : Host) (path : option string) : string :=
  path_join h (default (home_directory h) path) benchmark_file_name.

(** The write phase completed and took longer than [timeout] seconds. *)
Definition write_timed_out (h : Host) (path : option string) (timeout : Z) : Prop :=
  let io := benchmark_io h (default (home_directory h) path) in
  is_ok (io_open_write io) /\ is_ok (io_write_sync io) /\
  Float.gt_int (Float.sub (io_clock_write_end io) (io_clock_write_start io))
    timeout = true.

(** A volume whose write phase takes 31 seconds. *)
Definition slow_write_io : bench_io :=
  {| io_clock_write_start := Float.of_int 100;
     io_open_write := Ok ();
     io_write_sync := Ok ();
     io_clock_write_end := Float.of_int 131;
     io_clock_read_start := Float.of_int 131;
     io_read := Ok ();
     io_clock_read_end := Float.of_int 132;
     io_remove := Ok ();
     io_remove_in_handler := Ok ();
     io_link_target := None |}.

Definition slow_disk_host : Host :=
  make_host "linux" false no_commands no_tools "x86_64"
    2000000 1000000 memory_16g sample_partitions every_usage rotational_files
    (Raise RuntimeError) slow_write_io.

(** The microseconds from 0001-01-01 to the end of the year 9999: the range
    of a [datetime]. *)
Definition datetime_range : Z := 315537897600 * 1000000.

Definition valid_datetime (t : Z) : Prop := 0 <= t < datetime_range.

(** A machine booted at the start of 1970 whose clock reads a date of the
    year 3058: 34359738419.999999 seconds of uptime. *)
Definition long_uptime_host : Host :=
  make_host "linux" false no_commands no_tools "x86_64"
    (62135596800 * 1000000 + 34359738419999999) (62135596800 * 1000000)
    memory_16g sample_partitions every_usage rotational_files
    (Raise RuntimeError) quiet_io.




(** The memory size that sysctl prints on an Apple machine is ASCII text,
    so that [isdigit] accepts no other digits than 0 to 9, and when it is a
    number it has no more digits than [int] converts and is below 2^1000: its
    quotient by 1024^3 is a float. *)
Definition apple_memory_in_range (h : Host) : Prop :=
  forall s, run_command h "sysctl -n hw.memsize" default_timeout = Ok s ->
            Py.isascii s = true /\
            (Py.isdigit s = true ->
             (String.length s <= Py.int_max_str_digits)%nat /\
             Py.int_of_digits 0 s < 2 ^ 1000).

(** The keys of the dictionary literal of the collector. *)
Definition base_keys : gset string :=
  {[ "timestamp"; "os"; "uptime"; "cpu"; "gpus"; "memory"; "disks"; "battery";
     "motherboard" ]}.

(** What the probes leave to the host: the calls made outside every handler
    return, and the calls made under a narrow handler raise nothing but what
    it names. *)
Definition host_calls_guarded (h : Host) : Prop :=
  (exists boot, boot_datetime h = Ok boot /\ valid_datetime boot) /\
  valid_datetime (datetime_now h) /\
  cpu_facilities_ok h /\
  is_ok (virtual_memory h) /\ is_ok (swap_memory h) /\
  is_ok (disk_partitions h) /\ disk_usage_guarded h /\
  apple_memory_in_range h.

(** A machine with a mount point whose usage cannot be read because it is
    gone, which is not a permission error. *)
Definition stale_usage (mountpoint : string) : result sdiskusage :=
  if String.eqb mountpoint "/data" then Raise FileNotFoundError
  else Ok (usage_of 1000 400).

Definition stale_mount_host : Host :=
  make_host "linux" false no_commands no_tools "x86_64"
    2000000 1000000 memory_16g sample_partitions stale_usage rotational_files
    (Raise RuntimeError) quiet_io.

(** A machine whose memory statistics cannot be read. *)
Definition no_memory_host : Host :=
  make_host "linux" false no_commands no_tools "x86_64"
    2000000 1000000 (Raise OSError) sample_partitions every_usage
    rotational_files (Raise RuntimeError) quiet_io.

(** [n] times the digit 0. *)
Fixpoint zeros (n : nat) : string :=
  match n with
  | O => EmptyString
  | S k => String "0" (zeros k)
  end.

(** A Mac whose sysctl prints a memory size of 5000 digits, all of them 0. *)
Definition long_memsize_commands (cmd : string) (timeout : Z) : result string :=
  if String.eqb cmd "sysctl -n machdep.cpu.brand_string"
  then Ok ("Apple M1" +:+ newline)
  else if String.eqb cmd "sysctl -n hw.memsize"
  then Ok (zeros 5000 +:+ newline)
  else Raise CalledProcessError.

Definition long_memsize_host : Host :=
  make_host "darwin" false long_memsize_commands no_tools "arm"
    2000000 1000000 memory_16g sample_partitions every_usage rotational_files
    (Raise RuntimeError) quiet_io.

(** ** [UIRenderer.center_text] *)

(** The characters of the class [[0-9;]]. *)
Definition is_sgr (c : ascii) : bool := Py.is_decimal c || Ascii.eqb c ";".

(** The number of characters of that class at the start of [s]. *)
Fixpoint sgr_run (s : string) : nat :=
  match s with
  | EmptyString => 0
  | String c r => if is_sgr c then S (sgr_run r) else 0
  end.

(** [s[n:]] *)
Fixpoint string_drop (n : nat) (s : string) : string :=
  match n, s with
  | O, _ => s
  | S _, EmptyString => EmptyString
  | S k, String _ r => string_drop k r
  end.

(** The length of the match of the pattern [\033\[[0-9;]+m] at the start of
    [s], when there is one: ESC, an opening bracket, the longest run of the
    class, which is not empty, and the letter m. *)
Definition ansi_match (s : string) : option nat :=
  match s with
  | String e (String b rest) =>
      if Ascii.eqb e "027" && Ascii.eqb b "[" then
        let n := sgr_run rest in
        match n, string_drop n rest with
        | S _, String m _ => if Ascii.eqb m "m" then Some (n + 3)%nat else None
        | _, _ => None
        end
      else None
  | _ => None
  end.

(** [re.sub(r"\033\[[0-9;]+m", "", s)], with the number of characters of the
    current match still to be left out: the matches are taken from left to
    right and do not overlap. *)
Fixpoint sub_ansi (skip : nat) (s : string) : string :=
  match s with
  | EmptyString => EmptyString
  | String c r =>
      match skip with
      | S k => sub_ansi k r
      | O =>
          match ansi_match s with
          | Some n => sub_ansi (n - 1) r
          | None => String c (sub_ansi 0 r)
          end
      end
  end.

(** [n] spaces. *)
Fixpoint pad (n : nat) : string :=
  match n with
  | O => EmptyString
  | S k => String " " (pad k)
  end.

(** [" " * n]: empty for a count that is not positive. *)
Definition spaces (n : Z) : string := pad (Z.to_nat n).

(** [UIRenderer.center_text] *)
Definition center_text (text : string) (width : Z) : string :=
  let clean_text := sub_ansi 0 text in
  let padding := Z.max 0 (width - Z.of_nat (String.length clean_text)) in
  let left_pad := padding / 2 in
  let right_pad := padding - left_pad in
  spaces left_pad +:+ text +:+ spaces right_pad.

(** ** [LLMNeofetch.interactive_mode], [LLMNeofetch.export] and the export
    format of [main] *)

(** What [input(prompt)] does: a line, Ctrl-C, the end of the input, or
    another exception. *)
Inductive input_outcome : Type :=
  | InputLine (line : string)
  | InputKeyboardInterrupt
  | InputEOFError
  | InputRaises (e : exn).

(** [LLMNeofetch.interactive_mode]: the handler takes [KeyboardInterrupt] and
    [EOFError]. *)
Definition interactive_mode (answer : input_outcome) : result Z :=
  match answer with
  | InputLine line =>
      let choice := Py.strip line in
      if bool_decide (choice ∈ ["1"; "2"; "3"])
      then Ok (Py.int_of_digits 0 choice)
      else Ok 2
  | InputKeyboardInterrupt | InputEOFError => Ok 2
  | InputRaises e => Raise e
  end.





(** [disks[0]["type"] if disks else "Unknown"]: the storage type that
    [display_system_info] hands to the recommendations and the tips. *)
Definition display_disk_type (disks : list disk_info) : string :=
  match disks with
  | main_disk :: _ => disk_type main_disk
  | [] => "Unknown"
  end.

(** ** Vocabulary of the further properties *)

(** No whitespace at the start of [s]. *)
Definition no_leading_space (s : string) : bool :=
  match s with
  | EmptyString => true
  | String c _ => negb (Py.is_space c)
  end.

(** No whitespace at the end of [s]. *)
Fixpoint no_trailing_space (s : string) : bool :=
  match s with
  | EmptyString => true
  | String c EmptyString => negb (Py.is_space c)
  | String _ r => no_trailing_space r
  end.

(** The two disks have the same sort key. *)
Definition same_disk_key (a b : disk_info) : bool :=
  disk_key_le a b && disk_key_le b a.

(** The storage types that [_detect_disk_type] writes. *)
Definition disk_types : list string := ["NVMe"; "SSD"; "HDD"; "Unknown"].

(** The variant tags of [AppleSiliconDetector.detect]. *)
Definition apple_variants : list string := ["M1"; "M2"; "M3"; "M4"].

(** The host [h] with other temperature sensors. *)
Definition with_sensors (temps : result (list (string * list spec_float)))
    (h : Host) : Host :=
  {| sys_platform := sys_platform h;
     WMI_AVAILABLE := WMI_AVAILABLE h;
     check_output := check_output h;
     which := which h;
     float_of_str := float_of_str h;
     platform_uname := platform_uname h;
     platform_system := platform_system h;
     platform_platform := platform_platform h;
     platform_python_version := platform_python_version h;
     platform_processor := platform_processor h;
     now_isoformat := now_isoformat h;
     datetime_now := datetime_now h;
     boot_datetime := boot_datetime h;
     cpu_count_physical := cpu_count_physical h;
     cpu_count_logical := cpu_count_logical h;
     cpu_freq := cpu_freq h;
     cpu_percent := cpu_percent h;
     sensors_temperatures := temps;
     virtual_memory := virtual_memory h;
     swap_memory := swap_memory h;
     disk_partitions := disk_partitions h;
     disk_usage := disk_usage h;
     read_file := read_file h;
     sensors_battery := sensors_battery h;
     wmi_video_controllers := wmi_video_controllers h;
     wmi_base_boards := wmi_base_boards h;
     home_directory := home_directory h;
     path_join := path_join h;
     benchmark_io := benchmark_io h |}.

(** A machine whose sensors list the group coretemp after two others. *)
Definition sensor_host : Host :=
  with_sensors
    (Ok [("acpitz", [Float.of_int 40]); ("nvme", []);
         ("coretemp", [Float.of_int 55; Float.of_int 57])])
    linux_host.

(** One line of nvidia-smi gave the record [g]: it has at least five fields,
    the second to the fourth are numbers, and the fifth is a number or the
    token of nvidia-smi for a missing value. *)
Definition nvidia_record_of_line (h : Host) (line : string) (g : gpu_info) : Prop :=
  exists p1 p2 p3 p4 rest total used utilization,
    Py.strip <$> Py.split "," line = gpu_name g :: p1 :: p2 :: p3 :: p4 :: rest /\
    float_of_str h p1 = Some total /\
    float_of_str h p2 = Some used /\
    float_of_str h p3 = Some utilization /\
    gpu_vram_total_gb g = PFloat (Float.div total (Float.of_int 1024)) /\
    gpu_vram_used_gb g = PFloat (Float.div used (Float.of_int 1024)) /\
    gpu_utilization_percent g = PFloat utilization /\
    (gpu_temperature_c g = None <-> p4 = "[N/A]") /\
    (p4 <> "[N/A]" ->
     exists t, float_of_str h p4 = Some t /\ gpu_temperature_c g = Some (PFloat t)).

(** The name [_detect_amd] gives for the lines of rocm-smi: its default, or
    the second colon-separated field of a line that mentions GPU or Card. *)
Definition amd_name_of_lines (lines : list string) (name : string) : Prop :=
  name = "AMD GPU" \/
  exists line p0 p1 rest,
    line ∈ lines /\
    Py.contains "GPU" line || Py.contains "Card" line = true /\
    Py.split ":" line = p0 :: p1 :: rest /\
    name = Py.strip p1.

(** A machine with nvidia-smi, which prints a line for a card without a
    temperature sensor, a line that is not a record, and a full line. *)
Definition nvidia_commands (cmd : string) (timeout : Z) : result string :=
  if String.eqb cmd nvidia_query
  then Ok ("Tesla K80, 11441, 0, 0, [N/A]" +:+ newline +:+
           "Failed to initialize NVML" +:+ newline +:+
           "GeForce RTX 3080, 10240, 512, 7, 45" +:+ newline)
  else if String.eqb cmd "rocm-smi --showproductname"
  then Ok ("GPU[0] : Card series: Radeon RX 7900" +:+ newline +:+
           "GPU[1] : Card series: Radeon RX 6800" +:+ newline)
  else Raise CalledProcessError.

Definition vendor_tools (tool : string) : bool :=
  String.eqb tool "nvidia-smi" || String.eqb tool "rocm-smi".

Definition vendor_tools_host : Host :=
  make_host "linux" false nvidia_commands vendor_tools "x86_64"
    2000000 1000000 memory_16g sample_partitions every_usage rotational_files
    (Raise RuntimeError) quiet_io.

(** A Windows machine whose WMI lists an adapter without a name between two
    adapters with one. *)
Definition nameless_video : wmi_video :=
  {| video_Name := None; video_AdapterRAM := Some (1024 ^ 3) |}.

Definition three_adapters : list wmi_video :=
  [ {| video_Name := Some "Intel(R) UHD Graphics 630";
       video_AdapterRAM := Some (1024 ^ 3) |};
    nameless_video;
    {| video_Name := Some "NVIDIA GeForce RTX 3080";
       video_AdapterRAM := Some (4 * 1024 ^ 3) |} ].

Definition nameless_adapter_host : Host :=
  make_host "win32" true no_commands no_tools "Intel64 Family 6"
    2000000 1000000 memory_16g [] every_usage rotational_files
    (Ok three_adapters) quiet_io.

(** [psutil.disk_usage] returns for the mount point of [partition]. *)
Definition usage_readable (h : Host) (partition : sdiskpart) : bool :=
  match disk_usage h (part_mountpoint partition) with
  | Ok _ => true
  | Raise _ => false
  end.

(** The partitions for which the loop of [DiskDetector.detect] appends a
    record. *)
Definition partition_listed (h : Host) (partition : sdiskpart) : bool :=
  partition_kept partition && usage_readable h partition.

(** The record [d] describes [partition] as [DiskDetector.detect] reads
    it. *)
Definition disk_of_partition (h : Host) (partition : sdiskpart) (d : disk_info)
    : Prop :=
  exists usage,
    disk_usage h (part_mountpoint partition) = Ok usage /\
    disk_mountpoint d = part_mountpoint partition /\
    disk_device d = part_device partition /\
    disk_fstype d = part_fstype partition /\
    disk_total_bytes d = usage_total usage /\
    disk_used_bytes d = usage_used usage /\
    disk_free_bytes d = usage_free usage /\
    disk_percent d = usage_percent usage /\
    disk_type d = DiskDetector_detect_disk_type h (part_device partition) /\
    disk_is_system d = is_system_partition partition.

(** A machine with two volumes mounted on the same path. *)
Definition bind_mount_partitions : list sdiskpart :=
  [ partition_of "/dev/sdb1" "/mnt";
    partition_of "/dev/sda1" "/";
    partition_of "/dev/sdc1" "/mnt" ].

Definition bind_mount_host : Host :=
  make_host "linux" false no_commands no_tools "x86_64"
    2000000 1000000 memory_16g bind_mount_partitions every_usage
    rotational_files (Raise RuntimeError) quiet_io.

(** The benchmark completed: every file operation of its [try] block
    returned and the write phase stayed within [timeout] seconds. *)
Definition benchmark_completed (h : Host) (path : option string) (timeout : Z)
    : Prop :=
  let io := benchmark_io h (default (home_directory h) path) in
  is_ok (io_open_write io) /\ is_ok (io_write_sync io) /\
  Float.gt_int (Float.sub (io_clock_write_end io) (io_clock_write_start io))
    timeout = false /\
  is_ok (io_read io) /\ is_ok (io_remove io).

(** A machine on which the temporary name of the benchmark in the home
    directory is a symbolic link to another file. *)
Definition linked_io : bench_io :=
  {| io_clock_write_start := Float.of_int 100;
     io_open_write := Ok ();
     io_write_sync := Ok ();
     io_clock_write_end := Float.of_int 101;
     io_clock_read_start := Float.of_int 101;
     io_read := Ok ();
     io_clock_read_end := Float.of_int 102;
     io_remove := Ok ();
     io_remove_in_handler := Ok ();
     io_link_target := Some "/home/user/data.bin" |}.

Definition linked_temp_host : Host :=
  make_host "linux" false no_commands no_tools "x86_64"
    2000000 1000000 memory_16g sample_partitions every_usage rotational_files
    (Raise RuntimeError) linked_io.

(** The dictionary of a disk without its key [benchmark]. *)
Definition without_benchmark (d : disk_info) : disk_info :=
  {| disk_mountpoint := disk_mountpoint d;
     disk_device := disk_device d;
     disk_fstype := disk_fstype d;
     disk_total_bytes := disk_total_bytes d;
     disk_used_bytes := disk_used_bytes d;
     disk_free_bytes := disk_free_bytes d;
     disk_percent := disk_percent d;
     disk_type := disk_type d;
     disk_is_system := disk_is_system d;
     disk_benchmark := None |}.

(** The snapshot holds under [key] what the probe returned. *)
Definition holds_result {A : Type} (info : gmap string info_value)
    (key : string) (wrap : A -> info_value) (probe : result A) : Prop :=
  exists a, probe = Ok a /\ info !! key = Some (wrap a).

(** A machine whose clock reads one second less than its boot time. *)
Definition clock_behind_host : Host :=
  make_host "linux" false no_commands no_tools "x86_64"
    1000000 2000000 memory_16g sample_partitions every_usage rotational_files
    (Raise RuntimeError) quiet_io.

(** A Mac with an M2 chip and 16 GiB of memory. *)
Definition apple_commands (cmd : string) (timeout : Z) : result string :=
  if String.eqb cmd "sysctl -n machdep.cpu.brand_string"
  then Ok ("Apple M2 Pro" +:+ newline)
  else if String.eqb cmd "sysctl -n hw.memsize"
  then Ok ("17179869184" +:+ newline)
  else Raise CalledProcessError.

Definition apple_host : Host :=
  make_host "darwin" false apple_commands no_tools "arm"
    2000000 1000000 memory_16g sample_partitions every_usage rotational_files
    (Raise RuntimeError) quiet_io.

(** The host [h] with another battery sensor. *)
Definition with_battery (battery : result (option sbattery)) (h : Host) : Host :=
  {| sys_platform := sys_platform h;
     WMI_AVAILABLE := WMI_AVAILABLE h;
     check_output := check_output h;
     which := which h;
     float_of_str := float_of_str h;
     platform_uname := platform_uname h;
     platform_system := platform_system h;
     platform_platform := platform_platform h;
     platform_python_version := platform_python_version h;
     platform_processor := platform_processor h;
     now_isoformat := now_isoformat h;
     datetime_now := datetime_now h;
     boot_datetime := boot_datetime h;
     cpu_count_physical := cpu_count_physical h;
     cpu_count_logical := cpu_count_logical h;
     cpu_freq := cpu_freq h;
     cpu_percent := cpu_percent h;
     sensors_temperatures := sensors_temperatures h;
     virtual_memory := virtual_memory h;
     swap_memory := swap_memory h;
     disk_partitions := disk_partitions h;
     disk_usage := disk_usage h;
     read_file := read_file h;
     sensors_battery := battery;
     wmi_video_controllers := wmi_video_controllers h;
     wmi_base_boards := wmi_base_boards h;
     home_directory := home_directory h;
     path_join := path_join h;
     benchmark_io := benchmark_io h |}.

(** A laptop on battery with an hour and a half left. *)
Definition laptop_host : Host :=
  with_battery
    (Ok (Some {| batt_percent := Float.of_int 80;
                 batt_secsleft := 5430;
                 batt_power_plugged := Some false |}))
    linux_host.

(** The width of [text] on the terminal: its length without the colour
    sequences. *)
Definition visible_length (text : string) : Z :=
  Z.of_nat (String.length (sub_ansi 0 text)).

(** A title in bold: ESC[1m, the text, ESC[0m. *)
Definition bold_title : string :=
  String "027" "[1mGPU" +:+ String "027" "[0m".


(** * Properties *)

(** Runs the binds of the error monad whose first computation has returned. *)
Ltac run := cbn [mbind result_bind mret result_ret fmap result_fmap].

(** ** The embedding on concrete inputs *)

(** The assertions of [tests/test_all.py] on [format_size], with the
    logarithm of the reference platform; and the quotients of logarithms
    that [math.log(n, 1024)] returns there: 1.0 at 1024, 3.0 at 1024^3, and
    5.0 at 2^50 - 1 as at 2^50. *)
Example test_format_size :
  format_size reference_log 0 "B" = Ok "0 B" /\
  format_size reference_log 1024 "B" = Ok "1.0 KiB" /\
  format_size reference_log (1024 ^ 2) "B" = Ok "1.0 MiB" /\
  format_size reference_log (1024 ^ 3) "B" = Ok "1.0 GiB" /\
  format_size reference_log (1024 ^ 4) "B" = Ok "1.0 TiB" /\
  math_log reference_log 1024 1024 = Ok (Float.of_int 1) /\
  math_log reference_log (1024 ^ 3) 1024 = Ok (Float.of_int 3) /\
  math_log reference_log (2 ^ 50 - 1) 1024 = Ok (Float.of_int 5) /\
  math_log reference_log (2 ^ 50) 1024 = Ok (Float.of_int 5).
Proof. repeat split; vm_compute; reflexivity. Qed.

(** The parts of [format_size] that no sound logarithm reaches: a power of
    1024 with a negative exponent is a float, which underflows to 0.0, and a
    negative index counts from the end of the list. *)
Example negative_index_and_power :
  Float.pow2 (-10) = Float.div (Float.of_int 1) (Float.of_int 1024) /\
  Float.pow2 (-1080) = Float.zero /\
  list_item units (-1) = Ok "Pi" /\
  list_item units (-6) = Ok "" /\
  list_item units (-7) = Raise IndexError /\
  list_item units 6 = Raise IndexError /\
  Float.frexp_int (2 ^ 1024) = (Float.div (Float.of_int 1) (Float.of_int 2), 1025).
Proof. repeat split; vm_compute; reflexivity. Qed.

(** Python's [str] methods on sample texts: the two-line output of wmic, a
    line of nvidia-smi, a line of rocm-smi. *)
Example str_methods :
  Py.splitlines ("Name" +:+ String "013" newline +:+ "Intel Core i7" +:+ newline)
    = ["Name"; "Intel Core i7"] /\
  Py.strip <$> Py.split "," "RTX 3080, 10240, 512, 7, [N/A]"
    = ["RTX 3080"; "10240"; "512"; "7"; "[N/A]"] /\
  amd_name ["GPU[0] : Card series: Radeon RX 7900"] = "Card series" /\
  Py.strip ("  test " +:+ newline) = "test" /\
  search_dev "/dev/mapper/vg-root" = Some "mapper" /\
  search_dev (Py.lower "\\.\PhysicalDrive0") = None.
Proof. repeat split; vm_compute; reflexivity. Qed.

(** True division of integers below 2^53 is the IEEE division of their
    floats, and [.1f] rounds the binary value: 0.35 is printed as 0.3. *)
Example true_division_and_format :
  Float.int_true_div 7 3 = Ok (Float.div (Float.of_int 7) (Float.of_int 3)) /\
  Float.int_true_div 1536 1024
    = Ok (Float.div (Float.of_int 1536) (Float.of_int 1024)) /\
  Float.format_1f <$> Float.int_true_div 35 100 = Ok "0.3" /\
  Float.format_1f <$> Float.int_true_div (-7) 2 = Ok "-3.5" /\
  (x ← Float.int_true_div (-7) 2; Float.to_int x) = Ok (-3).
Proof. repeat split; vm_compute; reflexivity. Qed.

(** ** The command runner *)

Lemma run_command_ok (h : Host) (cmd : string) (timeout : Z) :
  exists s, run_command h cmd timeout = Ok s.
Proof.
  unfold run_command.
  destruct (check_output h cmd timeout) as [out|e].
  - exists (Py.strip out). reflexivity.
  - exists "". destruct e; reflexivity.
Qed.

(** C2: for every command line and timeout, [run_command] returns a string
    and never raises: when the command succeeds, its standard output without
    leading and trailing whitespace (the output of [echo test] gives exactly
    the string test); for each failure of the execution (timeout, non-zero
    exit status, missing executable, any other exception) the empty string. *)
Theorem run_command_returns_trimmed_or_empty (h : Host) (cmd : string) (timeout : Z) :
  (exists s, run_command h cmd timeout = Ok s) /\
  (forall out, check_output h cmd timeout = Ok out ->
     run_command h cmd timeout = Ok (Py.strip out)) /\
  (forall e, check_output h cmd timeout = Raise e ->
     run_command h cmd timeout = Ok "") /\
  (check_output h "echo test" 5 = Ok ("test" +:+ newline) ->
     run_command h "echo test" 5 = Ok "test").
Proof.
  split; [apply run_command_ok|].
  unfold run_command. repeat split.
  - intros out ->. reflexivity.
  - intros e ->. destruct e; reflexivity.
  - intros ->. reflexivity.
Qed.

Lemma run_command_returns_trimmed_or_empty_witness :
  run_command echo_host "echo test" 5 = Ok "test" /\
  run_command echo_host "this_command_does_not_exist_12345" 5 = Ok "".
Proof.
  split.
  - apply (run_command_returns_trimmed_or_empty echo_host "echo test" 5).
    reflexivity.
  - apply (run_command_returns_trimmed_or_empty echo_host
             "this_command_does_not_exist_12345" 5) with (e := CalledProcessError).
    reflexivity.
Defined.

(** ** The GPU probe *)

Lemma nvidia_line_vendor (h : Host) (line : string) (g : gpu_info) :
  nvidia_line h line = Some g -> gpu_vendor g = "NVIDIA".
Proof.
  unfold nvidia_line, nvidia_record.
  destruct (5 <=? length (Py.strip <$> Py.split "," line))%nat; [|discriminate].
  destruct (Py.strip <$> Py.split "," line) as [|p0 [|p1 [|p2 [|p3 [|p4 rest]]]]];
    try discriminate.
  destruct (float_of_str h p1); [|discriminate].
  destruct (float_of_str h p2); [|discriminate].
  destruct (float_of_str h p3); [|discriminate].
  simpl. destruct (String.eqb p4 "[N/A]"); simpl.
  - intros [= <-]. reflexivity.
  - destruct (float_of_str h p4); simpl; [|discriminate].
    intros [= <-]. reflexivity.
Qed.

Lemma detect_nvidia_vendor (h : Host) :
  exists l, GPUDetector_detect_nvidia h = Ok l /\
            Forall (fun g => gpu_vendor g = "NVIDIA") l.
Proof.
  unfold GPUDetector_detect_nvidia.
  destruct (which h "nvidia-smi"); run; [|exists []; auto].
  destruct (run_command_ok h nvidia_query default_timeout) as [out ->]. run.
  destruct (Py.truthy out); run; [|exists []; auto].
  eexists. split; [reflexivity|].
  apply Forall_forall. intros g Hg.
  apply list_elem_of_omap in Hg as (line & _ & Hline).
  exact (nvidia_line_vendor h line g Hline).
Qed.

Lemma detect_amd_vendor (h : Host) :
  exists l, GPUDetector_detect_amd h = Ok l /\
            Forall (fun g => gpu_vendor g = "AMD") l.
Proof.
  unfold GPUDetector_detect_amd.
  destruct (which h "rocm-smi"); run; [|exists []; auto].
  destruct (run_command_ok h "rocm-smi --showproductname" default_timeout) as [n ->].
  destruct (run_command_ok h "rocm-smi --showmeminfo vram" default_timeout) as [m ->].
  destruct (run_command_ok h "rocm-smi --showtemp" default_timeout) as [t ->].
  destruct (run_command_ok h "rocm-smi --showuse" default_timeout) as [u ->].
  run. destruct (Py.truthy n); run; eexists; split; try reflexivity; auto.
Qed.

Lemma detect_intel_vendor (h : Host) :
  exists l, GPUDetector_detect_intel h = Ok l /\
            Forall (fun g => gpu_vendor g = "Intel") l.
Proof.
  unfold GPUDetector_detect_intel.
  destruct (which h "sycl-ls"); run; [|exists []; auto].
  destruct (run_command_ok h "sycl-ls" default_timeout) as [out ->]. run.
  destruct (Py.contains "Intel" out); run; eexists; split; try reflexivity; auto.
Qed.

Lemma wmi_loop_vendor (videos : list wmi_video) (gpus : list gpu_info) :
  Forall (fun g => gpu_vendor g = "Integrated/Discrete") gpus ->
  Forall (fun g => gpu_vendor g = "Integrated/Discrete") (wmi_loop videos gpus).
Proof.
  revert gpus. induction videos as [|video rest IH]; intros gpus Hgpus; simpl.
  - exact Hgpus.
  - destruct (video_Name video) as [raw|]; [|exact Hgpus].
    destruct (mentions_keyword (Py.strip raw)); [|apply IH; exact Hgpus].
    destruct (or_zero (video_AdapterRAM video) =? 0).
    + apply IH. apply Forall_app. split; [exact Hgpus|]. repeat constructor.
    + destruct (Float.int_true_div _ _); simpl; [|exact Hgpus].
      apply IH. apply Forall_app. split; [exact Hgpus|]. repeat constructor.
Qed.

Lemma detect_wmi_vendor (h : Host) :
  exists l, GPUDetector_detect_wmi h = Ok l /\
            Forall (fun g => gpu_vendor g = "Integrated/Discrete") l.
Proof.
  unfold GPUDetector_detect_wmi.
  destruct (wmi_video_controllers h) as [videos|e].
  - eexists. split; [reflexivity|]. apply wmi_loop_vendor. constructor.
  - exists []. auto.
Qed.

Lemma GPUDetector_detect_ok (h : Host) :
  exists gpus, GPUDetector_detect h = Ok gpus /\ gpus <> [].
Proof.
  unfold GPUDetector_detect.
  destruct (detect_nvidia_vendor h) as (n & -> & _).
  destruct (detect_amd_vendor h) as (a & -> & _).
  destruct (detect_intel_vendor h) as (i & -> & _).
  run.
  destruct (is_nil (n ++ a ++ i) && WMI_AVAILABLE h &&
            Py.startswith "win" (sys_platform h)); run.
  - destruct (detect_wmi_vendor h) as (w & -> & _). run.
    eexists. split; [reflexivity|].
    destruct ((n ++ a ++ i) ++ w); run; discriminate.
  - eexists. split; [reflexivity|].
    destruct (n ++ a ++ i); run; discriminate.
Qed.

(** C3: [GPUDetector.detect] always returns a list that is not empty; when
    the NVIDIA, AMD and Intel sub-probes find nothing and the Windows
    device enumeration, where it runs, finds nothing either, the result is
    exactly one record with vendor Unknown, name "No dedicated GPU detected"
    and the four numeric fields equal to 0. *)
Theorem gpu_detect_nonempty_with_sentinel (h : Host) :
  exists gpus, GPUDetector_detect h = Ok gpus /\ gpus <> [] /\
    (GPUDetector_detect_nvidia h = Ok [] ->
     GPUDetector_detect_amd h = Ok [] ->
     GPUDetector_detect_intel h = Ok [] ->
     (WMI_AVAILABLE h && Py.startswith "win" (sys_platform h) = true ->
      GPUDetector_detect_wmi h = Ok []) ->
     exists g, gpus = [g] /\
       gpu_vendor g = "Unknown" /\
       gpu_name g = "No dedicated GPU detected" /\
       gpu_numbers_all_zero g = true).
Proof.
  destruct (GPUDetector_detect_ok h) as (gpus & Hdetect & Hne).
  exists gpus. split; [exact Hdetect|]. split; [exact Hne|].
  intros Hn Ha Hi Hw. exists no_gpu.
  split; [|repeat split].
  revert Hdetect. unfold GPUDetector_detect. rewrite Hn, Ha, Hi. run.
  cbn [app is_nil andb].
  destruct (WMI_AVAILABLE h && Py.startswith "win" (sys_platform h)); run.
  - rewrite Hw by reflexivity. run. intros [= <-]. reflexivity.
  - intros [= <-]. reflexivity.
Qed.

Lemma gpu_detect_nonempty_with_sentinel_witness :
  exists g, GPUDetector_detect linux_host = Ok [g] /\
    gpu_vendor g = "Unknown" /\ gpu_numbers_all_zero g = true.
Proof.
  destruct (gpu_detect_nonempty_with_sentinel linux_host)
    as (gpus & Hdetect & _ & Hsentinel).
  destruct Hsentinel as (g & -> & Hvendor & _ & Hzero);
    try reflexivity; try discriminate.
  exists g. auto.
Defined.

(** C9, a counterexample: on a Windows host without vendor tools whose WMI
    lists an NVIDIA adapter, the record returned has the vendor
    "Integrated/Discrete", which is none of NVIDIA, AMD, Intel, Unknown. *)
Lemma gpu_vendor_outside_claimed_set :
  exists g, GPUDetector_detect windows_wmi_host = Ok [g] /\
    gpu_vendor g = "Integrated/Discrete" /\
    ~ gpu_vendor g ∈ claimed_vendors.
Proof.
  eexists. split; [vm_compute; reflexivity|]. split; [reflexivity|].
  simpl. unfold claimed_vendors. intros H.
  repeat (apply elem_of_cons in H as [H|H]; [discriminate H|]).
  apply elem_of_nil in H. exact H.
Qed.

(** C9, amended: every record returned by [GPUDetector.detect] has its
    vendor among NVIDIA, AMD, Intel, Integrated/Discrete and Unknown; the
    records of the Windows device enumeration all carry
    "Integrated/Discrete". *)
Theorem gpu_vendor_in_written_set (h : Host) :
  (exists gpus, GPUDetector_detect h = Ok gpus /\
     Forall (fun g => gpu_vendor g ∈ written_vendors) gpus) /\
  (exists wmi, GPUDetector_detect_wmi h = Ok wmi /\
     Forall (fun g => gpu_vendor g = "Integrated/Discrete") wmi).
Proof.
  split; [|apply detect_wmi_vendor].
  unfold GPUDetector_detect.
  destruct (detect_nvidia_vendor h) as (n & -> & Hn).
  destruct (detect_amd_vendor h) as (a & -> & Ha).
  destruct (detect_intel_vendor h) as (i & -> & Hi).
  assert (Hnai : Forall (fun g => gpu_vendor g ∈ written_vendors) (n ++ a ++ i)).
  { apply Forall_app. split; [|apply Forall_app; split].
    - eapply Forall_impl; [exact Hn|]. run. intros g ->. set_solver.
    - eapply Forall_impl; [exact Ha|]. run. intros g ->. set_solver.
    - eapply Forall_impl; [exact Hi|]. run. intros g ->. set_solver. }
  assert (Hsentinel : Forall (fun g => gpu_vendor g ∈ written_vendors) [no_gpu]).
  { repeat constructor. }
  run.
  destruct (is_nil (n ++ a ++ i) && WMI_AVAILABLE h &&
            Py.startswith "win" (sys_platform h)); run.
  - destruct (detect_wmi_vendor h) as (w & -> & Hw). run.
    eexists. split; [reflexivity|].
    destruct (is_nil ((n ++ a ++ i) ++ w)); [exact Hsentinel|].
    apply Forall_app. split; [exact Hnai|].
    eapply Forall_impl; [exact Hw|]. run. intros g ->. set_solver.
  - eexists. split; [reflexivity|].
    destruct (is_nil (n ++ a ++ i)); [exact Hsentinel | exact Hnai].
Qed.

(** ** The CPU probe *)

Lemma get_temperature_ok (h : Host) :
  temperature_guarded h -> is_ok (CPUDetector_get_temperature h).
Proof.
  unfold temperature_guarded, CPUDetector_get_temperature, is_ok.
  destruct (sensors_temperatures h) as [temps|e].
  - intros _. destruct temps as [|group groups]; [eauto|].
    destruct (preferred_reading preferred_sensors (group :: groups)); eauto.
  - intros [-> | ->]; eauto.
Qed.

Lemma splitlines_one_truthy (s : string) :
  length (Py.splitlines s) = 1%nat -> Py.truthy s = true.
Proof. destruct s; [discriminate | reflexivity]. Qed.

(** C10: on the Windows family, when the processor identifier of the
    platform is empty and the wmic query for the CPU name returns exactly one
    line, [CPUDetector.detect] gives the CPU the name "Unknown", which is not
    the sentinel "Unknown CPU". *)
Theorem cpu_name_unknown_after_one_line_wmic (h : Host) (out : string) :
  Py.startswith "win" (sys_platform h) = true ->
  platform_processor h = "" ->
  uname_processor (platform_uname h) = "" ->
  run_command h "wmic cpu get name" default_timeout = Ok out ->
  length (Py.splitlines out) = 1%nat ->
  cpu_facilities_ok h ->
  exists info, CPUDetector_detect h = Ok info /\
    cpu_name info = "Unknown" /\ cpu_name info <> "Unknown CPU".
Proof.
  intros Hwin Hproc Huname Hrun Hone (Hphys & Hlog & Hfreq & Hpct & Htemp).
  destruct Hphys as [physical Hphys], Hlog as [logical Hlog],
    Hfreq as [freq Hfreq], Hpct as [percent Hpct].
  destruct (get_temperature_ok h Htemp) as [temperature Htemperature].
  unfold CPUDetector_detect.
  rewrite Hproc, Huname, Hwin.
  change (str_or "" "") with "". change (Py.truthy "") with false.
  cbn [negb andb]. rewrite Hrun. run.
  rewrite (splitlines_one_truthy out Hone), Hone.
  change (1 <? 1)%nat with false. run.
  change (Py.truthy "Unknown") with true. cbn [negb andb].
  rewrite andb_false_r. run.
  rewrite Hphys, Hlog, Hfreq, Hpct, Htemperature. run.
  eexists. split; [reflexivity|]. split; [reflexivity | discriminate].
Qed.

Lemma cpu_name_unknown_after_one_line_wmic_witness :
  exists info, CPUDetector_detect windows_header_only_host = Ok info /\
    cpu_name info = "Unknown" /\ cpu_name info <> "Unknown CPU".
Proof.
  apply (cpu_name_unknown_after_one_line_wmic windows_header_only_host "Name");
    try reflexivity.
  unfold cpu_facilities_ok, is_ok, temperature_guarded. simpl.
  repeat split; eauto.
Defined.

(** ** Storage-type classification *)











(** ** Disk enumeration *)

Section StableSort.

Context {A : Type} (le : A -> A -> bool).
Hypothesis le_total : forall x y, le x y = true \/ le y x = true.
Hypothesis le_trans : forall x y z, le x y = true -> le y z = true -> le x z = true.

Lemma insert_by_perm (x : A) (l : list A) : insert_by le x l ≡ₚ x :: l.
Proof.
  induction l as [|y r IH]; simpl; [reflexivity|].
  destruct (le x y); [reflexivity|].
  rewrite IH. apply Permutation_swap.
Qed.

Lemma stable_sort_perm (l : list A) : stable_sort le l ≡ₚ l.
Proof.
  induction l as [|x l IH]; [reflexivity|].
  change (stable_sort le (x :: l)) with (insert_by le x (stable_sort le l)).
  rewrite insert_by_perm, IH. reflexivity.
Qed.

Lemma insert_by_sorted (x : A) (l : list A) :
  StronglySorted (fun a b => le a b = true) l ->
  StronglySorted (fun a b => le a b = true) (insert_by le x l).
Proof.
  induction 1 as [|y r Hr IH Hy]; simpl.
  - repeat constructor.
  - destruct (le x y) eqn:Hxy.
    + constructor; [constructor; assumption|].
      constructor; [exact Hxy|].
      eapply Forall_impl; [exact Hy|]. intros z Hz. exact (le_trans x y z Hxy Hz).
    + assert (Hyx : le y x = true).
      { destruct (le_total x y) as [H|H]; [congruence | exact H]. }
      constructor; [exact IH|].
      rewrite insert_by_perm. constructor; assumption.
Qed.

Lemma stable_sort_sorted (l : list A) :
  StronglySorted (fun a b => le a b = true) (stable_sort le l).
Proof.
  induction l as [|x l IH]; [constructor|].
  change (stable_sort le (x :: l)) with (insert_by le x (stable_sort le l)).
  apply insert_by_sorted. exact IH.
Qed.

Lemma sorted_take (n : nat) (l : list A) :
  StronglySorted (fun a b => le a b = true) l ->
  StronglySorted (fun a b => le a b = true) (take n l).
Proof.
  intros H. revert n. induction H as [|y r Hr IH Hy]; intros [|n]; simpl;
    try constructor.
  - apply IH.
  - apply Forall_take. exact Hy.
Qed.

Lemma sorted_lookup (l : list A) (i j : nat) (a b : A) :
  StronglySorted (fun a b => le a b = true) l ->
  (i < j)%nat -> l !! i = Some a -> l !! j = Some b -> le a b = true.
Proof.
  intros H. revert i j. induction H as [|y r Hr IH Hy]; intros i j Hij Ha Hb.
  - discriminate.
  - destruct j as [|j]; [lia|]. destruct i as [|i]; simpl in Ha, Hb.
    + injection Ha as ->. rewrite Forall_forall in Hy. apply Hy.
      eapply list_elem_of_lookup_2. exact Hb.
    + apply (IH i j); [lia | assumption | assumption].
Qed.

End StableSort.

Lemma ascii_compare_N (a b : ascii) :
  Ascii.compare a b = (N_of_ascii a ?= N_of_ascii b)%N.
Proof. reflexivity. Qed.

Lemma string_compare_trans (c : comparison) (s1 s2 s3 : string) :
  String.compare s1 s2 = c -> String.compare s2 s3 = c -> String.compare s1 s3 = c.
Proof.
  revert s2 s3. induction s1 as [|a1 s1 IH]; intros [|a2 s2] [|a3 s3]; simpl;
    try congruence.
  rewrite !ascii_compare_N.
  destruct (N.compare_spec (N_of_ascii a1) (N_of_ascii a2)) as [E12|L12|G12];
    destruct (N.compare_spec (N_of_ascii a2) (N_of_ascii a3)) as [E23|L23|G23];
    intros H12 H23; try congruence.
  - rewrite E12, E23, N.compare_refl. exact (IH s2 s3 H12 H23).
  - rewrite E12. apply N.compare_lt_iff in L23. rewrite L23. exact H23.
  - rewrite E12. apply N.compare_gt_iff in G23. rewrite G23. exact H23.
  - rewrite <- E23. apply N.compare_lt_iff in L12. rewrite L12. exact H12.
  - assert (L13 : (N_of_ascii a1 < N_of_ascii a3)%N) by lia.
    apply N.compare_lt_iff in L13. rewrite L13. exact H12.
  - rewrite <- E23. apply N.compare_gt_iff in G12. rewrite G12. exact H12.
  - assert (G13 : (N_of_ascii a3 < N_of_ascii a1)%N) by lia.
    apply N.compare_gt_iff in G13. rewrite G13. exact H12.
Qed.

Lemma string_leb_trans (s1 s2 s3 : string) :
  String.leb s1 s2 = true -> String.leb s2 s3 = true -> String.leb s1 s3 = true.
Proof.
  unfold String.leb.
  destruct (String.compare s1 s2) eqn:H12; [| |discriminate];
    destruct (String.compare s2 s3) eqn:H23; try discriminate; intros _ _.
  - rewrite (string_compare_trans Eq s1 s2 s3 H12 H23). reflexivity.
  - apply String.compare_eq_iff in H12 as ->. rewrite H23. reflexivity.
  - apply String.compare_eq_iff in H23 as <-. rewrite H12. reflexivity.
  - rewrite (string_compare_trans Lt s1 s2 s3 H12 H23). reflexivity.
Qed.

Lemma disk_key_le_total (a b : disk_info) :
  disk_key_le a b = true \/ disk_key_le b a = true.
Proof.
  unfold disk_key_le.
  destruct (disk_is_system a), (disk_is_system b); simpl; auto;
    apply String.leb_total.
Qed.

Lemma disk_key_le_trans (a b c : disk_info) :
  disk_key_le a b = true -> disk_key_le b c = true -> disk_key_le a c = true.
Proof.
  unfold disk_key_le.
  destruct (disk_is_system a), (disk_is_system b), (disk_is_system c); simpl;
    try congruence; apply string_leb_trans.
Qed.

(** The order of the key [(not is_system, mountpoint)]. *)
Lemma disk_key_le_spec (a b : disk_info) :
  disk_key_le a b = true <->
  (disk_is_system a = true /\ disk_is_system b = false) \/
  (disk_is_system a = disk_is_system b /\
   String.leb (disk_mountpoint a) (disk_mountpoint b) = true).
Proof.
  unfold disk_key_le.
  destruct (disk_is_system a), (disk_is_system b); simpl; split; intros H;
    try tauto; try (right; split; [reflexivity | exact H]);
    try (destruct H as [[? ?]|[? ?]]; congruence).
  left. auto.
Qed.

Lemma disk_loop_ok (h : Host) (partitions : list sdiskpart) :
  (forall partition e, partition ∈ partitions ->
     partition_kept partition = true ->
     disk_usage h (part_mountpoint partition) = Raise e -> e = PermissionError) ->
  is_ok (disk_loop h partitions).
Proof.
  induction partitions as [|p rest IH]; intros Hguard; simpl.
  - exists []. reflexivity.
  - assert (Hrest : is_ok (disk_loop h rest)).
    { apply IH. intros q e Hq. apply Hguard. right. exact Hq. }
    pose proof (Hguard p) as Hp. unfold partition_kept in Hp.
    destruct (_ || _); [exact Hrest|].
    destruct (disk_usage h (part_mountpoint p)) as [usage|e] eqn:Husage.
    + destruct Hrest as [disks ->]. run. eexists. reflexivity.
    + rewrite (Hp e (list_elem_of_here _ _) eq_refl eq_refl). exact Hrest.
Qed.

(** C5: [DiskDetector.detect] returns at most 3 entries, in ascending order
    of the key (not is_system, mount path): a system volume before every
    volume that is not, equal flags by mount path; and when one of the
    volumes enumerated is a system volume, the entry at index 0 is a system
    volume.  The call returns when the partitions can be listed and the
    usage of a partition raises nothing but [PermissionError]. *)
Theorem disk_detect_sorted_top3 (h : Host) :
  (is_ok (disk_partitions h) -> disk_usage_guarded h ->
   is_ok (DiskDetector_detect h)) /\
  (forall enumerated disks,
     DiskDetector_enumerate h = Ok enumerated ->
     DiskDetector_detect h = Ok disks ->
     (length disks <= 3)%nat /\
     StronglySorted (fun a b => disk_key_le a b = true) disks /\
     (forall i j a b, (i < j)%nat -> disks !! i = Some a -> disks !! j = Some b ->
        (disk_is_system b = true -> disk_is_system a = true) /\
        (disk_is_system a = disk_is_system b ->
         String.leb (disk_mountpoint a) (disk_mountpoint b) = true)) /\
     (Exists (fun d => disk_is_system d = true) enumerated ->
      exists first, disks !! 0%nat = Some first /\ disk_is_system first = true)).
Proof.
  split.
  - intros [partitions Hparts] Hguard.
    unfold DiskDetector_detect, DiskDetector_enumerate. rewrite Hparts. run.
    destruct (disk_loop_ok h partitions) as [disks ->].
    + intros p e Hp. exact (Hguard partitions p e Hparts Hp).
    + run. eexists. reflexivity.
  - intros enumerated disks Henum. unfold DiskDetector_detect.
    rewrite Henum. run. intros [= <-].
    pose proof (stable_sort_sorted disk_key_le disk_key_le_total
                  disk_key_le_trans enumerated) as Hsorted.
    pose proof (stable_sort_perm disk_key_le enumerated) as Hperm.
    split; [|split; [|split]].
    + rewrite length_take. lia.
    + apply sorted_take. exact Hsorted.
    + intros i j a b Hij Ha Hb.
      pose proof (sorted_take disk_key_le 3 _ Hsorted) as Htake.
      pose proof (sorted_lookup disk_key_le _ i j a b Htake Hij Ha Hb) as Hab.
      apply disk_key_le_spec in Hab as [[Hsa Hsb]|[Heq Hleb]]; split;
        congruence.
    + intros Hex. rewrite <- Hperm in Hex.
      destruct (stable_sort disk_key_le enumerated) as [|first rest] eqn:Hs.
      { apply Exists_nil in Hex. destruct Hex. }
      exists first. split; [reflexivity|].
      apply Exists_cons in Hex as [Hfirst|Hrest]; [exact Hfirst|].
      apply StronglySorted_inv in Hsorted as [_ Hall].
      apply Exists_exists in Hrest as (d & Hd & Hsys).
      rewrite Forall_forall in Hall. specialize (Hall d Hd).
      apply disk_key_le_spec in Hall as [[Hsa _]|[Heq _]]; congruence.
Qed.

Lemma disk_detect_sorted_top3_witness :
  exists disks first,
    DiskDetector_detect linux_host = Ok disks /\
    (length disks <= 3)%nat /\
    disks !! 0%nat = Some first /\ disk_is_system first = true.
Proof.
  destruct (disk_detect_sorted_top3 linux_host) as [Hreturns Hprops].
  destruct Hreturns as [disks Hdisks].
  - eexists. reflexivity.
  - intros partitions p e _ _ _. vm_compute. discriminate.
  - destruct (DiskDetector_enumerate linux_host) as [enumerated|] eqn:Henum;
      [|vm_compute in Henum; discriminate].
    destruct (Hprops enumerated disks eq_refl Hdisks) as (Hlen & _ & _ & Hfirst).
    destruct Hfirst as (first & Hlookup & Hsys).
    + vm_compute in Henum. injection Henum as <-.
      apply Exists_cons_tl, Exists_cons_tl, Exists_cons_hd. reflexivity.
    + exists disks, first. auto.
Defined.

(** ** The disk benchmark and its temporary file *)

Lemma handler_removes (io : bench_io) (test_file : string) (fs : gset string) :
  is_ok (io_remove_in_handler io) ->
  fst (benchmark_handler io test_file fs) = None /\
  test_file ∉ snd (benchmark_handler io test_file fs).
Proof.
  intros [u Hu]. unfold benchmark_handler. rewrite Hu.
  destruct (decide (test_file ∈ fs)); simpl; split; auto.
  rewrite elem_of_difference, elem_of_singleton. tauto.
Qed.

(** The early [return None] of the write timeout is reached with the file
    on disk and nothing removes it. *)
Lemma benchmark_timeout_keeps_file (h : Host) (fs : gset string)
    (path : option string) (size_mb timeout : Z) :
  write_timed_out h path timeout ->
  DiskDetector_benchmark_speed h fs path size_mb timeout =
    (None, fs ∪ created_by_open
                  (benchmark_io h (default (home_directory h) path))
                  (benchmark_test_file h path)).
Proof.
  intros ([u1 Hopen] & [u2 Hwrite] & Hslow).
  unfold DiskDetector_benchmark_speed. rewrite Hopen, Hwrite, Hslow. reflexivity.
Qed.

(** On every other path the file is gone after the call, provided the
    removal in the handler, when it is reached, succeeds. *)
Lemma benchmark_other_paths_remove_file (h : Host) (fs : gset string)
    (path : option string) (size_mb timeout : Z) :
  ~ write_timed_out h path timeout ->
  is_ok (io_remove_in_handler (benchmark_io h (default (home_directory h) path))) ->
  benchmark_test_file h path ∉
    snd (DiskDetector_benchmark_speed h fs path size_mb timeout).
Proof.
  intros Hfast Hremove.
  unfold write_timed_out in Hfast. unfold DiskDetector_benchmark_speed.
  fold (benchmark_test_file h path).
  set (io := benchmark_io h (default (home_directory h) path)) in *.
  set (file := benchmark_test_file h path).
  destruct (io_open_write io) as [u1|e1]; [|apply handler_removes; exact Hremove].
  destruct (io_write_sync io) as [u2|e2]; [|apply handler_removes; exact Hremove].
  destruct (Float.gt_int _ timeout) eqn:Hslow.
  { exfalso. apply Hfast. unfold is_ok. eauto. }
  destruct (io_read io) as [u3|e3]; [|apply handler_removes; exact Hremove].
  destruct (io_remove io) as [u4|e4]; [|apply handler_removes; exact Hremove].
  match goal with |- context [match ?m with Ok _ => _ | Raise _ => _ end] =>
    destruct m end.
  - simpl. rewrite elem_of_difference, elem_of_singleton. tauto.
  - apply handler_removes. exact Hremove.
Qed.

(** C4, the failing input: with a write phase of 31 seconds and the timeout
    of 30, [benchmark_speed("/mnt/usb", 100, 30)] returns [None] and the
    temporary file, absent before the call, exists after it. *)
Theorem benchmark_timeout_leaves_temp_file :
  ("/mnt/usb/.llm_neofetch_benchmark.tmp" ∉ (∅ : gset string)) /\
  (fst (DiskDetector_benchmark_speed slow_disk_host ∅ (Some "/mnt/usb") 100 30)
     = None) /\
  ("/mnt/usb/.llm_neofetch_benchmark.tmp" ∈
     snd (DiskDetector_benchmark_speed slow_disk_host ∅ (Some "/mnt/usb") 100 30)).
Proof.
  assert (Hslow : write_timed_out slow_disk_host (Some "/mnt/usb") 30).
  { unfold write_timed_out, is_ok. simpl. split; [|split]; eauto. }
  rewrite (benchmark_timeout_keeps_file slow_disk_host ∅ (Some "/mnt/usb") 100 30 Hslow).
  split; [apply not_elem_of_empty|]. split; [reflexivity|].
  change (created_by_open _ (benchmark_test_file slow_disk_host (Some "/mnt/usb")))
    with ({[ "/mnt/usb/.llm_neofetch_benchmark.tmp" ]} : gset string).
  simpl. apply elem_of_union. right. apply elem_of_singleton. reflexivity.
Qed.

(** ** True division of integers and the uptime record *)

Lemma rne_div_lower (n d N : Z) : 0 < d -> N * d <= n -> N <= Float.rne_div n d.
Proof.
  intros Hd HN. unfold Float.rne_div.
  pose proof (Z.div_mod n d ltac:(lia)) as Hdm.
  pose proof (Z.mod_pos_bound n d Hd) as Hr.
  assert (N <= n / d) by nia.
  destruct (2 * (n mod d) ?= d); [destruct (Z.even (n / d))| |]; lia.
Qed.

Lemma rne_div_upper (n d N : Z) : 0 < d -> n <= N * d -> Float.rne_div n d <= N.
Proof.
  intros Hd HN. unfold Float.rne_div.
  pose proof (Z.div_mod n d ltac:(lia)) as Hdm.
  pose proof (Z.mod_pos_bound n d Hd) as Hr.
  destruct (Z.eq_dec (n mod d) 0) as [Hz|Hnz].
  - rewrite Hz. change (2 * 0) with 0.
    assert (n / d <= N) by nia.
    destruct (Z.compare_spec 0 d); lia.
  - assert (n / d < N) by nia.
    destruct (2 * (n mod d) ?= d); [destruct (Z.even (n / d))| |]; lia.
Qed.

Lemma rne_div_half (n d : Z) : 0 < d -> 2 * d * Float.rne_div n d <= 2 * n + d.
Proof.
  intros Hd. unfold Float.rne_div.
  pose proof (Z.div_mod n d ltac:(lia)) as Hdm.
  pose proof (Z.mod_pos_bound n d Hd) as Hr.
  destruct (Z.compare_spec (2 * (n mod d)) d);
    [destruct (Z.even (n / d))| |]; nia.
Qed.

Lemma floor_log2_quot_upper (a b : Z) :
  Float.floor_log2_quot a b <= Z.log2 a - Z.log2 b.
Proof.
  unfold Float.floor_log2_quot.
  destruct (if 0 <=? Z.log2 a - Z.log2 b then _ else _); lia.
Qed.

Lemma floor_log2_quot_below (a b : Z) :
  0 < a -> 0 < b -> 0 <= Float.floor_log2_quot a b ->
  b * 2 ^ Float.floor_log2_quot a b <= a.
Proof.
  intros Ha Hb. unfold Float.floor_log2_quot.
  set (d := Z.log2 a - Z.log2 b).
  destruct (Z.leb_spec 0 d) as [Hd|Hd].
  - destruct (Z.ltb_spec a (b * 2 ^ d)) as [Hlt|Hge]; [|intros _; exact Hge].
    intros Hd1.
    pose proof (Z.log2_spec a Ha) as [Hla _].
    pose proof (Z.log2_spec b Hb) as [_ Hub].
    assert (Hpow : 2 ^ Z.log2 a = 2 ^ Z.succ (Z.log2 b) * 2 ^ (d - 1)).
    { rewrite <- Z.pow_add_r by (pose proof (Z.log2_nonneg b); lia).
      f_equal. unfold d. lia. }
    assert (0 < 2 ^ (d - 1)) by (apply Z.pow_pos_nonneg; lia).
    nia.
  - destruct (_ <? _); lia.
Qed.

(** The quotient of two positive integers within the range of the floats,
    truncated: the exact integer quotient or one more, and the exact one when
    the floats around it are fine enough to tell a multiple of [1/b] from
    the next integer. *)
Lemma true_div_to_int (a b : Z) :
  0 <= a < 2 ^ 1000 -> 0 < b ->
  Z.log2 a - Z.log2 b <= 52 ->
  exists x T, Float.int_true_div a b = Ok x /\ Float.to_int x = Ok T /\
    a / b <= T <= a / b + 1 /\
    (forall j, 0 <= j <= 53 -> a < 2 ^ j * b -> b < 2 ^ (54 - j) -> T = a / b).
Proof.
  intros [Ha0 Ha] Hb Hlog.
  unfold Float.int_true_div. cbv zeta.
  destruct (Z.eqb_spec b 0) as [?|_]; [lia|].
  destruct (Z.eqb_spec a 0) as [->|Hane].
  { exists (S754_zero (b <? 0)), 0. rewrite Z.div_0_l by lia.
    repeat split; try reflexivity; lia. }
  assert (Hapos : 0 < a) by lia.
  replace (a <? 0) with false by (symmetry; apply Z.ltb_ge; lia).
  replace (b <? 0) with false by (symmetry; apply Z.ltb_ge; lia).
  rewrite (Z.abs_eq a), (Z.abs_eq b) by lia. cbn [xorb].
  pose proof (floor_log2_quot_upper a b) as Hl.
  set (l := Float.floor_log2_quot a b) in *.
  set (e := Z.max (l - 52) (-1074)).
  assert (He : e <= 0) by (unfold e; lia).
  set (m := if 0 <=? e then Float.rne_div a (b * 2 ^ e)
            else Float.rne_div (a * 2 ^ (- e)) b).
  set (k := - e).
  assert (Hk : 0 <= k) by (unfold k; lia).
  assert (HP : 0 < 2 ^ k) by (apply Z.pow_pos_nonneg; lia).
  assert (Hm : m = Float.rne_div (a * 2 ^ k) b).
  { unfold m. destruct (Z.leb_spec 0 e) as [H0|H0]; [|reflexivity].
    assert (e = 0) as Hez by lia. unfold k. rewrite Hez.
    change (- 0) with 0. change (2 ^ 0) with 1. rewrite !Z.mul_1_r. reflexivity. }
  set (S := a / b).
  pose proof (Z.div_mod a b ltac:(lia)) as Hdm.
  pose proof (Z.mod_pos_bound a b Hb) as Hr.
  fold S in Hdm.
  assert (HS0 : 0 <= S) by (apply Z.div_pos; lia).
  assert (Hlow : S * 2 ^ k <= m).
  { rewrite Hm. apply rne_div_lower; [exact Hb|]. nia. }
  assert (Hup : m <= (S + 1) * 2 ^ k).
  { rewrite Hm. apply rne_div_upper; [exact Hb|]. nia. }
  assert (HSa : S <= a) by (unfold S; apply Z.div_le_upper_bound; nia).
  assert (Hover : (2 ^ 1024 <=? m * 2 ^ e) = false).
  { apply Z.leb_gt. destruct (Z.eq_dec e 0) as [Hez|Hez].
    - rewrite Hez. change (2 ^ 0) with 1. rewrite Z.mul_1_r.
      assert (k = 0) as Hkz by (unfold k; lia). rewrite Hkz in Hup.
      change (2 ^ 0) with 1 in Hup.
      assert (2 ^ 1000 < 2 ^ 1024) by (apply Z.pow_lt_mono_r; lia). lia.
    - rewrite (Z.pow_neg_r 2 e) by lia. rewrite Z.mul_0_r.
      apply Z.pow_pos_nonneg; lia. }
  rewrite Hover.
  assert (HT : forall T, T = m / 2 ^ k ->
            S <= T <= S + 1 /\
            (forall j, 0 <= j <= 53 -> a < 2 ^ j * b -> b < 2 ^ (54 - j) -> T = S)).
  { intros T ->.
    pose proof (Z.div_mod m (2 ^ k) ltac:(lia)) as Hmdm.
    pose proof (Z.mod_pos_bound m (2 ^ k) HP) as Hmr.
    split; [nia|].
    intros j Hj Haj Hbj.
    assert (Hlj : l <= j - 1).
    { destruct (Z.le_gt_cases l (j - 1)) as [H|H]; [exact H|exfalso].
      pose proof (floor_log2_quot_below a b Hapos Hb ltac:(fold l; lia)) as Hbelow.
      fold l in Hbelow.
      assert (2 ^ j <= 2 ^ l) by (apply Z.pow_le_mono_r; lia).
      nia. }
    assert (Hkj : 53 - j <= k) by (unfold k, e; lia).
    assert (Hfine : b < 2 * 2 ^ k).
    { assert (2 ^ (53 - j) <= 2 ^ k) by (apply Z.pow_le_mono_r; lia).
      replace (54 - j) with (Z.succ (53 - j)) in Hbj by lia.
      rewrite Z.pow_succ_r in Hbj by lia. lia. }
    pose proof (rne_div_half (a * 2 ^ k) b Hb) as Hhalf. rewrite <- Hm in Hhalf.
    assert (m < (S + 1) * 2 ^ k) by nia.
    nia. }
  destruct (Z.eqb_spec m 0) as [Hm0|Hm0].
  { exists (S754_zero false), 0. split; [reflexivity|]. split; [reflexivity|].
    apply HT. rewrite Hm0. rewrite Z.div_0_l by lia. reflexivity. }
  destruct (Z.eqb_spec m (2 ^ 53)) as [Hm53|Hm53].
  - eexists. eexists. split; [reflexivity|]. split; [reflexivity|].
    apply HT. rewrite Z2Pos.id by reflexivity. rewrite Hm53.
    destruct (Z.leb_spec 0 (e + 1)) as [H1|H1].
    + assert (e = 0 \/ e = -1) as [Hez|Hez] by lia; unfold k; rewrite Hez;
        reflexivity.
    + replace (- (e + 1)) with (k - 1) by (unfold k; lia).
      replace (2 ^ k) with (2 * 2 ^ (k - 1)).
      * change (2 ^ 53) with (2 * 2 ^ 52).
        rewrite Z.div_mul_cancel_l by (try apply Z.pow_nonzero; lia). reflexivity.
      * rewrite <- Z.pow_succ_r by (unfold k; lia). f_equal. lia.
  - eexists. eexists. split; [reflexivity|]. split; [reflexivity|].
    apply HT. rewrite Z2Pos.id by lia.
    destruct (Z.leb_spec 0 e) as [H0|H0].
    + assert (e = 0) as Hez by lia. unfold k. rewrite Hez.
      change (- 0) with 0. change (2 ^ 0) with 1.
      rewrite Z.mul_1_r, Z.div_1_r. reflexivity.
    + reflexivity.
Qed.

Lemma timedelta_total_us (us : Z) :
  let td := timedelta_of_us us in
  (td_days td * 86400 + td_seconds td) * 1000000 + td_microseconds td = us.
Proof.
  unfold timedelta_of_us, us_per_day.
  cbn [td_days td_seconds td_microseconds].
  change (86400 * 1000000) with 86400000000.
  Z.div_mod_to_equations. lia.
Qed.

(** What [get_uptime] returns for a boot time in the past: the derived fields
    are the remainder chain of the whole seconds elapsed, and the total is
    that number of seconds or, by the rounding of the float, one more. *)
Lemma get_uptime_fields (h : Host) (boot : Z) :
  boot_datetime h = Ok boot ->
  valid_datetime boot -> valid_datetime (datetime_now h) ->
  boot <= datetime_now h ->
  exists u, OSDetector_get_uptime h = Ok u /\
    let S := (datetime_now h - boot) / 1000000 in
    up_days u = S / 86400 /\
    up_hours u = (S mod 86400) / 3600 /\
    up_minutes u = (S mod 3600) / 60 /\
    S <= up_total_seconds u <= S + 1 /\
    (S < 2 ^ 34 -> up_total_seconds u = S).
Proof.
  unfold valid_datetime, datetime_range.
  intros Hboot Hvb Hvn Hle. unfold OSDetector_get_uptime. rewrite Hboot. run.
  set (us := datetime_now h - boot).
  assert (Hus : 0 <= us < 315537897600 * 1000000) by (unfold us; lia).
  unfold total_seconds. rewrite (timedelta_total_us us).
  destruct (true_div_to_int us 1000000) as (x & T & -> & HT & Hbr & Htight).
  - split; [lia|]. apply Z.lt_trans with (2 ^ 59); [lia|].
    apply Z.pow_lt_mono_r; lia.
  - lia.
  - change (Z.log2 1000000) with 19.
    destruct (Z.eq_dec us 0) as [->|Hnz]; [simpl; lia|].
    assert (Z.log2 us < 59) by (apply Z.log2_lt_pow2; lia). lia.
  - run. rewrite HT. run. eexists. split; [reflexivity|].
    unfold timedelta_of_us, us_per_day.
    cbn [td_days td_seconds td_microseconds up_days up_hours up_minutes
         up_total_seconds].
    change (86400 * 1000000) with 86400000000.
    repeat split; try lia; try (Z.div_mod_to_equations; lia).
    intros HS. change (2 ^ 34) with 17179869184 in HS.
    apply (Htight 34); [lia | | reflexivity].
    change (2 ^ 34) with 17179869184. Z.div_mod_to_equations. lia.
Qed.

(** C7, a counterexample: after 34359738419.999999 seconds the float of
    [total_seconds()] is 34359738420.0, so the total is 34359738420 while the
    minutes, taken from the seconds of the timedelta, are 46; the remainder
    chain of the total gives 47. *)
Lemma uptime_minutes_differ_from_chain_of_total :
  exists u, OSDetector_get_uptime long_uptime_host = Ok u /\
    up_total_seconds u = 34359738420 /\
    up_minutes u = 46 /\
    up_minutes u <> (up_total_seconds u mod 3600) / 60.
Proof.
  eexists. split; [vm_compute; reflexivity|].
  split; [reflexivity|]. split; [reflexivity|]. vm_compute. discriminate.
Qed.

(** C7, amended: for every elapsed uptime that is not negative, with T the
    returned total_seconds, days*86400 + hours*3600 + minutes*60 + (T mod 60)
    is at most 60 seconds away from T; days, hours and minutes are the
    floor-division remainder chain of the whole seconds elapsed S (hours and
    minutes from what is left after the whole days), T is S or S + 1, and
    for an uptime below 2^34 seconds T is S and the reconstruction is T
    itself. *)
Theorem uptime_round_trip (h : Host) (boot : Z) :
  boot_datetime h = Ok boot ->
  valid_datetime boot -> valid_datetime (datetime_now h) ->
  boot <= datetime_now h ->
  exists u, OSDetector_get_uptime h = Ok u /\
    let T := up_total_seconds u in
    let S := (datetime_now h - boot) / 1000000 in
    let rebuilt :=
      up_days u * 86400 + up_hours u * 3600 + up_minutes u * 60 + T mod 60 in
    Z.abs (rebuilt - T) <= 60 /\
    up_days u = S / 86400 /\
    up_hours u = (S mod 86400) / 3600 /\
    up_minutes u = (S mod 3600) / 60 /\
    S <= T <= S + 1 /\
    (S < 2 ^ 34 -> T = S /\ rebuilt = T).
Proof.
  intros Hboot Hvb Hvn Hle.
  destruct (get_uptime_fields h boot Hboot Hvb Hvn Hle)
    as (u & Hu & Hd & Hh & Hm & HT & Htight).
  exists u. split; [exact Hu|]. cbv zeta in *.
  set (S := (datetime_now h - boot) / 1000000) in *.
  set (T := up_total_seconds u) in *.
  rewrite Hd, Hh, Hm.
  split; [|split; [reflexivity|split; [reflexivity|split;
    [reflexivity|split; [exact HT|]]]]].
  - assert (T = S \/ T = S + 1) as [-> | ->] by lia;
      Z.div_mod_to_equations; lia.
  - intros HS. specialize (Htight HS). split; [exact Htight|].
    rewrite Htight. Z.div_mod_to_equations. lia.
Qed.

Lemma uptime_round_trip_witness :
  exists u, OSDetector_get_uptime linux_host = Ok u /\
    up_days u = 0 /\ up_hours u = 23 /\ up_minutes u = 59 /\
    up_total_seconds u = 86399.
Proof.
  destruct (uptime_round_trip linux_host (86400 * 1000000 * 738999 + 1000000))
    as (u & Hu & _ & Hd & Hh & Hm & _ & Htight).
  - reflexivity.
  - unfold valid_datetime, datetime_range. lia.
  - unfold valid_datetime, datetime_range. simpl. lia.
  - simpl. lia.
  - exists u. split; [exact Hu|].
    rewrite Hd, Hh, Hm. destruct Htight as [-> _]; [reflexivity|].
    repeat split; reflexivity.
Defined.

(** ** Size formatting *)




Lemma unit_index_of_log (libm_log : spec_float -> spec_float) (b i : Z) :
  int_log1024 libm_log b = Ok i -> unit_index libm_log b = Ok (Z.min i 5).
Proof. intros Hi. unfold unit_index. rewrite Hi. reflexivity. Qed.


(** What [format_size] returns once the index is known and not negative. *)
Lemma format_size_at_index (libm_log : spec_float -> spec_float)
    (b : Z) (suffix : string) (u : Z) :
  b <> 0 -> unit_index libm_log b = Ok u -> 0 <= u ->
  format_size libm_log b suffix =
    (scaled ← Float.int_true_div b (1024 ^ u);
     unit ← list_item units u;
     mret (Float.format_1f scaled +:+ " " +:+ unit +:+ suffix)).
Proof.
  intros Hb Hu Hpos. unfold format_size.
  destruct (Z.eqb_spec b 0) as [?|_]; [contradiction|].
  rewrite Hu. run. destruct (Z.leb_spec 0 u); [reflexivity | lia].
Qed.




(** ** The probes and the collector *)

(** True division returns whenever the quotient is far below the largest
    float. *)
Lemma int_true_div_ok (a b : Z) :
  0 <= a < 2 ^ 1000 -> 0 < b -> is_ok (Float.int_true_div a b).
Proof.
  intros [Ha0 Ha] Hb. unfold Float.int_true_div, is_ok. cbv zeta.
  destruct (Z.eqb_spec b 0) as [?|_]; [lia|].
  destruct (Z.eqb_spec a 0) as [->|Hane]; [eauto|].
  assert (Hapos : 0 < a) by lia.
  rewrite (Z.abs_eq a), (Z.abs_eq b) by lia.
  set (l := Float.floor_log2_quot a b).
  set (e := Z.max (l - 52) (-1074)).
  set (m := if 0 <=? e then Float.rne_div a (b * 2 ^ e)
            else Float.rne_div (a * 2 ^ (- e)) b).
  assert (Hover : (2 ^ 1024 <=? m * 2 ^ e) = false).
  { apply Z.leb_gt.
    assert (H1024 : 2 * 2 ^ 1000 < 2 ^ 1024) by (vm_compute; reflexivity).
    destruct (Z.leb_spec 0 e) as [He|He].
    - assert (HP : 0 < 2 ^ e) by (apply Z.pow_pos_nonneg; lia).
      assert (Hd : 0 < b * 2 ^ e) by nia.
      pose proof (Z.div_mod a (b * 2 ^ e) ltac:(lia)) as Hdm.
      pose proof (Z.mod_pos_bound a (b * 2 ^ e) Hd) as Hr.
      assert (Hm : m <= a / (b * 2 ^ e) + 1).
      { unfold m. apply rne_div_upper; [exact Hd|]. nia. }
      assert (Hq : 0 <= a / (b * 2 ^ e)) by (apply Z.div_pos; lia).
      assert (Hl : 0 <= l) by (unfold e in He; lia).
      pose proof (floor_log2_quot_below a b Hapos Hb Hl) as Hbelow. fold l in Hbelow.
      assert (Hel : 2 ^ e <= 2 ^ l) by (apply Z.pow_le_mono_r; unfold e; lia).
      assert (H2e : 2 ^ e <= a) by nia.
      assert (Hqe : a / (b * 2 ^ e) * 2 ^ e <= a) by nia.
      nia.
    - rewrite (Z.pow_neg_r 2 e) by lia. rewrite Z.mul_0_r.
      apply Z.pow_pos_nonneg; lia. }
  rewrite Hover.
  destruct (m =? 0); [eauto|]. destruct (m =? 2 ^ 53); eauto.
Qed.

(** The sign of the operands does not decide whether true division and the
    truncation of its result return. *)
Lemma int_true_div_abs_ok (a b : Z) :
  b <> 0 -> is_ok (Float.int_true_div (Z.abs a) (Z.abs b)) ->
  exists x, Float.int_true_div a b = Ok x /\ is_ok (Float.to_int x).
Proof.
  intros Hb. unfold Float.int_true_div, is_ok. cbv zeta.
  rewrite !Z.abs_idemp.
  destruct (Z.eqb_spec b 0) as [?|_]; [lia|].
  destruct (Z.eqb_spec (Z.abs b) 0) as [?|_]; [lia|].
  destruct (Z.eqb_spec a 0) as [->|Ha].
  { intros _. eexists. split; [reflexivity|]. simpl. eauto. }
  destruct (Z.eqb_spec (Z.abs a) 0) as [?|_]; [lia|].
  destruct (_ <=? _); [intros [x Hx]; discriminate|].
  intros _.
  destruct (_ =? 0); [eexists; split; [reflexivity|simpl; eauto]|].
  destruct (_ =? 2 ^ 53); eexists; (split; [reflexivity|simpl; eauto]).
Qed.

Lemma get_uptime_ok (h : Host) (boot : Z) :
  boot_datetime h = Ok boot ->
  valid_datetime boot -> valid_datetime (datetime_now h) ->
  is_ok (OSDetector_get_uptime h).
Proof.
  unfold valid_datetime, datetime_range. intros Hboot Hvb Hvn.
  unfold OSDetector_get_uptime. rewrite Hboot. run.
  unfold total_seconds. rewrite timedelta_total_us.
  destruct (int_true_div_abs_ok (datetime_now h - boot) 1000000)
    as (x & Hx & [T HT]).
  - lia.
  - apply int_true_div_ok; [|reflexivity].
    split; [lia|]. apply Z.lt_trans with (2 ^ 59); [lia|].
    apply Z.pow_lt_mono_r; lia.
  - rewrite Hx. run. rewrite HT. run. unfold is_ok. eauto.
Qed.

Lemma CPUDetector_detect_ok (h : Host) :
  cpu_facilities_ok h -> is_ok (CPUDetector_detect h).
Proof.
  intros (Hphys & Hlog & Hfreq & Hpct & Htemp).
  destruct Hphys as [physical Hphys], Hlog as [logical Hlog],
    Hfreq as [freq Hfreq], Hpct as [percent Hpct].
  destruct (get_temperature_ok h Htemp) as [temperature Htemperature].
  unfold CPUDetector_detect.
  set (name0 := str_or (platform_processor h) (uname_processor (platform_uname h))).
  assert (H1 : exists name1,
    (if negb (Py.truthy name0) && Py.startswith "win" (sys_platform h)
     then out ← run_command h "wmic cpu get name" default_timeout;
          (if Py.truthy out
           then mret (if (1 <? length (Py.splitlines out))%nat
                      then Py.strip (Py.last_line (Py.splitlines out))
                      else "Unknown")
           else mret out)
     else mret name0) = Ok name1).
  { destruct (_ && _); [|eauto].
    destruct (run_command_ok h "wmic cpu get name" default_timeout) as [out ->].
    run. destruct (Py.truthy out); run; eauto. }
  destruct H1 as [name1 ->]. run.
  assert (H2 : exists name2,
    (if String.eqb (sys_platform h) "darwin" && negb (Py.truthy name1)
     then run_command h "sysctl -n machdep.cpu.brand_string" default_timeout
     else mret name1) = Ok name2).
  { destruct (_ && _); [apply run_command_ok | eauto]. }
  destruct H2 as [name2 ->]. run.
  assert (H3 : exists name3,
    (if negb (Py.truthy name2) && Py.startswith "linux" (sys_platform h)
     then run_command h
            "cat /proc/cpuinfo | grep 'model name' | head -1 | cut -d':' -f2"
            default_timeout
     else mret name2) = Ok name3).
  { destruct (_ && _); [apply run_command_ok | eauto]. }
  destruct H3 as [name3 ->]. run.
  rewrite Hphys, Hlog, Hfreq, Hpct, Htemperature. run.
  unfold is_ok. eauto.
Qed.

Lemma OSDetector_detect_ok (h : Host) : is_ok (OSDetector_detect h).
Proof. unfold OSDetector_detect, is_ok. eauto. Qed.

Lemma BatteryDetector_detect_ok (h : Host) : is_ok (BatteryDetector_detect h).
Proof.
  unfold BatteryDetector_detect, is_ok.
  destruct (sensors_battery h) as [[battery|]|e]; eauto.
Qed.

Lemma MotherboardDetector_detect_ok (h : Host) :
  is_ok (MotherboardDetector_detect h).
Proof.
  unfold MotherboardDetector_detect, is_ok.
  destruct (if WMI_AVAILABLE h && Py.startswith "win" (sys_platform h)
            then wmi_motherboard h else None); run; [eauto|].
  destruct (Py.startswith "linux" (sys_platform h)); run; [|eauto].
  destruct (run_command_ok h "cat /sys/class/dmi/id/board_vendor 2>/dev/null"
              default_timeout) as [m ->].
  destruct (run_command_ok h "cat /sys/class/dmi/id/board_name 2>/dev/null"
              default_timeout) as [p ->].
  run. destruct (_ && _); run; eauto.
Qed.

Lemma MemoryDetector_detect_ok (h : Host) :
  is_ok (virtual_memory h) -> is_ok (swap_memory h) ->
  is_ok (MemoryDetector_detect h).
Proof.
  intros [vmem Hv] [swap Hs]. unfold MemoryDetector_detect, is_ok.
  rewrite Hv, Hs. run. eauto.
Qed.

Lemma int_of_digits_nonneg (s : string) (acc : Z) :
  Py.all_decimal s = true -> 0 <= acc -> 0 <= Py.int_of_digits acc s.
Proof.
  revert acc. induction s as [|c s IH]; intros acc Hs Hacc; simpl; [exact Hacc|].
  simpl in Hs. apply andb_true_iff in Hs as [Hc Hs]. apply IH; [exact Hs|].
  unfold Py.is_decimal in Hc. apply andb_true_iff in Hc as [Hlo _].
  apply Nat.leb_le in Hlo. lia.
Qed.

(** Below the digit limit [int] returns the number the digits write. *)
Lemma int_of_str_digits (s : string) :
  Py.isdigit s = true ->
  (String.length s <= Py.int_max_str_digits)%nat ->
  Py.int_of_str s = Ok (Py.int_of_digits 0 s).
Proof.
  intros Hdigit Hlength. unfold Py.int_of_str. rewrite Hdigit. cbn [negb].
  destruct (Nat.ltb_spec Py.int_max_str_digits (String.length s)); [lia|].
  reflexivity.
Qed.

Lemma int_of_str_value (s : string) (z : Z) :
  Py.int_of_str s = Ok z ->
  z = Py.int_of_digits 0 s /\ (String.length s <= Py.int_max_str_digits)%nat.
Proof.
  unfold Py.int_of_str. destruct (negb (Py.isdigit s)); [discriminate|].
  destruct (Nat.ltb_spec Py.int_max_str_digits (String.length s));
    [discriminate|]. intros [= <-]. split; [reflexivity | assumption].
Qed.

Lemma AppleSiliconDetector_detect_ok (h : Host) :
  apple_memory_in_range h -> is_ok (AppleSiliconDetector_detect h).
Proof.
  intros Hrange. unfold AppleSiliconDetector_detect, is_ok.
  destruct (negb (String.eqb (sys_platform h) "darwin")); run; [eauto|].
  destruct (run_command_ok h "sysctl -n machdep.cpu.brand_string" default_timeout)
    as [chip ->]. run.
  destruct (_ || _); run; [eauto|].
  destruct (run_command_ok h "sysctl -n hw.memsize" default_timeout)
    as [mem Hmem]. rewrite Hmem. run.
  destruct (Py.isdigit mem) eqn:Hdigit; run; [|eauto].
  destruct (Hrange mem Hmem) as [_ Hnumber].
  destruct (Hnumber Hdigit) as [Hlength Hvalue].
  rewrite (int_of_str_digits mem Hdigit Hlength). run.
  destruct (int_true_div_ok (Py.int_of_digits 0 mem) (1024 ^ 3)) as [x ->].
  - split; [|exact Hvalue].
    apply int_of_digits_nonneg; [|lia].
    unfold Py.isdigit in Hdigit. apply andb_true_iff in Hdigit as [_ H]. exact H.
  - reflexivity.
  - run. eauto.
Qed.

Lemma DiskDetector_detect_ok (h : Host) :
  is_ok (disk_partitions h) -> disk_usage_guarded h ->
  is_ok (DiskDetector_detect h).
Proof.
  intros [partitions Hparts] Hguard.
  unfold DiskDetector_detect, DiskDetector_enumerate. rewrite Hparts. run.
  destruct (disk_loop_ok h partitions) as [disks ->].
  - intros p e Hp. exact (Hguard partitions p e Hparts Hp).
  - run. unfold is_ok. eauto.
Qed.

(** C1, a counterexample: a disk-usage failure that is not a permission
    error leaves [DiskDetector.detect] as an exception, and a failure of the
    memory statistics leaves [MemoryDetector.detect] as one; a memory size of
    5000 digits, which [isdigit] accepts and whose value, 0, is no trouble
    for the division, makes the unguarded [int] of
    [AppleSiliconDetector.detect] raise.  In the three cases the collector
    raises and builds no snapshot. *)
Lemma probe_failure_reaches_collector :
  DiskDetector_detect stale_mount_host = Raise FileNotFoundError /\
  collect_system_info stale_mount_host ∅ false = Raise FileNotFoundError /\
  MemoryDetector_detect no_memory_host = Raise OSError /\
  collect_system_info no_memory_host ∅ false = Raise OSError /\
  Py.isdigit (zeros 5000) = true /\
  Py.int_of_digits 0 (zeros 5000) = 0 /\
  AppleSiliconDetector_detect long_memsize_host = Raise ValueError /\
  collect_system_info long_memsize_host ∅ false = Raise ValueError.
Proof. repeat split; vm_compute; reflexivity. Qed.

(** C1, amended: the GPU, battery, motherboard and OS probes return on every
    host, and a permission error of the disk usage skips the partition and
    the enumeration goes on.  When the
    host calls made outside a handler return (boot time, CPU counts,
    frequency and usage, memory and swap statistics, the partition list), the
    temperature sensors raise nothing but AttributeError or KeyError, the disk
    usage raises nothing but PermissionError and the memory size printed on
    an Apple machine is ASCII text and, when it is a number, has at most the
    4300 digits that [int] converts and a value below 2^1000, every probe
    returns and
    the collector returns a snapshot with the nine keys timestamp, os,
    uptime, cpu, gpus, memory, disks, battery, motherboard, and the key
    apple_silicon exactly when the Apple probe returned a record. *)
Theorem collector_builds_complete_snapshot (h : Host) (fs : gset string)
    (benchmark : bool) :
  (is_ok (OSDetector_detect h) /\ is_ok (GPUDetector_detect h) /\
   is_ok (BatteryDetector_detect h) /\ is_ok (MotherboardDetector_detect h)) /\
  (forall partition rest,
     String.eqb (part_fstype partition) "" = false ->
     Py.contains "loop" (part_device partition) = false ->
     disk_usage h (part_mountpoint partition) = Raise PermissionError ->
     disk_loop h (partition :: rest) = disk_loop h rest) /\
  (host_calls_guarded h ->
   is_ok (OSDetector_get_uptime h) /\ is_ok (CPUDetector_detect h) /\
   is_ok (MemoryDetector_detect h) /\ is_ok (DiskDetector_detect h) /\
   exists apple info fs',
     AppleSiliconDetector_detect h = Ok apple /\
     collect_system_info h fs benchmark = Ok (info, fs') /\
     dom info = base_keys ∪ match apple with Some _ => {[ "apple_silicon" ]} | None => ∅ end).
Proof.
  split; [|split].
  - split; [apply OSDetector_detect_ok|].
    split; [destruct (GPUDetector_detect_ok h) as (g & Hg & _); exists g; exact Hg|].
    split; [apply BatteryDetector_detect_ok | apply MotherboardDetector_detect_ok].
  - intros partition rest Hfs Hloop Husage. simpl.
    rewrite Hfs, Hloop, Husage. reflexivity.
  - intros ((boot & Hboot & Hvb) & Hvn & Hcpu & Hvm & Hsw & Hparts & Hdu & Happle).
    pose proof (get_uptime_ok h boot Hboot Hvb Hvn) as Huptime.
    pose proof (CPUDetector_detect_ok h Hcpu) as Hcpud.
    pose proof (MemoryDetector_detect_ok h Hvm Hsw) as Hmem.
    pose proof (DiskDetector_detect_ok h Hparts Hdu) as Hdisk.
    pose proof (AppleSiliconDetector_detect_ok h Happle) as Happled.
    repeat (split; [assumption|]).
    destruct (OSDetector_detect_ok h) as [os Hos].
    destruct Huptime as [uptime Huptime], Hcpud as [cpu Hcpud],
      Hmem as [memory Hmem], Hdisk as [disks Hdisk], Happled as [apple Happled].
    destruct (GPUDetector_detect_ok h) as (gpus & Hgpus & _).
    destruct (BatteryDetector_detect_ok h) as [battery Hbattery].
    destruct (MotherboardDetector_detect_ok h) as [motherboard Hmotherboard].
    exists apple. unfold collect_system_info.
    rewrite Hos, Huptime, Hcpud, Hgpus, Hmem, Hdisk, Hbattery, Hmotherboard.
    run. rewrite Happled. run.
    set (info0 := <["motherboard" := VMotherboard motherboard]> _).
    assert (H0 : dom info0 = base_keys).
    { unfold info0, base_keys. rewrite !dom_insert_L. set_solver. }
    destruct apple as [a|]; (destruct disks as [|main_disk rest];
      [|destruct benchmark;
        [destruct (DiskDetector_benchmark_speed h fs
                     (Some (disk_mountpoint main_disk)) 100 30) as [[bench|] fs']|]]);
      run; eexists _, _; (split; [reflexivity|]); (split; [reflexivity|]);
      rewrite ?dom_insert_L, H0; set_solver.
Qed.

Lemma collector_builds_complete_snapshot_witness :
  exists info fs',
    collect_system_info linux_host ∅ true = Ok (info, fs') /\
    dom info = base_keys.
Proof.
  destruct (collector_builds_complete_snapshot linux_host ∅ true)
    as (_ & _ & Hsnapshot).
  destruct Hsnapshot as (_ & _ & _ & _ & apple & info & fs' & Happle & Hinfo & Hdom).
  - unfold host_calls_guarded, valid_datetime, datetime_range, cpu_facilities_ok,
      temperature_guarded, is_ok. simpl.
    split; [eexists; split; [reflexivity|lia]|].
    split; [lia|]. split; [repeat split; eauto|].
    split; [eauto|]. split; [eauto|]. split; [eauto|]. split.
    + intros partitions p e _ _ _. vm_compute. discriminate.
    + intros s Hs. vm_compute in Hs. injection Hs as <-.
      split; [reflexivity | discriminate].
  - exists info, fs'. split; [exact Hinfo|].
    vm_compute in Happle. injection Happle as <-.
    rewrite Hdom. set_solver.
Defined.

(** * Further properties *)

(** ** Whitespace of command output *)

Lemma lstrip_no_leading (s : string) : no_leading_space (Py.lstrip s) = true.
Proof.
  induction s as [|c r IH]; [reflexivity|]. simpl.
  destruct (Py.is_space c) eqn:Hc; [exact IH|]. simpl. rewrite Hc. reflexivity.
Qed.

Lemma rstrip_no_trailing (s : string) : no_trailing_space (Py.rstrip s) = true.
Proof.
  induction s as [|c r IH]; [reflexivity|]. cbn [Py.rstrip].
  destruct (Py.rstrip r) as [|c' r'] eqn:Hr.
  - cbn [Py.is_empty]. rewrite andb_true_r.
    destruct (Py.is_space c) eqn:Hc; [reflexivity|]. simpl. rewrite Hc. reflexivity.
  - cbn [Py.is_empty]. rewrite andb_false_r. exact IH.
Qed.

Lemma rstrip_keeps_head (s : string) :
  no_leading_space s = true -> no_leading_space (Py.rstrip s) = true.
Proof.
  destruct s as [|c r]; [reflexivity|]. cbn [no_leading_space Py.rstrip].
  intros Hc. apply negb_true_iff in Hc. rewrite Hc. cbn [andb no_leading_space].
  rewrite Hc. reflexivity.
Qed.

Lemma lstrip_fixed (s : string) : no_leading_space s = true -> Py.lstrip s = s.
Proof.
  destruct s as [|c r]; [reflexivity|]. simpl. intros Hc.
  apply negb_true_iff in Hc. rewrite Hc. reflexivity.
Qed.

Lemma rstrip_fixed (s : string) : no_trailing_space s = true -> Py.rstrip s = s.
Proof.
  induction s as [|c r IH]; [reflexivity|]. cbn [Py.rstrip].
  destruct r as [|c' r'].
  - simpl. intros Hc. apply negb_true_iff in Hc. rewrite Hc. reflexivity.
  - intros H. rewrite (IH H). cbn [Py.is_empty]. rewrite andb_false_r. reflexivity.
Qed.

(** [strip] leaves no whitespace at either end, and a second [strip] changes
    nothing. *)
Lemma strip_clean (s : string) :
  no_leading_space (Py.strip s) = true /\
  no_trailing_space (Py.strip s) = true /\
  Py.strip (Py.strip s) = Py.strip s.
Proof.
  assert (Hl : no_leading_space (Py.strip s) = true).
  { unfold Py.strip. apply rstrip_keeps_head, lstrip_no_leading. }
  assert (Hr : no_trailing_space (Py.strip s) = true).
  { unfold Py.strip. apply rstrip_no_trailing. }
  split; [exact Hl|]. split; [exact Hr|].
  unfold Py.strip at 1. rewrite (lstrip_fixed _ Hl). apply rstrip_fixed, Hr.
Qed.

(** X1: whatever the command prints, the string that [run_command] returns
    has no whitespace at its start or at its end, so stripping it again
    changes nothing. *)
Theorem run_command_output_is_stripped (h : Host) (cmd : string) (timeout : Z) :
  exists s, run_command h cmd timeout = Ok s /\
    no_leading_space s = true /\ no_trailing_space s = true /\ Py.strip s = s.
Proof.
  unfold run_command.
  destruct (check_output h cmd timeout) as [out|e].
  - exists (Py.strip out). split; [reflexivity|]. apply strip_clean.
  - exists "". split; [destruct e; reflexivity|]. repeat split.
Qed.

(** ** The name of the CPU *)

Lemma str_or_strip_default (s : string) :
  let name := str_or (Py.strip s) "Unknown CPU" in
  name <> "" /\ Py.strip name = name.
Proof.
  unfold str_or. destruct (Py.strip s) as [|c r] eqn:Hs.
  - split; [discriminate | reflexivity].
  - cbn [Py.truthy Py.is_empty negb]. split; [discriminate|].
    rewrite <- Hs. apply strip_clean.
Qed.

(** The name that [CPUDetector.detect] returns is the last candidate of the
    fallback chain, stripped, or the sentinel; a processor identifier that is
    not empty ends the chain at once. *)
Lemma CPUDetector_detect_name (h : Host) :
  cpu_facilities_ok h ->
  exists info candidate,
    CPUDetector_detect h = Ok info /\
    cpu_name info = str_or (Py.strip candidate) "Unknown CPU" /\
    (Py.truthy (platform_processor h) = true -> candidate = platform_processor h).
Proof.
  intros (Hphys & Hlog & Hfreq & Hpct & Htemp).
  destruct Hphys as [physical Hphys], Hlog as [logical Hlog],
    Hfreq as [freq Hfreq], Hpct as [percent Hpct].
  destruct (get_temperature_ok h Htemp) as [temperature Htemperature].
  unfold CPUDetector_detect.
  set (name0 := str_or (platform_processor h) (uname_processor (platform_uname h))).
  assert (H0 : Py.truthy (platform_processor h) = true ->
               name0 = platform_processor h /\ Py.truthy name0 = true).
  { intros Ht. unfold name0, str_or. rewrite Ht. auto. }
  assert (H1 : exists name1,
    (if negb (Py.truthy name0) && Py.startswith "win" (sys_platform h)
     then out ← run_command h "wmic cpu get name" default_timeout;
          (if Py.truthy out
           then mret (if (1 <? length (Py.splitlines out))%nat
                      then Py.strip (Py.last_line (Py.splitlines out))
                      else "Unknown")
           else mret out)
     else mret name0) = Ok name1 /\
    (Py.truthy name0 = true -> name1 = name0)).
  { destruct (Py.truthy name0); cbn [negb andb]; [eauto|].
    destruct (Py.startswith "win" (sys_platform h)).
    - destruct (run_command_ok h "wmic cpu get name" default_timeout) as [out ->].
      run. destruct (Py.truthy out); run; eexists; (split; [reflexivity|]);
        discriminate.
    - eexists. split; [reflexivity|]. discriminate. }
  destruct H1 as (name1 & -> & Hn1). run.
  assert (H2 : exists name2,
    (if String.eqb (sys_platform h) "darwin" && negb (Py.truthy name1)
     then run_command h "sysctl -n machdep.cpu.brand_string" default_timeout
     else mret name1) = Ok name2 /\
    (Py.truthy name1 = true -> name2 = name1)).
  { destruct (Py.truthy name1); cbn [negb]; [rewrite andb_false_r; eauto|].
    destruct (_ && _).
    - destruct (run_command_ok h "sysctl -n machdep.cpu.brand_string"
                  default_timeout) as [out ->].
      eexists. split; [reflexivity|]. discriminate.
    - eexists. split; [reflexivity|]. discriminate. }
  destruct H2 as (name2 & -> & Hn2). run.
  assert (H3 : exists name3,
    (if negb (Py.truthy name2) && Py.startswith "linux" (sys_platform h)
     then run_command h
            "cat /proc/cpuinfo | grep 'model name' | head -1 | cut -d':' -f2"
            default_timeout
     else mret name2) = Ok name3 /\
    (Py.truthy name2 = true -> name3 = name2)).
  { destruct (Py.truthy name2); cbn [negb andb]; [eauto|].
    destruct (Py.startswith "linux" (sys_platform h)).
    - destruct (run_command_ok h
        "cat /proc/cpuinfo | grep 'model name' | head -1 | cut -d':' -f2"
        default_timeout) as [out ->].
      eexists. split; [reflexivity|]. discriminate.
    - eexists. split; [reflexivity|]. discriminate. }
  destruct H3 as (name3 & -> & Hn3). run.
  rewrite Hphys, Hlog, Hfreq, Hpct, Htemperature. run.
  eexists _, name3. split; [reflexivity|]. split; [reflexivity|].
  intros Ht. destruct (H0 Ht) as [E0 T0].
  pose proof (Hn1 T0) as E1.
  assert (T1 : Py.truthy name1 = true) by (rewrite E1; exact T0).
  pose proof (Hn2 T1) as E2.
  assert (T2 : Py.truthy name2 = true) by (rewrite E2; exact T1).
  pose proof (Hn3 T2) as E3. congruence.
Qed.

(** X2: when the psutil calls of the CPU probe return, the CPU name is never
    empty and carries no whitespace at its ends; a processor identifier of
    the platform that is not empty is used without running any command, and
    when it holds whitespace only the name is the sentinel "Unknown CPU". *)
Theorem cpu_name_never_empty (h : Host) :
  cpu_facilities_ok h ->
  exists info, CPUDetector_detect h = Ok info /\
    cpu_name info <> "" /\
    Py.strip (cpu_name info) = cpu_name info /\
    (Py.truthy (platform_processor h) = true ->
     cpu_name info = str_or (Py.strip (platform_processor h)) "Unknown CPU").
Proof.
  intros Hok.
  destruct (CPUDetector_detect_name h Hok) as (info & candidate & Hd & Hname & Hproc).
  exists info. split; [exact Hd|].
  destruct (str_or_strip_default candidate) as [Hne Hstrip].
  rewrite Hname. split; [exact Hne|]. split; [exact Hstrip|].
  intros Ht. rewrite (Hproc Ht). reflexivity.
Qed.

Lemma cpu_name_never_empty_witness :
  exists info, CPUDetector_detect linux_host = Ok info /\
    cpu_name info = "x86_64".
Proof.
  destruct (cpu_name_never_empty linux_host) as (info & Hd & _ & _ & Hname).
  - unfold cpu_facilities_ok, is_ok, temperature_guarded. simpl.
    repeat split; eauto.
  - exists info. split; [exact Hd|]. rewrite Hname; reflexivity.
Defined.

(** ** The temperature of the CPU *)

Lemma dict_get_elem {A : Type} (name : string) (d : list (string * A)) (v : A) :
  dict_get name d = Some v -> (name, v) ∈ d.
Proof.
  induction d as [|[k w] rest IH]; simpl; [discriminate|].
  destruct (String.eqb_spec k name) as [->|_].
  - intros [= ->]. left.
  - intros H. right. exact (IH H).
Qed.

Lemma first_reading_none (temps : list (string * list spec_float)) :
  first_reading temps = None <-> Forall (fun g => g.2 = []) temps.
Proof.
  induction temps as [|[name [|t ts]] rest IH]; simpl.
  - split; [constructor | reflexivity].
  - rewrite IH. split; [intros H; constructor; [reflexivity | exact H]|].
    intros H. apply Forall_cons in H as [_ H]. exact H.
  - split; [discriminate|]. intros H. apply Forall_cons in H as [H _].
    discriminate H.
Qed.

Lemma first_reading_origin (temps : list (string * list spec_float)) (t : spec_float) :
  first_reading temps = Some t -> exists name rest, (name, t :: rest) ∈ temps.
Proof.
  induction temps as [|[name [|t' ts]] rest IH]; simpl; [discriminate| |].
  - intros H. destruct (IH H) as (n & r & Hin). exists n, r. right. exact Hin.
  - intros [= ->]. exists name, ts. left.
Qed.

Lemma preferred_reading_origin (names : list string)
    (temps : list (string * list spec_float)) (t : spec_float) :
  preferred_reading names temps = Some t ->
  exists name rest, name ∈ names /\ (name, t :: rest) ∈ temps.
Proof.
  induction names as [|name names IH]; simpl; [discriminate|].
  destruct (dict_get name temps) as [[|t' ts]|] eqn:Hget.
  - intros H. destruct (IH H) as (n & r & Hn & Hin). exists n, r.
    split; [right; exact Hn | exact Hin].
  - intros [= ->]. exists name, ts. split; [left|].
    apply dict_get_elem. exact Hget.
  - intros H. destruct (IH H) as (n & r & Hn & Hin). exists n, r.
    split; [right; exact Hn | exact Hin].
Qed.

Lemma preferred_reading_none (names : list string)
    (temps : list (string * list spec_float)) :
  Forall (fun g => g.2 = []) temps -> preferred_reading names temps = None.
Proof.
  intros Hall. induction names as [|name names IH]; simpl; [reflexivity|].
  destruct (dict_get name temps) as [[|t ts]|] eqn:Hget; try exact IH.
  apply dict_get_elem in Hget. rewrite Forall_forall in Hall.
  specialize (Hall _ Hget). discriminate Hall.
Qed.

(** X3: when the sensors can be read, [_get_temperature] returns no value
    exactly when no sensor group has a reading; a value it returns is the
    first reading of some group; and the first reading of the group coretemp,
    when it has one, is returned wherever the group stands in the
    dictionary. *)
Theorem temperature_reading_origin (h : Host)
    (temps : list (string * list spec_float)) :
  sensors_temperatures h = Ok temps ->
  exists r, CPUDetector_get_temperature h = Ok r /\
    (r = None <-> Forall (fun g => g.2 = []) temps) /\
    (forall t, r = Some t -> exists name rest, (name, t :: rest) ∈ temps) /\
    (forall t rest, dict_get "coretemp" temps = Some (t :: rest) -> r = Some t).
Proof.
  intros Hs. unfold CPUDetector_get_temperature. rewrite Hs.
  destruct temps as [|g gs].
  - exists None. split; [reflexivity|]. split; [split; auto|].
    split; [discriminate|]. discriminate.
  - set (temps := g :: gs) in *.
    destruct (preferred_reading preferred_sensors temps) as [t|] eqn:Hpref.
    + exists (Some t). split; [reflexivity|]. split; [|split].
      * split; [discriminate|]. intros Hall.
        rewrite (preferred_reading_none _ _ Hall) in Hpref. discriminate.
      * intros t' [= <-].
        destruct (preferred_reading_origin _ _ _ Hpref) as (n & r & _ & Hin).
        eauto.
      * intros t' rest Hget. revert Hpref. unfold preferred_sensors.
        cbn [preferred_reading]. rewrite Hget. congruence.
    + exists (first_reading temps). split; [reflexivity|]. split; [|split].
      * apply first_reading_none.
      * apply first_reading_origin.
      * intros t rest Hget. revert Hpref. unfold preferred_sensors.
        cbn [preferred_reading]. rewrite Hget. discriminate.
Qed.

Lemma temperature_reading_origin_witness :
  CPUDetector_get_temperature sensor_host = Ok (Some (Float.of_int 55)).
Proof.
  destruct (temperature_reading_origin sensor_host _ eq_refl)
    as (r & -> & _ & _ & Hcore).
  f_equal. apply (Hcore (Float.of_int 55) [Float.of_int 57]). reflexivity.
Defined.

(** ** The GPU sub-probes *)

Lemma nvidia_line_origin (h : Host) (line : string) (g : gpu_info) :
  nvidia_line h line = Some g -> nvidia_record_of_line h line g.
Proof.
  unfold nvidia_line, nvidia_record, nvidia_record_of_line.
  destruct (5 <=? length (Py.strip <$> Py.split "," line))%nat; [|discriminate].
  destruct (Py.strip <$> Py.split "," line) as [|p0 [|p1 [|p2 [|p3 [|p4 rest]]]]];
    try discriminate.
  destruct (float_of_str h p1) as [total|] eqn:H1; [|discriminate].
  destruct (float_of_str h p2) as [used|] eqn:H2; [|discriminate].
  destruct (float_of_str h p3) as [utilization|] eqn:H3; [|discriminate].
  simpl. destruct (String.eqb_spec p4 "[N/A]") as [->|Hne]; simpl.
  - intros [= <-]. exists p1, p2, p3, "[N/A]", rest, total, used, utilization.
    simpl. split; [reflexivity|]. do 3 (split; [assumption|]).
    do 3 (split; [reflexivity|]). split; [split; reflexivity|].
    intros Hc. exfalso. apply Hc. reflexivity.
  - destruct (float_of_str h p4) as [t|] eqn:H4; simpl; [|discriminate].
    intros [= <-]. exists p1, p2, p3, p4, rest, total, used, utilization.
    simpl. split; [reflexivity|]. do 3 (split; [assumption|]).
    do 3 (split; [reflexivity|]).
    split; [split; [discriminate | contradiction]|].
    intros _. exists t. split; [assumption | reflexivity].
Qed.

Lemma omap_length_le {A B : Type} (f : A -> option B) (l : list A) :
  (length (omap f l) <= length l)%nat.
Proof.
  induction l as [|x l IH]; [simpl; lia|].
  change (omap f (x :: l))
    with (match f x with Some y => y :: omap f l | None => omap f l end).
  destruct (f x); simpl; lia.
Qed.

(** X4: the NVIDIA sub-probe returns nothing without nvidia-smi; with it,
    every record comes from one output line with at least five
    comma-separated fields of which the second to the fourth are numbers, its
    name being the first field, its temperature missing exactly when the
    fifth field is [N/A]; there are at most as many records as lines, and a
    line that is not a record leaves the records of the other lines in
    place. *)
Theorem nvidia_records_come_from_lines (h : Host) :
  exists gpus, GPUDetector_detect_nvidia h = Ok gpus /\
    (which h "nvidia-smi" = false -> gpus = []) /\
    (forall output,
       which h "nvidia-smi" = true ->
       run_command h nvidia_query default_timeout = Ok output ->
       (length gpus <= length (Py.splitlines output))%nat /\
       Forall (fun g => exists line, line ∈ Py.splitlines output /\
                                     nvidia_record_of_line h line g) gpus /\
       (forall before line after,
          Py.splitlines output = before ++ line :: after ->
          nvidia_line h line = None ->
          gpus = omap (nvidia_line h) before ++ omap (nvidia_line h) after)).
Proof.
  unfold GPUDetector_detect_nvidia.
  destruct (which h "nvidia-smi"); cbn [negb].
  - destruct (run_command_ok h nvidia_query default_timeout) as [out Hout].
    rewrite Hout. run. exists (if negb (Py.truthy out) then []
                              else omap (nvidia_line h) (Py.splitlines out)).
    split; [destruct (Py.truthy out); reflexivity|]. split; [discriminate|].
    intros output _ [= <-].
    destruct out as [|c r].
    + cbn [Py.truthy Py.is_empty negb Py.splitlines].
      split; [simpl; lia|]. split; [constructor|].
      intros before line after Hsplit. destruct before; discriminate Hsplit.
    + cbn [Py.truthy Py.is_empty negb]. split; [apply omap_length_le|]. split.
      * apply Forall_forall. intros g Hg.
        apply list_elem_of_omap in Hg as (line & Hline & Hrec).
        exists line. split; [exact Hline|]. apply nvidia_line_origin. exact Hrec.
      * intros before line after -> Hnone.
        rewrite omap_app. cbn [omap list_omap]. rewrite Hnone. reflexivity.
  - run. exists []. split; [reflexivity|]. split; [reflexivity|]. discriminate.
Qed.

Lemma nvidia_records_come_from_lines_witness :
  exists tesla rtx,
    GPUDetector_detect_nvidia vendor_tools_host = Ok [tesla; rtx] /\
    gpu_name tesla = "Tesla K80" /\ gpu_temperature_c tesla = None /\
    gpu_name rtx = "GeForce RTX 3080".
Proof.
  destruct (nvidia_records_come_from_lines vendor_tools_host)
    as (gpus & Hd & _ & Hlines).
  destruct (Hlines ("Tesla K80, 11441, 0, 0, [N/A]" +:+ newline +:+
                    "Failed to initialize NVML" +:+ newline +:+
                    "GeForce RTX 3080, 10240, 512, 7, 45"))
    as (_ & _ & Hskip); [reflexivity | reflexivity |].
  rewrite (Hskip ["Tesla K80, 11441, 0, 0, [N/A]"] "Failed to initialize NVML"
             ["GeForce RTX 3080, 10240, 512, 7, 45"]) in Hd;
    [|reflexivity | reflexivity].
  eexists _, _. split; [exact Hd|]. repeat split.
Defined.

Lemma amd_name_origin (lines : list string) :
  amd_name_of_lines lines (amd_name lines).
Proof.
  unfold amd_name_of_lines.
  induction lines as [|line lines IH]; simpl; [left; reflexivity|].
  assert (Hrest : amd_name lines = "AMD GPU" \/
                  exists l p0 p1 rest, l ∈ line :: lines /\
                    Py.contains "GPU" l || Py.contains "Card" l = true /\
                    Py.split ":" l = p0 :: p1 :: rest /\
                    amd_name lines = Py.strip p1).
  { destruct IH as [H|(l & p0 & p1 & rest & Hl & Hm & Hs & Hn)]; [left; exact H|].
    right. exists l, p0, p1, rest. split; [right; exact Hl|]. auto. }
  destruct (Py.contains "GPU" line || Py.contains "Card" line) eqn:Hm;
    [|exact Hrest].
  destruct (Py.split ":" line) as [|p0 [|p1 rest]] eqn:Hs; try exact Hrest.
  right. exists line, p0, p1, rest. split; [left|]. auto.
Qed.

(** X5: the AMD sub-probe returns at most one record, whatever the number of
    cards rocm-smi lists, and none exactly when rocm-smi is missing or prints
    nothing; the record has memory and utilization 0 and no temperature, and
    its name is "AMD GPU" or the second colon-separated field of the first
    line that mentions GPU or Card and has a colon. *)
Theorem amd_probe_returns_one_record (h : Host) :
  exists gpus name_output,
    GPUDetector_detect_amd h = Ok gpus /\
    run_command h "rocm-smi --showproductname" default_timeout = Ok name_output /\
    (length gpus <= 1)%nat /\
    (gpus = [] <-> which h "rocm-smi" = false \/ name_output = "") /\
    Forall (fun g =>
      gpu_vendor g = "AMD" /\
      amd_name_of_lines (Py.splitlines name_output) (gpu_name g) /\
      gpu_vram_total_gb g = PInt 0 /\ gpu_vram_used_gb g = PInt 0 /\
      gpu_utilization_percent g = PInt 0 /\ gpu_temperature_c g = None) gpus.
Proof.
  unfold GPUDetector_detect_amd.
  destruct (run_command_ok h "rocm-smi --showproductname" default_timeout) as [n Hn].
  destruct (run_command_ok h "rocm-smi --showmeminfo vram" default_timeout) as [m Hm].
  destruct (run_command_ok h "rocm-smi --showtemp" default_timeout) as [t Ht].
  destruct (run_command_ok h "rocm-smi --showuse" default_timeout) as [u Hu].
  rewrite Hn, Hm, Ht, Hu.
  destruct (which h "rocm-smi"); cbn [negb]; run.
  - destruct n as [|c r]; cbn [Py.truthy Py.is_empty negb]; run.
    + exists [], "". repeat split; auto.
    + eexists _, _. split; [reflexivity|]. split; [reflexivity|].
      split; [simpl; lia|]. split.
      * split; [discriminate|]. intros [H|H]; discriminate H.
      * constructor; [|constructor]. split; [reflexivity|].
        split; [apply amd_name_origin|]. repeat split.
  - exists [], n. repeat split; auto.
Qed.

Lemma amd_probe_returns_one_record_witness :
  exists g,
    GPUDetector_detect_amd vendor_tools_host = Ok [g] /\
    gpu_vendor g = "AMD" /\ gpu_name g = "Card series".
Proof.
  destruct (amd_probe_returns_one_record vendor_tools_host)
    as (gpus & name_output & Hdetect & Houtput & Hlength & Hnone & Hall).
  destruct gpus as [|g [|g' rest]].
  - destruct Hnone as [Hnone _].
    destruct (Hnone eq_refl) as [Hwhich|Hempty]; [discriminate Hwhich|].
    subst name_output. vm_compute in Houtput. discriminate Houtput.
  - exists g. split; [exact Hdetect|].
    apply Forall_cons in Hall as [[Hvendor _] _]. split; [exact Hvendor|].
    vm_compute in Hdetect. injection Hdetect as <-. reflexivity.
  - simpl in Hlength. lia.
Defined.

Lemma wmi_loop_stops (before : list wmi_video) (video : wmi_video)
    (after : list wmi_video) (gpus : list gpu_info) :
  video_Name video = None ->
  wmi_loop (before ++ video :: after) gpus = wmi_loop before gpus.
Proof.
  intros Hnone. revert gpus.
  induction before as [|v before IH]; intros gpus; simpl.
  - rewrite Hnone. reflexivity.
  - destruct (video_Name v) as [raw|]; [|reflexivity].
    destruct (mentions_keyword (Py.strip raw)); [|apply IH].
    destruct (if or_zero (video_AdapterRAM v) =? 0 then _ else _); [apply IH|].
    reflexivity.
Qed.

Lemma wmi_loop_records (P : gpu_info -> Prop) (videos : list wmi_video)
    (gpus : list gpu_info) :
  (forall video raw g,
     video ∈ videos -> video_Name video = Some raw ->
     mentions_keyword (Py.strip raw) = true ->
     gpu_vendor g = "Integrated/Discrete" -> gpu_name g = Py.strip raw ->
     gpu_vram_used_gb g = PInt 0 -> gpu_utilization_percent g = PInt 0 ->
     gpu_temperature_c g = None -> P g) ->
  Forall P gpus -> Forall P (wmi_loop videos gpus).
Proof.
  revert gpus. induction videos as [|video rest IH]; intros gpus HP Hgpus; simpl.
  - exact Hgpus.
  - assert (HPrest : forall v raw g, v ∈ rest -> video_Name v = Some raw ->
              mentions_keyword (Py.strip raw) = true ->
              gpu_vendor g = "Integrated/Discrete" -> gpu_name g = Py.strip raw ->
              gpu_vram_used_gb g = PInt 0 -> gpu_utilization_percent g = PInt 0 ->
              gpu_temperature_c g = None -> P g).
    { intros v raw g Hv. apply HP. right. exact Hv. }
    destruct (video_Name video) as [raw|] eqn:Hname; [|exact Hgpus].
    destruct (mentions_keyword (Py.strip raw)) eqn:Hkey; [|apply IH; assumption].
    destruct (if or_zero (video_AdapterRAM video) =? 0 then _ else _) as [gb|e];
      [|exact Hgpus].
    apply IH; [exact HPrest|]. apply Forall_app. split; [exact Hgpus|].
    constructor; [|constructor].
    apply (HP video raw); auto. left.
Qed.

Lemma wmi_loop_length (videos : list wmi_video) (gpus : list gpu_info) :
  (length (wmi_loop videos gpus) <= length gpus + length videos)%nat.
Proof.
  revert gpus. induction videos as [|video rest IH]; intros gpus; simpl; [lia|].
  destruct (video_Name video) as [raw|]; [|lia].
  destruct (mentions_keyword (Py.strip raw)); [|specialize (IH gpus); lia].
  destruct (if or_zero (video_AdapterRAM video) =? 0 then _ else _); [|lia].
  specialize (IH (gpus ++ [ {| gpu_vendor := "Integrated/Discrete";
                               gpu_name := Py.strip raw;
                               gpu_vram_total_gb := a;
                               gpu_vram_used_gb := PInt 0;
                               gpu_utilization_percent := PInt 0;
                               gpu_temperature_c := None |} ])).
  rewrite length_app in IH. simpl in IH. lia.
Qed.

(** X6: the Windows device enumeration returns at most one record per video
    controller, each with the stripped name of a controller that mentions one
    of the keywords NVIDIA, AMD, Intel, Radeon, GeForce, and with used
    memory 0, utilization 0 and no temperature; a controller without a name
    ends the enumeration: the records of the controllers before it are
    returned and every controller after it is lost. *)
Theorem wmi_enumeration_stops_at_nameless_controller (h : Host)
    (videos : list wmi_video) :
  wmi_video_controllers h = Ok videos ->
  exists gpus, GPUDetector_detect_wmi h = Ok gpus /\
    (length gpus <= length videos)%nat /\
    Forall (fun g => exists video raw,
              video ∈ videos /\ video_Name video = Some raw /\
              gpu_name g = Py.strip raw /\
              mentions_keyword (gpu_name g) = true /\
              gpu_vram_used_gb g = PInt 0 /\ gpu_utilization_percent g = PInt 0 /\
              gpu_temperature_c g = None) gpus /\
    (forall before video after,
       videos = before ++ video :: after -> video_Name video = None ->
       gpus = wmi_loop before []).
Proof.
  intros Hv. unfold GPUDetector_detect_wmi. rewrite Hv.
  exists (wmi_loop videos []). split; [reflexivity|]. split; [|split].
  - pose proof (wmi_loop_length videos []) as H. simpl in H. exact H.
  - apply wmi_loop_records; [|constructor].
    intros video raw g Hin Hname Hkey _ Hg Hused Hutil Htemp.
    exists video, raw. rewrite Hg. auto 10.
  - intros before video after -> Hnone. apply wmi_loop_stops. exact Hnone.
Qed.

Lemma wmi_enumeration_stops_at_nameless_controller_witness :
  exists intel, GPUDetector_detect_wmi nameless_adapter_host = Ok [intel] /\
    gpu_name intel = "Intel(R) UHD Graphics 630".
Proof.
  destruct (wmi_enumeration_stops_at_nameless_controller nameless_adapter_host
              three_adapters eq_refl) as (gpus & Hd & _ & _ & Hstop).
  rewrite (Hstop [ {| video_Name := Some "Intel(R) UHD Graphics 630";
                     video_AdapterRAM := Some (1024 ^ 3) |} ]
             nameless_video
             [ {| video_Name := Some "NVIDIA GeForce RTX 3080";
                  video_AdapterRAM := Some (4 * 1024 ^ 3) |} ]
             eq_refl eq_refl) in Hd.
  eexists. split; [exact Hd|]. reflexivity.
Defined.

(** ** The volumes of the disk probe *)

Lemma detect_disk_type_in_types (h : Host) (device : string) :
  DiskDetector_detect_disk_type h device ∈ disk_types.
Proof.
  unfold DiskDetector_detect_disk_type, disk_types.
  repeat match goal with
  | |- context [if ?b then _ else _] => destruct b
  | |- context [match ?m with Some _ => _ | None => _ end] => destruct m
  | |- context [match ?m with Ok _ => _ | Raise _ => _ end] => destruct m
  end; set_solver.
Qed.

Lemma disk_loop_origin (h : Host) (partitions : list sdiskpart)
    (disks : list disk_info) :
  disk_loop h partitions = Ok disks ->
  Forall (fun d => disk_benchmark d = None /\
                   exists partition, partition ∈ partitions /\
                     partition_kept partition = true /\
                     disk_of_partition h partition d) disks.
Proof.
  revert disks. induction partitions as [|p rest IH]; intros disks; simpl.
  - intros [= <-]. constructor.
  - assert (Hrest : forall l, disk_loop h rest = Ok l ->
        Forall (fun d => disk_benchmark d = None /\
                   exists partition, partition ∈ p :: rest /\
                     partition_kept partition = true /\
                     disk_of_partition h partition d) l).
    { intros l Hl. eapply Forall_impl; [exact (IH l Hl)|].
      intros d (Hb & q & Hq & Hrec). split; [exact Hb|].
      exists q. split; [right; exact Hq | exact Hrec]. }
    destruct (_ || _) eqn:Hskip; [apply Hrest|].
    destruct (disk_usage h (part_mountpoint p)) as [usage|e] eqn:Husage.
    + destruct (disk_loop h rest) as [l|e]; run; [|discriminate].
      intros [= <-]. constructor; [|apply Hrest; reflexivity].
      split; [reflexivity|]. exists p. split; [left|].
      split; [unfold partition_kept; rewrite Hskip; reflexivity|].
      exists usage. split; [exact Husage|]. repeat split.
    + destruct e; try discriminate. apply Hrest.
Qed.

Lemma detect_from_enumerate (h : Host) (disks : list disk_info) :
  DiskDetector_detect h = Ok disks ->
  exists enumerated,
    DiskDetector_enumerate h = Ok enumerated /\
    disks = take 3 (stable_sort disk_key_le enumerated).
Proof.
  unfold DiskDetector_detect.
  destruct (DiskDetector_enumerate h) as [enumerated|e]; run; [|discriminate].
  intros [= <-]. exists enumerated. split; reflexivity.
Qed.

Lemma detect_elem_enumerated (enumerated : list disk_info) (d : disk_info) :
  d ∈ take 3 (stable_sort disk_key_le enumerated) -> d ∈ enumerated.
Proof.
  intros Hd. rewrite <- (stable_sort_perm disk_key_le enumerated).
  apply elem_of_take in Hd as (i & Hi & _).
  eapply list_elem_of_lookup_2. exact Hi.
Qed.

(** X7: every entry that [DiskDetector.detect] returns describes a partition
    of the host that has a file-system type, is not a loop device and whose
    usage could be read: mount point, device, type and the four usage numbers
    are those of that partition, the storage type is one of NVMe, SSD, HDD
    and Unknown, and the entry has no benchmark yet. *)
Theorem disk_entries_describe_kept_partitions (h : Host)
    (partitions : list sdiskpart) (disks : list disk_info) :
  disk_partitions h = Ok partitions ->
  DiskDetector_detect h = Ok disks ->
  Forall (fun d =>
    disk_fstype d <> "" /\
    Py.contains "loop" (disk_device d) = false /\
    disk_type d ∈ disk_types /\
    disk_benchmark d = None /\
    exists partition,
      partition ∈ partitions /\ disk_of_partition h partition d) disks.
Proof.
  intros Hparts Hdetect.
  destruct (detect_from_enumerate h disks Hdetect) as (enumerated & Henum & ->).
  unfold DiskDetector_enumerate in Henum. rewrite Hparts in Henum.
  cbn [mbind result_bind] in Henum.
  pose proof (disk_loop_origin h partitions enumerated Henum) as Hall.
  rewrite Forall_forall in Hall. apply Forall_forall. intros d Hd.
  apply detect_elem_enumerated in Hd.
  destruct (Hall d Hd) as (Hbench & p & Hp & Hkept & Hrec).
  pose proof Hrec as (usage & _ & _ & Hdev & Hfs & _ & _ & _ & _ & Htype & _).
  unfold partition_kept in Hkept. apply negb_true_iff, orb_false_iff in Hkept.
  destruct Hkept as [Hfstype Hloop].
  split; [|split; [|split; [|split]]].
  - rewrite Hfs. apply String.eqb_neq. exact Hfstype.
  - rewrite Hdev. exact Hloop.
  - rewrite Htype. apply detect_disk_type_in_types.
  - exact Hbench.
  - exists p. split; assumption.
Qed.

Lemma disk_entries_describe_kept_partitions_witness :
  exists disks,
    DiskDetector_detect linux_host = Ok disks /\
    Forall (fun d => Py.contains "loop" (disk_device d) = false) disks.
Proof.
  destruct (DiskDetector_detect linux_host) as [disks|] eqn:Hdetect;
    [|vm_compute in Hdetect; discriminate].
  exists disks. split; [reflexivity|].
  eapply Forall_impl.
  - apply (disk_entries_describe_kept_partitions linux_host sample_partitions disks
             eq_refl Hdetect).
  - intros d (_ & Hloop & _). exact Hloop.
Defined.

Lemma disk_loop_listed (h : Host) (partitions : list sdiskpart)
    (disks : list disk_info) :
  disk_loop h partitions = Ok disks ->
  disk_mountpoint <$> disks =
    part_mountpoint <$> List.filter (partition_listed h) partitions.
Proof.
  revert disks. induction partitions as [|p rest IH]; intros disks; simpl.
  - intros [= <-]. reflexivity.
  - unfold partition_listed at 1, partition_kept, usage_readable.
    destruct (_ || _); simpl; [apply IH|].
    destruct (disk_usage h (part_mountpoint p)) as [usage|e].
    + destruct (disk_loop h rest) as [l|e]; run; [|discriminate].
      intros [= <-]. rewrite !fmap_cons. f_equal. apply IH. reflexivity.
    + destruct e; try discriminate. apply IH.
Qed.

(** X8: the volumes the loop of [DiskDetector.detect] collects are, in the
    order of the partition table, the partitions that have a file-system
    type, are not loop devices and whose usage could be read; a partition
    whose usage raises [PermissionError] leaves no entry.  The probe returns
    three entries, or all of them when there are fewer. *)
Theorem disk_detect_counts_listed_partitions (h : Host)
    (partitions : list sdiskpart) (disks : list disk_info) :
  disk_partitions h = Ok partitions ->
  DiskDetector_detect h = Ok disks ->
  (exists enumerated,
     DiskDetector_enumerate h = Ok enumerated /\
     disk_mountpoint <$> enumerated =
       part_mountpoint <$> List.filter (partition_listed h) partitions) /\
  length disks =
    Nat.min 3 (length (List.filter (partition_listed h) partitions)) /\
  (forall partition,
     partition ∈ partitions ->
     disk_usage h (part_mountpoint partition) = Raise PermissionError ->
     part_mountpoint partition ∉ disk_mountpoint <$> disks).
Proof.
  intros Hparts Hdetect.
  destruct (detect_from_enumerate h disks Hdetect) as (enumerated & Henum & ->).
  pose proof Henum as Hloop.
  unfold DiskDetector_enumerate in Hloop. rewrite Hparts in Hloop.
  cbn [mbind result_bind] in Hloop.
  pose proof (disk_loop_listed h partitions enumerated Hloop) as Hlisted.
  split; [exists enumerated; split; [exact Henum | exact Hlisted]|]. split.
  - rewrite length_take.
    rewrite (Permutation_length (stable_sort_perm disk_key_le enumerated)).
    rewrite <- (length_fmap disk_mountpoint enumerated), Hlisted, length_fmap.
    reflexivity.
  - intros p Hp Hdenied Hin.
    apply list_elem_of_fmap in Hin as (d & Hmount & Hd).
    apply detect_elem_enumerated in Hd.
    pose proof (disk_loop_origin h partitions enumerated Hloop) as Hall.
    rewrite Forall_forall in Hall.
    destruct (Hall d Hd) as (_ & q & _ & _ & usage & Husage & Hq & _).
    rewrite <- Hq, <- Hmount, Hdenied in Husage. discriminate.
Qed.

Lemma disk_detect_counts_listed_partitions_witness :
  exists disks, DiskDetector_detect linux_host = Ok disks /\ length disks = 3%nat.
Proof.
  destruct (DiskDetector_detect linux_host) as [disks|] eqn:Hdetect;
    [|vm_compute in Hdetect; discriminate].
  exists disks. split; [reflexivity|].
  destruct (disk_detect_counts_listed_partitions linux_host sample_partitions disks
              eq_refl Hdetect) as (_ & Hlen & _).
  rewrite Hlen. vm_compute. reflexivity.
Defined.

(** X9: [DiskDetector.detect] returns the three volumes with the smallest
    keys (not is_system, mount path): together with the volumes it drops they
    are the volumes collected, each of them once, no dropped volume has a
    smaller key than a returned one, and nothing is dropped when at most
    three volumes were collected. *)
Theorem disk_detect_keeps_smallest_three (h : Host)
    (enumerated : list disk_info) :
  DiskDetector_enumerate h = Ok enumerated ->
  exists disks dropped,
    DiskDetector_detect h = Ok disks /\
    disks ++ dropped ≡ₚ enumerated /\
    length disks = Nat.min 3 (length enumerated) /\
    (forall kept later, kept ∈ disks -> later ∈ dropped ->
       disk_key_le kept later = true) /\
    ((length enumerated <= 3)%nat -> dropped = [] /\ disks ≡ₚ enumerated).
Proof.
  intros Henum.
  exists (take 3 (stable_sort disk_key_le enumerated)),
         (drop 3 (stable_sort disk_key_le enumerated)).
  pose proof (stable_sort_perm disk_key_le enumerated) as Hperm.
  pose proof (stable_sort_sorted disk_key_le disk_key_le_total
                disk_key_le_trans enumerated) as Hsorted.
  split; [unfold DiskDetector_detect; rewrite Henum; reflexivity|].
  split; [rewrite take_drop; exact Hperm|].
  split; [rewrite length_take, (Permutation_length Hperm); reflexivity|].
  split.
  - intros kept later Hkept Hlater.
    apply elem_of_take in Hkept as (i & Hi & Hlt).
    apply list_elem_of_lookup_1 in Hlater as (j & Hj).
    rewrite lookup_drop in Hj.
    apply (sorted_lookup disk_key_le _ i (3 + j) kept later Hsorted);
      [lia | exact Hi | exact Hj].
  - intros Hlen. rewrite <- (Permutation_length Hperm) in Hlen.
    rewrite drop_ge, take_ge by exact Hlen. split; [reflexivity | exact Hperm].
Qed.

Lemma disk_detect_keeps_smallest_three_witness :
  exists disks dropped : list disk_info,
    DiskDetector_detect linux_host = Ok disks /\
    length disks = 3%nat /\ length dropped = 1%nat.
Proof.
  destruct (DiskDetector_enumerate linux_host) as [enumerated|] eqn:Henum;
    [|vm_compute in Henum; discriminate].
  destruct (disk_detect_keeps_smallest_three linux_host enumerated Henum)
    as (disks & dropped & Hdetect & Hperm & Hlen & _).
  exists disks, dropped. split; [exact Hdetect|].
  apply Permutation_length in Hperm. rewrite length_app in Hperm.
  vm_compute in Henum. injection Henum as <-. simpl in Hlen, Hperm.
  split; lia.
Defined.

Section Stability.

Context {A : Type} (le : A -> A -> bool).
Hypothesis le_trans : forall x y z, le x y = true -> le y z = true -> le x z = true.

Lemma insert_by_filter (k x : A) (l : list A) :
  List.filter (fun y => le k y && le y k) (insert_by le x l) =
  List.filter (fun y => le k y && le y k) (x :: l).
Proof.
  induction l as [|y r IH]; [reflexivity|].
  cbn [insert_by]. destruct (le x y) eqn:Hxy; [reflexivity|].
  cbn [List.filter] in *. rewrite IH.
  destruct (le k x && le x k) eqn:Hx; [|reflexivity].
  destruct (le k y && le y k) eqn:Hy; [|reflexivity].
  apply andb_true_iff in Hx as [_ Hxk]. apply andb_true_iff in Hy as [Hky _].
  rewrite (le_trans x k y Hxk Hky) in Hxy. discriminate.
Qed.

Lemma stable_sort_filter (k : A) (l : list A) :
  List.filter (fun y => le k y && le y k) (stable_sort le l) =
  List.filter (fun y => le k y && le y k) l.
Proof.
  induction l as [|x l IH]; [reflexivity|].
  change (stable_sort le (x :: l)) with (insert_by le x (stable_sort le l)).
  rewrite insert_by_filter. cbn [List.filter]. rewrite IH. reflexivity.
Qed.

End Stability.

Lemma same_disk_key_spec (a b : disk_info) :
  same_disk_key a b = true <->
  disk_is_system a = disk_is_system b /\ disk_mountpoint a = disk_mountpoint b.
Proof.
  unfold same_disk_key. rewrite andb_true_iff, !disk_key_le_spec. split.
  - intros [[[Ha Hb]|[Hs Hab]] [[Hb' Ha']|[Hs' Hba]]]; try congruence.
    split; [exact Hs|]. apply String.leb_antisym; assumption.
  - intros [Hs Hm]. rewrite Hm.
    assert (Hrefl : String.leb (disk_mountpoint b) (disk_mountpoint b) = true).
    { destruct (String.leb_total (disk_mountpoint b) (disk_mountpoint b)); assumption. }
    split; right; split; auto.
Qed.

(** X10: the sort of [DiskDetector.detect] is stable.  The entries of the
    result that have the key of a given volume (the same system flag and the
    same mount path) are the first ones of the collected volumes with that
    key, in the order in which the loop collected them. *)
Theorem disk_detect_is_stable (h : Host) (enumerated disks : list disk_info)
    (d : disk_info) :
  DiskDetector_enumerate h = Ok enumerated ->
  DiskDetector_detect h = Ok disks ->
  List.filter (same_disk_key d) disks `prefix_of`
    List.filter (same_disk_key d) enumerated.
Proof.
  intros Henum. unfold DiskDetector_detect. rewrite Henum. run. intros [= <-].
  unfold same_disk_key.
  rewrite <- (stable_sort_filter disk_key_le disk_key_le_trans d enumerated).
  rewrite <- (take_drop 3 (stable_sort disk_key_le enumerated)) at 2.
  rewrite List.filter_app. apply prefix_app_r. reflexivity.
Qed.

Lemma disk_detect_is_stable_witness :
  exists enumerated disks d,
    DiskDetector_enumerate bind_mount_host = Ok enumerated /\
    DiskDetector_detect bind_mount_host = Ok disks /\
    disks !! 1%nat = Some d /\
    disk_device <$> List.filter (same_disk_key d) enumerated =
      ["/dev/sdb1"; "/dev/sdc1"] /\
    List.filter (same_disk_key d) disks `prefix_of`
      List.filter (same_disk_key d) enumerated.
Proof.
  destruct (DiskDetector_enumerate bind_mount_host) as [enumerated|] eqn:Henum;
    [|vm_compute in Henum; discriminate].
  destruct (DiskDetector_detect bind_mount_host) as [disks|] eqn:Hdetect;
    [|vm_compute in Hdetect; discriminate].
  destruct (disks !! 1%nat) as [d|] eqn:Hd.
  - exists enumerated, disks, d. split; [reflexivity|]. split; [reflexivity|].
    split; [exact Hd|]. split.
    + vm_compute in Henum, Hdetect. injection Henum as <-.
      injection Hdetect as <-. injection Hd as <-. vm_compute. reflexivity.
    + exact (disk_detect_is_stable bind_mount_host enumerated disks d Henum
               Hdetect).
  - vm_compute in Hdetect. injection Hdetect as <-. discriminate Hd.
Defined.

(** ** The speeds of the benchmark *)

Lemma handler_none (io : bench_io) (test_file : string) (fs : gset string) :
  fst (benchmark_handler io test_file fs) = None.
Proof.
  unfold benchmark_handler.
  destruct (decide (test_file ∈ fs)); [destruct (io_remove_in_handler io)|];
    reflexivity.
Qed.

(** X11: [DiskDetector.benchmark_speed] returns speeds exactly when every
    file operation returned, the write phase stayed within the timeout and
    both quotients could be computed; each speed is then the size divided by
    the measured time, or the integer 0 when that time is not positive.
    After such a run the temporary name no longer exists; but when that name
    was a symbolic link, the file it points to, which the write created, is
    still there. *)
Theorem benchmark_speeds_mean_completed_run (h : Host) (fs : gset string)
    (path : option string) (size_mb timeout : Z) :
  (forall speeds,
     fst (DiskDetector_benchmark_speed h fs path size_mb timeout) = Some speeds <->
     benchmark_completed h path timeout /\
     (let io := benchmark_io h (default (home_directory h) path) in
      mb_per_second size_mb
        (Float.sub (io_clock_read_end io) (io_clock_read_start io)) =
        Ok (read_mb_s speeds) /\
      mb_per_second size_mb
        (Float.sub (io_clock_write_end io) (io_clock_write_start io)) =
        Ok (write_mb_s speeds))) /\
  (is_Some (fst (DiskDetector_benchmark_speed h fs path size_mb timeout)) ->
   (benchmark_test_file h path ∉
      snd (DiskDetector_benchmark_speed h fs path size_mb timeout)) /\
   (forall target : string,
      io_link_target (benchmark_io h (default (home_directory h) path)) =
        Some target ->
      target <> benchmark_test_file h path ->
      target ∈ snd (DiskDetector_benchmark_speed h fs path size_mb timeout))).
Proof.
  unfold DiskDetector_benchmark_speed, benchmark_completed.
  fold (benchmark_test_file h path).
  set (io := benchmark_io h (default (home_directory h) path)).
  set (file := benchmark_test_file h path). cbv zeta.
  pose proof (handler_none io file) as Hnone.
  destruct (io_open_write io) as [u1|e1] eqn:Hopen.
  2: { rewrite Hnone. split.
       - intros speeds. split; [discriminate|].
         intros ([[u Hu] _] & _). discriminate Hu.
       - intros [speeds Hspeeds]. discriminate Hspeeds. }
  destruct (io_write_sync io) as [u2|e2] eqn:Hwrite.
  2: { rewrite Hnone. split.
       - intros speeds. split; [discriminate|].
         intros ((_ & [u Hu] & _) & _). discriminate Hu.
       - intros [speeds Hspeeds]. discriminate Hspeeds. }
  destruct (Float.gt_int _ timeout) eqn:Hslow.
  { split.
    - intros speeds. split; [discriminate|].
      intros ((_ & _ & Hfast & _) & _). discriminate Hfast.
    - intros [speeds Hspeeds]. discriminate Hspeeds. }
  destruct (io_read io) as [u3|e3] eqn:Hread.
  2: { rewrite Hnone. split.
       - intros speeds. split; [discriminate|].
         intros ((_ & _ & _ & [u Hu] & _) & _). discriminate Hu.
       - intros [speeds Hspeeds]. discriminate Hspeeds. }
  destruct (io_remove io) as [u4|e4] eqn:Hremove.
  2: { rewrite Hnone. split.
       - intros speeds. split; [discriminate|].
         intros ((_ & _ & _ & _ & [u Hu]) & _). discriminate Hu.
       - intros [speeds Hspeeds]. discriminate Hspeeds. }
  destruct (mb_per_second size_mb (Float.sub (io_clock_read_end io) _))
    as [r|e5] eqn:Hr; run.
  2: { rewrite Hnone. split.
       - intros speeds. split; [discriminate|].
         intros (_ & Hread_speed & _). discriminate Hread_speed.
       - intros [speeds Hspeeds]. discriminate Hspeeds. }
  destruct (mb_per_second size_mb (Float.sub (io_clock_write_end io) _))
    as [w|e6] eqn:Hw; run.
  2: { rewrite Hnone. split.
       - intros speeds. split; [discriminate|].
         intros (_ & _ & Hwrite_speed). discriminate Hwrite_speed.
       - intros [speeds Hspeeds]. discriminate Hspeeds. }
  cbn [fst snd]. split.
  - intros speeds. split.
    + intros [= <-]. unfold is_ok. split; [eauto 10 | split; reflexivity].
    + intros (_ & [= Hread_speed] & [= Hwrite_speed]). destruct speeds.
      cbn [read_mb_s write_mb_s] in *. subst. reflexivity.
  - intros _. split.
    + rewrite elem_of_difference, elem_of_singleton. tauto.
    + intros target Htarget Hother. unfold created_by_open. rewrite Htarget.
      rewrite elem_of_difference, elem_of_union, elem_of_union,
        !elem_of_singleton. tauto.
Qed.

Lemma benchmark_speeds_mean_completed_run_witness :
  exists speeds,
    fst (DiskDetector_benchmark_speed linked_temp_host ∅ None 100 30) =
      Some speeds /\
    ("/home/user/.llm_neofetch_benchmark.tmp" ∉
       snd (DiskDetector_benchmark_speed linked_temp_host ∅ None 100 30)) /\
    "/home/user/data.bin" ∈
      snd (DiskDetector_benchmark_speed linked_temp_host ∅ None 100 30).
Proof.
  destruct (benchmark_speeds_mean_completed_run linked_temp_host ∅ None 100 30)
    as [Hspeeds Hafter].
  destruct (fst (DiskDetector_benchmark_speed linked_temp_host ∅ None 100 30))
    as [speeds|] eqn:Hfst; [|vm_compute in Hfst; discriminate].
  exists speeds. split; [reflexivity|].
  destruct Hafter as [Hgone Htarget]; [eauto|]. split; [exact Hgone|].
  apply Htarget; [reflexivity | discriminate].
Defined.

(** ** The collector and the probes *)

Lemma collect_system_info_inv (h : Host) (fs : gset string) (benchmark : bool)
    (info : gmap string info_value) (fs' : gset string) :
  collect_system_info h fs benchmark = Ok (info, fs') ->
  exists os uptime cpu gpus memory disks battery motherboard apple,
    OSDetector_detect h = Ok os /\
    OSDetector_get_uptime h = Ok uptime /\
    CPUDetector_detect h = Ok cpu /\
    GPUDetector_detect h = Ok gpus /\
    MemoryDetector_detect h = Ok memory /\
    DiskDetector_detect h = Ok disks /\
    BatteryDetector_detect h = Ok battery /\
    MotherboardDetector_detect h = Ok motherboard /\
    AppleSiliconDetector_detect h = Ok apple /\
    exists shown,
      info =
        (let base : gmap string info_value :=
           <["motherboard" := VMotherboard motherboard]>
           (<["battery" := VBattery battery]>
           (<["disks" := VDisks shown]>
           (<["memory" := VMemory memory]>
           (<["gpus" := VGpus gpus]>
           (<["cpu" := VCpu cpu]>
           (<["uptime" := VUptime uptime]>
           (<["os" := VOs os]>
           (<["timestamp" := VTimestamp (now_isoformat h)]> ∅)))))))) in
         match apple with
         | Some a => <["apple_silicon" := VAppleSilicon a]> base
         | None => base
         end) /\
      match disks with
      | main_disk :: _ =>
          if benchmark then
            fs' = snd (DiskDetector_benchmark_speed h fs
                         (Some (disk_mountpoint main_disk)) 100 30) /\
            shown =
              match fst (DiskDetector_benchmark_speed h fs
                           (Some (disk_mountpoint main_disk)) 100 30) with
              | Some bench => attach_benchmark bench disks
              | None => disks
              end
          else fs' = fs /\ shown = disks
      | [] => fs' = fs /\ shown = disks
      end.
Proof.
  unfold collect_system_info.
  destruct (OSDetector_detect h) as [os|]; run; [|discriminate].
  destruct (OSDetector_get_uptime h) as [uptime|]; run; [|discriminate].
  destruct (CPUDetector_detect h) as [cpu|]; run; [|discriminate].
  destruct (GPUDetector_detect h) as [gpus|]; run; [|discriminate].
  destruct (MemoryDetector_detect h) as [memory|]; run; [|discriminate].
  destruct (DiskDetector_detect h) as [disks|]; run; [|discriminate].
  destruct (BatteryDetector_detect h) as [battery|]; run; [|discriminate].
  destruct (MotherboardDetector_detect h) as [motherboard|]; run; [|discriminate].
  destruct (AppleSiliconDetector_detect h) as [apple|]; run; [|discriminate].
  intros Hinfo.
  exists os, uptime, cpu, gpus, memory, disks, battery, motherboard, apple.
  do 9 (split; [reflexivity|]).
  destruct disks as [|main_disk rest].
  { injection Hinfo as <- <-. exists []. repeat split. }
  destruct benchmark.
  2: { injection Hinfo as <- <-. exists (main_disk :: rest). repeat split. }
  destruct (DiskDetector_benchmark_speed h fs (Some (disk_mountpoint main_disk))
              100 30) as [[bench|] fs1]; run; injection Hinfo as <- <-.
  - exists (attach_benchmark bench (main_disk :: rest)).
    split; [|split; reflexivity].
    destruct apple; cbv zeta.
    + rewrite (insert_insert_ne _ "disks" "apple_silicon") by discriminate.
      f_equal.
    + rewrite (insert_insert_ne _ "disks" "motherboard") by discriminate.
      rewrite (insert_insert_ne _ "disks" "battery") by discriminate.
      rewrite insert_insert_eq. reflexivity.
  - exists (main_disk :: rest). repeat split.
Qed.

Lemma collect_system_info_ok (h : Host) (fs : gset string) (benchmark : bool) :
  host_calls_guarded h -> is_ok (collect_system_info h fs benchmark).
Proof.
  intros ((boot & Hboot & Hvb) & Hvn & Hcpu & Hvm & Hsw & Hparts & Hdu & Happle).
  destruct (OSDetector_detect_ok h) as [os Hos].
  destruct (get_uptime_ok h boot Hboot Hvb Hvn) as [uptime Huptime].
  destruct (CPUDetector_detect_ok h Hcpu) as [cpu Hcpud].
  destruct (GPUDetector_detect_ok h) as (gpus & Hgpus & _).
  destruct (MemoryDetector_detect_ok h Hvm Hsw) as [memory Hmem].
  destruct (DiskDetector_detect_ok h Hparts Hdu) as [disks Hdisk].
  destruct (BatteryDetector_detect_ok h) as [battery Hbattery].
  destruct (MotherboardDetector_detect_ok h) as [motherboard Hmotherboard].
  destruct (AppleSiliconDetector_detect_ok h Happle) as [apple Happled].
  unfold collect_system_info.
  rewrite Hos, Huptime, Hcpud, Hgpus, Hmem, Hdisk, Hbattery, Hmotherboard.
  run. rewrite Happled. run.
  destruct disks as [|main_disk rest]; [eexists; reflexivity|].
  destruct benchmark; [|eexists; reflexivity].
  destruct (DiskDetector_benchmark_speed h fs (Some (disk_mountpoint main_disk))
              100 30) as [[bench|] fs']; eexists; reflexivity.
Qed.

Lemma linux_host_guarded : host_calls_guarded linux_host.
Proof.
  unfold host_calls_guarded, valid_datetime, datetime_range, cpu_facilities_ok,
    temperature_guarded, is_ok. simpl.
  split; [eexists; split; [reflexivity|lia]|].
  split; [lia|]. split; [repeat split; eauto|].
  split; [eauto|]. split; [eauto|]. split; [eauto|]. split.
  - intros partitions p e _ _ _. vm_compute. discriminate.
  - intros s Hs. vm_compute in Hs. injection Hs as <-.
      split; [reflexivity | discriminate].
Qed.

(** X12: a snapshot that [collect_system_info] returns holds, under each of
    its keys, what the probe of that key returned on the host: the time stamp
    of the clock, the records of the OS, uptime, CPU, memory, battery and
    motherboard probes, a GPU list that is not empty, and the key
    apple_silicon with the record of the Apple probe exactly when that probe
    returned one. *)
Theorem collector_snapshot_holds_probe_results (h : Host) (fs : gset string)
    (benchmark : bool) (info : gmap string info_value) (fs' : gset string) :
  collect_system_info h fs benchmark = Ok (info, fs') ->
  info !! "timestamp" = Some (VTimestamp (now_isoformat h)) /\
  holds_result info "os" VOs (OSDetector_detect h) /\
  holds_result info "uptime" VUptime (OSDetector_get_uptime h) /\
  holds_result info "cpu" VCpu (CPUDetector_detect h) /\
  holds_result info "memory" VMemory (MemoryDetector_detect h) /\
  holds_result info "battery" VBattery (BatteryDetector_detect h) /\
  holds_result info "motherboard" VMotherboard (MotherboardDetector_detect h) /\
  (exists gpus, GPUDetector_detect h = Ok gpus /\ gpus <> [] /\
                info !! "gpus" = Some (VGpus gpus)) /\
  (exists apple, AppleSiliconDetector_detect h = Ok apple /\
                 info !! "apple_silicon" = VAppleSilicon <$> apple).
Proof.
  intros Hcollect.
  destruct (collect_system_info_inv h fs benchmark info fs' Hcollect)
    as (os & uptime & cpu & gpus & memory & disks & battery & motherboard & apple
        & Hos & Huptime & Hcpu & Hgpus & Hmemory & Hdisks & Hbattery
        & Hmotherboard & Happle & shown & -> & _).
  rewrite Hos, Huptime, Hcpu, Hmemory, Hbattery, Hmotherboard.
  unfold holds_result. cbv zeta.
  split; [destruct apple; reflexivity|].
  do 6 (split; [eexists; split; [reflexivity | destruct apple; reflexivity]|]).
  split.
  - exists gpus. split; [exact Hgpus|]. split; [|destruct apple; reflexivity].
    destruct (GPUDetector_detect_ok h) as (gpus' & Hgpus' & Hne). congruence.
  - exists apple. split; [exact Happle|]. destruct apple; reflexivity.
Qed.

Lemma collector_snapshot_holds_probe_results_witness :
  exists info fs',
    collect_system_info linux_host ∅ true = Ok (info, fs') /\
    info !! "motherboard" = Some (VMotherboard "N/A") /\
    info !! "apple_silicon" = None.
Proof.
  destruct (collect_system_info_ok linux_host ∅ true linux_host_guarded)
    as [[info fs'] Hcollect].
  exists info, fs'. split; [exact Hcollect|].
  destruct (collector_snapshot_holds_probe_results linux_host ∅ true info fs'
              Hcollect)
    as (_ & _ & _ & _ & _ & _ & Hboard & _ & apple & Happle & Hkey).
  split.
  - destruct Hboard as (board & Hdetect & ->).
    vm_compute in Hdetect. injection Hdetect as <-. reflexivity.
  - rewrite Hkey. vm_compute in Happle. injection Happle as <-. reflexivity.
Defined.

Lemma detect_benchmark_none (h : Host) (disks : list disk_info) :
  DiskDetector_detect h = Ok disks -> without_benchmark <$> disks = disks.
Proof.
  intros Hdetect.
  destruct (detect_from_enumerate h disks Hdetect) as (enumerated & Henum & ->).
  unfold DiskDetector_enumerate in Henum.
  destruct (disk_partitions h) as [partitions|]; [|discriminate].
  cbn [mbind result_bind] in Henum.
  pose proof (disk_loop_origin h partitions enumerated Henum) as Hall.
  rewrite Forall_forall in Hall.
  rewrite <- (list_fmap_id (take 3 _)) at 2. apply list_fmap_ext.
  intros i d Hd. apply list_elem_of_lookup_2, detect_elem_enumerated in Hd.
  destruct (Hall d Hd) as [Hnone _]. destruct d. simpl in Hnone. subst.
  reflexivity.
Qed.

(** X13: what the benchmark changes in the snapshot.  The disks of the
    snapshot are those of [DiskDetector.detect] up to the key benchmark;
    that key is set on the first disk only, to the speeds the benchmark of
    its mount point returned, and only when the benchmark was asked for and
    returned speeds.  Without the benchmark, or without a disk, the disks
    are exactly those of the probe. *)
Theorem collector_benchmark_marks_first_disk_only (h : Host) (fs : gset string)
    (benchmark : bool) (info : gmap string info_value) (fs' : gset string) :
  collect_system_info h fs benchmark = Ok (info, fs') ->
  exists disks shown,
    DiskDetector_detect h = Ok disks /\
    info !! "disks" = Some (VDisks shown) /\
    without_benchmark <$> shown = disks /\
    Forall (fun d => disk_benchmark d = None) (drop 1 shown) /\
    (benchmark = false \/ disks = [] -> shown = disks) /\
    (forall main_disk,
       shown !! 0%nat = Some main_disk ->
       disk_benchmark main_disk =
         if benchmark
         then fst (DiskDetector_benchmark_speed h fs
                     (Some (disk_mountpoint main_disk)) 100 30)
         else None).
Proof.
  intros Hcollect.
  destruct (collect_system_info_inv h fs benchmark info fs' Hcollect)
    as (os & uptime & cpu & gpus & memory & disks & battery & motherboard & apple
        & _ & _ & _ & _ & _ & Hdisks & _ & _ & _ & shown & -> & Htail).
  pose proof (detect_benchmark_none h disks Hdisks) as Hnone.
  exists disks, shown. split; [exact Hdisks|].
  split; [destruct apple; reflexivity|].
  assert (Hrest : Forall (fun d => disk_benchmark d = None) (drop 1 disks)).
  { apply Forall_drop. rewrite <- Hnone. apply Forall_fmap, Forall_true.
    intros d. reflexivity. }
  destruct disks as [|main rest].
  { destruct Htail as [-> ->]. split; [reflexivity|]. split; [constructor|].
    split; [auto|]. intros main_disk Hmain. discriminate Hmain. }
  destruct benchmark.
  2: { destruct Htail as [-> ->]. split; [exact Hnone|]. split; [exact Hrest|].
       split; [auto|]. intros main_disk [= <-].
       injection Hnone as Hmain _. rewrite <- Hmain. reflexivity. }
  destruct Htail as [-> ->].
  destruct (fst (DiskDetector_benchmark_speed h fs (Some (disk_mountpoint main))
                   100 30)) as [bench|] eqn:Hbench.
  - split; [exact Hnone|]. split; [exact Hrest|].
    split; [intros [?|?]; discriminate|].
    intros main_disk [= <-]. simpl. rewrite Hbench. reflexivity.
  - split; [exact Hnone|]. split; [exact Hrest|].
    split; [intros [?|?]; discriminate|].
    intros main_disk [= <-]. rewrite Hbench.
    injection Hnone as Hmain _. rewrite <- Hmain. reflexivity.
Qed.

Lemma collector_benchmark_marks_first_disk_only_witness :
  exists info fs' shown,
    collect_system_info linux_host ∅ true = Ok (info, fs') /\
    info !! "disks" = Some (VDisks shown) /\
    Forall (fun d => disk_benchmark d = None) (drop 1 shown).
Proof.
  destruct (collect_system_info_ok linux_host ∅ true linux_host_guarded)
    as [[info fs'] Hcollect].
  destruct (collector_benchmark_marks_first_disk_only linux_host ∅ true info fs'
              Hcollect) as (disks & shown & _ & Hshown & _ & Hrest & _).
  exists info, fs', shown. split; [exact Hcollect|]. split; assumption.
Defined.

Lemma display_disk_type_attach (bench : bench_result) (disks : list disk_info) :
  display_disk_type (attach_benchmark bench disks) = display_disk_type disks.
Proof. destruct disks; reflexivity. Qed.

(** X14: the storage type that [display_system_info] hands to the
    recommendations and the tips, [disks[0]["type"]] of the snapshot or
    Unknown without a disk, is one of NVMe, SSD, HDD and Unknown, and it is
    the type of the collected volume with the smallest key: a system volume
    when one was collected, and among the volumes with its system flag the
    one with the smallest mount path.  The benchmark does not change it. *)
Theorem main_disk_type_is_first_system_volume (h : Host) (fs : gset string)
    (benchmark : bool) (info : gmap string info_value) (fs' : gset string)
    (shown enumerated : list disk_info) :
  collect_system_info h fs benchmark = Ok (info, fs') ->
  info !! "disks" = Some (VDisks shown) ->
  DiskDetector_enumerate h = Ok enumerated ->
  display_disk_type shown ∈ disk_types /\
  (enumerated = [] -> display_disk_type shown = "Unknown") /\
  (enumerated <> [] ->
   exists main_disk,
     main_disk ∈ enumerated /\
     display_disk_type shown = disk_type main_disk /\
     forall d, d ∈ enumerated ->
       (disk_is_system d = true -> disk_is_system main_disk = true) /\
       (disk_is_system d = disk_is_system main_disk ->
        String.leb (disk_mountpoint main_disk) (disk_mountpoint d) = true)).
Proof.
  intros Hcollect Hshown Henum.
  destruct (collect_system_info_inv h fs benchmark info fs' Hcollect)
    as (os & uptime & cpu & gpus & memory & disks & battery & motherboard & apple
        & _ & _ & _ & _ & _ & Hdisks & _ & _ & _ & shown' & -> & Htail).
  assert (Hsame : shown' = shown).
  { destruct apple; cbv zeta in Hshown; vm_compute in Hshown; congruence. }
  subst shown'.
  assert (Htype : display_disk_type shown = display_disk_type disks).
  { destruct disks as [|main rest]; [destruct Htail as [_ ->]; reflexivity|].
    destruct benchmark; [|destruct Htail as [_ ->]; reflexivity].
    destruct Htail as [_ ->].
    destruct (fst _); [apply display_disk_type_attach | reflexivity]. }
  rewrite Htype. clear Htype Htail Hshown Hcollect.
  unfold DiskDetector_detect in Hdisks. rewrite Henum in Hdisks.
  cbn [mbind result_bind mret result_ret] in Hdisks. injection Hdisks as <-.
  pose proof (stable_sort_sorted disk_key_le disk_key_le_total
                disk_key_le_trans enumerated) as Hsorted.
  pose proof (stable_sort_perm disk_key_le enumerated) as Hperm.
  unfold DiskDetector_enumerate in Henum.
  destruct (disk_partitions h) as [partitions|]; [|discriminate].
  cbn [mbind result_bind] in Henum.
  pose proof (disk_loop_origin h partitions enumerated Henum) as Hall.
  rewrite Forall_forall in Hall.
  destruct (stable_sort disk_key_le enumerated) as [|main rest] eqn:Hs.
  { apply Permutation_nil_l in Hperm. subst enumerated.
    split; [do 3 right; left|]. split; [reflexivity|]. intros Hne. destruct Hne.
    reflexivity. }
  assert (Hmain : main ∈ enumerated).
  { rewrite <- Hperm. left. }
  change (display_disk_type (take 3 (main :: rest))) with (disk_type main).
  split; [|split].
  - destruct (Hall main Hmain) as (_ & p & _ & _ & usage & Hrec).
    destruct Hrec as (_ & _ & _ & _ & _ & _ & _ & _ & -> & _).
    apply detect_disk_type_in_types.
  - intros ->. apply Permutation_nil_r in Hperm. discriminate.
  - intros _. exists main. split; [exact Hmain|]. split; [reflexivity|].
    intros d Hd. rewrite <- Hperm in Hd.
    assert (Hle : disk_key_le main d = true).
    { apply elem_of_cons in Hd as [->|Hd].
      - destruct (disk_key_le_total main main); assumption.
      - apply StronglySorted_inv in Hsorted as [_ Hfirst].
        rewrite Forall_forall in Hfirst. exact (Hfirst d Hd). }
    apply disk_key_le_spec in Hle as [[Hm Hd']|[Heq Hleb]]; split; congruence.
Qed.

Lemma main_disk_type_is_first_system_volume_witness :
  exists info fs' shown,
    collect_system_info linux_host ∅ true = Ok (info, fs') /\
    info !! "disks" = Some (VDisks shown) /\
    display_disk_type shown = "NVMe".
Proof.
  destruct (collect_system_info_ok linux_host ∅ true linux_host_guarded)
    as [[info fs'] Hcollect].
  destruct (collect_system_info_inv linux_host ∅ true info fs' Hcollect)
    as (os & uptime & cpu & gpus & memory & disks & battery & motherboard & apple
        & _ & _ & _ & _ & _ & _ & _ & _ & _ & shown & Hinfo & _).
  assert (Hshown : info !! "disks" = Some (VDisks shown)).
  { rewrite Hinfo. destruct apple; reflexivity. }
  destruct (DiskDetector_enumerate linux_host) as [enumerated|] eqn:Henum;
    [|vm_compute in Henum; discriminate].
  destruct (main_disk_type_is_first_system_volume linux_host ∅ true info fs'
              shown enumerated Hcollect Hshown Henum) as (_ & _ & Hmain).
  exists info, fs', shown. split; [exact Hcollect|]. split; [exact Hshown|].
  vm_compute in Henum. injection Henum as <-.
  destruct Hmain as (main_disk & Hin & -> & Hsmallest); [discriminate|].
  destruct (Hsmallest _ (list_elem_of_here _ _)) as [_ H1].
  destruct (Hsmallest _ (list_elem_of_further _ _ _ (list_elem_of_here _ _)))
    as [_ H2].
  destruct (Hsmallest _ (list_elem_of_further _ _ _ (list_elem_of_further _ _ _
              (list_elem_of_here _ _)))) as [H3 _].
  specialize (H3 eq_refl).
  repeat (apply elem_of_cons in Hin as [->|Hin]); try discriminate H3;
    [reflexivity|]. apply elem_of_nil in Hin. destruct Hin.
Defined.

(** ** The uptime record when the clock is off *)

(** X15: whatever the clock and the boot time are, also with a boot time
    later than the clock, the hours of the uptime record are between 0 and 23
    and the minutes between 0 and 59, days, hours and minutes are the minute
    that contains the elapsed time, rounded down, and the days are negative
    exactly when the boot time is later than the clock by a microsecond or
    more. *)
Theorem uptime_fields_stay_in_clock_ranges (h : Host) (u : uptime_info) :
  OSDetector_get_uptime h = Ok u ->
  exists boot,
    boot_datetime h = Ok boot /\
    0 <= up_hours u < 24 /\
    0 <= up_minutes u < 60 /\
    (let minute := up_days u * 1440 + up_hours u * 60 + up_minutes u in
     minute * 60000000 <= datetime_now h - boot < (minute + 1) * 60000000) /\
    (up_days u < 0 <-> datetime_now h < boot).
Proof.
  unfold OSDetector_get_uptime.
  destruct (boot_datetime h) as [boot|]; run; [|discriminate].
  destruct (total_seconds _) as [total|]; run; [|discriminate].
  destruct (Float.to_int total) as [total_int|]; run; [|discriminate].
  intros [= <-]. exists boot. split; [reflexivity|].
  unfold timedelta_of_us, us_per_day.
  cbn [up_days up_hours up_minutes td_days td_seconds].
  change (86400 * 1000000) with 86400000000.
  set (us := datetime_now h - boot).
  assert (Hus : datetime_now h < boot <-> us < 0) by (unfold us; lia).
  rewrite Hus. clearbody us. cbv zeta.
  repeat split; Z.div_mod_to_equations; lia.
Qed.

Lemma uptime_fields_stay_in_clock_ranges_witness :
  exists u,
    OSDetector_get_uptime clock_behind_host = Ok u /\
    up_days u = -1 /\ up_hours u = 23 /\ up_minutes u = 59.
Proof.
  destruct (OSDetector_get_uptime clock_behind_host) as [u|] eqn:Huptime;
    [|vm_compute in Huptime; discriminate].
  exists u. split; [reflexivity|].
  destruct (uptime_fields_stay_in_clock_ranges clock_behind_host u Huptime)
    as (boot & Hboot & Hhours & Hminutes & Hminute & Hdays).
  vm_compute in Hboot. injection Hboot as <-.
  change (datetime_now clock_behind_host) with 1000000 in *.
  cbv zeta in Hminute. lia.
Defined.

(** ** The motherboard label *)

Lemma startswith_win_not_linux (s : string) :
  Py.startswith "win" s = true -> Py.startswith "linux" s = false.
Proof.
  destruct s as [|c s]; cbn [Py.startswith]; [discriminate|].
  destruct (Ascii.eqb_spec "w" c) as [<-|_]; [|discriminate].
  intros _. reflexivity.
Qed.

Lemma run_command_stripped (h : Host) (cmd : string) (timeout : Z) :
  exists s, run_command h cmd timeout = Ok s /\ Py.strip s = s.
Proof.
  unfold run_command.
  destruct (check_output h cmd timeout) as [out|e].
  - exists (Py.strip out). split; [reflexivity|]. apply strip_clean.
  - exists "". split; [destruct e; reflexivity | reflexivity].
Qed.

(** X16: [MotherboardDetector.detect] returns on every host, and its label
    is never empty: it is N/A, or a manufacturer and a product joined by one
    space, both without whitespace at their ends.  Off Linux, and off
    Windows with WMI, it is N/A; on Windows a board that WMI cannot describe
    gives N/A as well, the files of Linux are not read there. *)
Theorem motherboard_label_shape (h : Host) :
  exists board,
    MotherboardDetector_detect h = Ok board /\
    board <> "" /\
    (board = "N/A" \/
     exists manufacturer product,
       board = manufacturer +:+ " " +:+ product /\
       Py.strip manufacturer = manufacturer /\ Py.strip product = product) /\
    (Py.startswith "linux" (sys_platform h) = false ->
     WMI_AVAILABLE h && Py.startswith "win" (sys_platform h) = false ->
     board = "N/A") /\
    (Py.startswith "win" (sys_platform h) = true ->
     wmi_motherboard h = None -> board = "N/A").
Proof.
  assert (Hjoin : forall m p, m +:+ " " +:+ p <> "").
  { intros [|c m] p H; cbv [String.append] in H; discriminate H. }
  unfold MotherboardDetector_detect.
  destruct (WMI_AVAILABLE h && Py.startswith "win" (sys_platform h)) eqn:Hwmi.
  - apply andb_true_iff in Hwmi as [_ Hwin].
    pose proof (startswith_win_not_linux _ Hwin) as Hlinux.
    unfold wmi_motherboard.
    destruct (wmi_base_boards h) as [[|board boards]|e];
      try (rewrite Hlinux; run; exists "N/A";
           split; [reflexivity|]; split; [discriminate|]; split; [left|];
           auto).
    destruct (board_Manufacturer board) as [m|], (board_Product board) as [p|];
      try (rewrite Hlinux; run; exists "N/A";
           split; [reflexivity|]; split; [discriminate|]; split; [left|];
           auto).
    run. eexists. split; [reflexivity|]. split; [apply Hjoin|].
    split; [|split; [congruence | discriminate]].
    right. exists (Py.strip m), (Py.strip p). split; [reflexivity|].
    split; apply strip_clean.
  - destruct (Py.startswith "linux" (sys_platform h)) eqn:Hlinux; run.
    2: { exists "N/A". split; [reflexivity|]. split; [discriminate|].
         split; [left|]; auto. }
    destruct (run_command_stripped h "cat /sys/class/dmi/id/board_vendor 2>/dev/null"
                default_timeout) as (m & -> & Hmstrip).
    destruct (run_command_stripped h "cat /sys/class/dmi/id/board_name 2>/dev/null"
                default_timeout) as (p & -> & Hpstrip).
    assert (Hwin : Py.startswith "win" (sys_platform h) = false).
    { destruct (Py.startswith "win" (sys_platform h)) eqn:Hw; [|reflexivity].
      rewrite (startswith_win_not_linux _ Hw) in Hlinux. discriminate. }
    run. destruct (Py.truthy m && Py.truthy p); run; eexists;
      (split; [reflexivity|]).
    + split; [apply Hjoin|]. split; [|split; congruence].
      right. exists m, p. auto.
    + split; [discriminate|]. split; [left|]; auto.
Qed.

Lemma motherboard_label_shape_witness :
  MotherboardDetector_detect windows_wmi_host = Ok "N/A".
Proof.
  destruct (motherboard_label_shape windows_wmi_host)
    as (board & Hdetect & _ & _ & _ & Hwin).
  rewrite Hdetect. f_equal. apply Hwin; reflexivity.
Defined.

(** ** The Apple Silicon record *)

Lemma chip_variant_first (variants : list string) (chip : string) :
  (chip_variant variants chip = "Unknown" /\
   Forall (fun v => Py.contains v chip = false) variants) \/
  exists before after,
    variants = before ++ chip_variant variants chip :: after /\
    Py.contains (chip_variant variants chip) chip = true /\
    Forall (fun v => Py.contains v chip = false) before.
Proof.
  induction variants as [|v rest IH]; cbn [chip_variant].
  - left. split; [reflexivity | constructor].
  - destruct (Py.contains v chip) eqn:Hv.
    + right. exists [], rest. split; [reflexivity|]. split; [exact Hv | constructor].
    + destruct IH as [[Hunknown Hall]|(before & after & Hsplit & Hin & Hall)].
      * left. split; [exact Hunknown | constructor; assumption].
      * right. exists (v :: before), after.
        split; [rewrite Hsplit at 1; reflexivity|].
        split; [exact Hin | constructor; assumption].
Qed.

(** X17: [AppleSiliconDetector.detect] returns no record off macOS.  A record
    it returns is for a chip whose name contains Apple and has no whitespace
    at its ends; the variant is the first of M1, M2, M3, M4 that occurs in
    the name, or Unknown when none does; MLX is reported as supported; and
    the memory is the integer 0 when sysctl printed no number, and else the
    quotient of that number by 1024^3. *)
Theorem apple_silicon_record_shape (h : Host) :
  (sys_platform h <> "darwin" -> AppleSiliconDetector_detect h = Ok None) /\
  (forall a,
     AppleSiliconDetector_detect h = Ok (Some a) ->
     sys_platform h = "darwin" /\
     run_command h "sysctl -n machdep.cpu.brand_string" default_timeout =
       Ok (apple_chip a) /\
     Py.contains "Apple" (apple_chip a) = true /\
     Py.strip (apple_chip a) = apple_chip a /\
     apple_supports_mlx a = true /\
     ((apple_variant a = "Unknown" /\
       Forall (fun v => Py.contains v (apple_chip a) = false) apple_variants) \/
      exists before after,
        apple_variants = before ++ apple_variant a :: after /\
        Py.contains (apple_variant a) (apple_chip a) = true /\
        Forall (fun v => Py.contains v (apple_chip a) = false) before) /\
     exists mem_bytes,
       run_command h "sysctl -n hw.memsize" default_timeout = Ok mem_bytes /\
       if Py.isdigit mem_bytes
       then exists mem_gb,
              Float.int_true_div (Py.int_of_digits 0 mem_bytes) (1024 ^ 3) =
                Ok mem_gb /\
              apple_unified_memory_gb a = PFloat mem_gb
       else apple_unified_memory_gb a = PInt 0).
Proof.
  unfold AppleSiliconDetector_detect. split.
  - intros Hplatform. apply String.eqb_neq in Hplatform. rewrite Hplatform.
    reflexivity.
  - intros a.
    destruct (String.eqb_spec (sys_platform h) "darwin") as [Hdarwin|_];
      cbn [negb]; [|discriminate].
    destruct (run_command_stripped h "sysctl -n machdep.cpu.brand_string"
                default_timeout) as (chip & -> & Hstrip). run.
    destruct (Py.truthy chip); cbn [negb orb]; [|discriminate].
    destruct (Py.contains "Apple" chip) eqn:Happle; cbn [negb]; [|discriminate].
    destruct (run_command_stripped h "sysctl -n hw.memsize" default_timeout)
      as (mem_bytes & -> & _). run.
    destruct (Py.isdigit mem_bytes) eqn:Hdigit.
    + destruct (Py.int_of_str mem_bytes) as [memory|] eqn:Hint; run;
        [|discriminate].
      apply int_of_str_value in Hint as [-> _].
      destruct (Float.int_true_div _ _) as [mem_gb|] eqn:Hdiv; run;
        [|discriminate].
      intros [= <-]. cbn [apple_chip apple_variant apple_supports_mlx
                          apple_unified_memory_gb].
      do 5 (split; [assumption || reflexivity|]).
      split; [exact (chip_variant_first apple_variants chip)|].
      exists mem_bytes. split; [reflexivity|]. rewrite Hdigit.
      exists mem_gb. split; [exact Hdiv | reflexivity].
    + run. intros [= <-]. cbn [apple_chip apple_variant apple_supports_mlx
                               apple_unified_memory_gb].
      do 5 (split; [assumption || reflexivity|]).
      split; [exact (chip_variant_first apple_variants chip)|].
      exists mem_bytes. split; [reflexivity|]. rewrite Hdigit. reflexivity.
Qed.

Lemma apple_silicon_record_shape_witness :
  exists a,
    AppleSiliconDetector_detect apple_host = Ok (Some a) /\
    apple_variant a = "M2" /\ Py.contains "Apple" (apple_chip a) = true.
Proof.
  destruct (AppleSiliconDetector_detect apple_host) as [[a|]|] eqn:Hdetect;
    try (vm_compute in Hdetect; discriminate).
  exists a. split; [reflexivity|].
  destruct (apple_silicon_record_shape apple_host) as [_ Hrecord].
  destruct (Hrecord a Hdetect) as (_ & _ & Happle & _).
  split; [|exact Happle].
  vm_compute in Hdetect. injection Hdetect as <-. reflexivity.
Defined.

(** ** The battery record *)

(** X18: [BatteryDetector.detect] never raises; without a battery, or when
    psutil fails, it returns None.  For a battery, the seconds left are never
    negative (the two negative markers of psutil and every other negative
    value become 0); the label is Charging exactly on mains power, whatever
    the seconds are, else Unlimited or Unknown for the two markers, and else
    hours and minutes with the minutes between 0 and 59, which lose less
    than a minute of the seconds left. *)
Theorem battery_record_shape (h : Host) :
  exists record,
    BatteryDetector_detect h = Ok record /\
    (record = None <-> ~ exists battery, sensors_battery h = Ok (Some battery)) /\
    forall b, record = Some b ->
      exists battery,
        sensors_battery h = Ok (Some battery) /\
        battery_time_left_seconds b = Z.max 0 (batt_secsleft battery) /\
        (batt_power_plugged battery = Some true ->
         battery_time_left b = "Charging") /\
        (batt_power_plugged battery <> Some true ->
         (batt_secsleft battery = POWER_TIME_UNLIMITED ->
          battery_time_left b = "Unlimited") /\
         (batt_secsleft battery = POWER_TIME_UNKNOWN ->
          battery_time_left b = "Unknown") /\
         (batt_secsleft battery <> POWER_TIME_UNLIMITED ->
          batt_secsleft battery <> POWER_TIME_UNKNOWN ->
          exists hours minutes,
            battery_time_left b =
              Float.str_of_int hours +:+ "h " +:+
              Float.str_of_int minutes +:+ "m" /\
            0 <= minutes < 60 /\
            hours * 3600 + minutes * 60 <= batt_secsleft battery
              < hours * 3600 + minutes * 60 + 60)).
Proof.
  unfold BatteryDetector_detect.
  destruct (sensors_battery h) as [[battery|]|e].
  - eexists. split; [reflexivity|]. split.
    { split; [discriminate|]. intros Hnone. destruct Hnone. eauto. }
    intros b [= <-]. exists battery. split; [reflexivity|].
    cbn [battery_time_left_seconds battery_time_left].
    unfold battery_time_left_label, POWER_TIME_UNLIMITED, POWER_TIME_UNKNOWN.
    cbv zeta. split; [destruct (Z.leb_spec 0 (batt_secsleft battery)); lia|].
    split.
    + intros ->. reflexivity.
    + intros Hplugged. rewrite bool_decide_eq_false_2 by exact Hplugged.
      destruct (Z.eqb_spec (batt_secsleft battery) (-2)) as [Hu|Hu].
      { split; [reflexivity|]. split; [lia|]. intros H. destruct (H Hu). }
      destruct (Z.eqb_spec (batt_secsleft battery) (-1)) as [Hk|Hk].
      { split; [lia|]. split; [reflexivity|]. intros _ H. destruct (H Hk). }
      split; [lia|]. split; [lia|]. intros _ _.
      exists (batt_secsleft battery / 3600), (batt_secsleft battery mod 3600 / 60).
      split; [reflexivity|]. split; Z.div_mod_to_equations; lia.
  - exists None. split; [reflexivity|]. split; [|discriminate].
    split; [|reflexivity]. intros _ [battery Hb]. discriminate.
  - exists None. split; [reflexivity|]. split; [|discriminate].
    split; [|reflexivity]. intros _ [battery Hb]. discriminate.
Qed.

Lemma battery_record_shape_witness :
  exists b,
    BatteryDetector_detect laptop_host = Ok (Some b) /\
    battery_time_left_seconds b = 5430 /\
    battery_time_left b = "1h 30m".
Proof.
  destruct (battery_record_shape laptop_host) as (record & Hdetect & _ & Hshape).
  vm_compute in Hdetect. injection Hdetect as <-.
  eexists. split; [reflexivity|].
  destruct (Hshape _ eq_refl) as (battery & Hbattery & Hseconds & _ & Hlabel).
  injection Hbattery as <-. split; [exact Hseconds|].
  destruct Hlabel as (_ & _ & Hhm); [discriminate|].
  destruct Hhm as (hours & minutes & Hlabel & Hminutes & Hbound);
    [discriminate | discriminate |].
  cbn [batt_secsleft] in Hbound.
  assert (hours = 1) as -> by lia. assert (minutes = 30) as -> by lia.
  exact Hlabel.
Defined.

(** ** Size formatting on every size *)

(** X19: [format_size] raises [ValueError] on a negative size and returns
    the text 0 B, whatever the suffix, for 0.  On every size above 0 and
    below 2^1000 at which the integer part of the float logarithm is not
    negative, it returns the scaled value with one decimal, a space, a unit
    of the list and the suffix: the unit index never leaves the list of the
    six units, however large the logarithm is. *)
Theorem format_size_returns_labelled_value (libm_log : spec_float -> spec_float)
    (bytes_val : Z) (suffix : string) :
  (bytes_val < 0 -> format_size libm_log bytes_val suffix = Raise ValueError) /\
  (bytes_val = 0 -> format_size libm_log bytes_val suffix = Ok "0 B") /\
  (0 < bytes_val < 2 ^ 1000 ->
   forall i, int_log1024 libm_log bytes_val = Ok i -> 0 <= i ->
   exists u unit scaled,
     unit_index libm_log bytes_val = Ok u /\ 0 <= u <= 5 /\
     units !! Z.to_nat u = Some unit /\
     Float.int_true_div bytes_val (1024 ^ u) = Ok scaled /\
     format_size libm_log bytes_val suffix =
       Ok (Float.format_1f scaled +:+ " " +:+ unit +:+ suffix)).
Proof.
  split; [|split].
  - intros Hneg. unfold format_size, unit_index, int_log1024, math_log.
    destruct (Z.eqb_spec bytes_val 0); [lia|].
    destruct (Z.leb_spec bytes_val 0); [reflexivity | lia].
  - intros ->. reflexivity.
  - intros [Hlow Hhigh] i Hi Hi0.
    pose proof (unit_index_of_log libm_log bytes_val i Hi) as Hu.
    set (u := Z.min i 5) in *.
    assert (Hrange : 0 <= u <= 5) by (unfold u; lia).
    assert (Hindex : (Z.to_nat u < length units)%nat) by (simpl; lia).
    destruct (lookup_lt_is_Some_2 units _ Hindex) as [unit Hunit].
    destruct (int_true_div_ok bytes_val (1024 ^ u)) as [scaled Hscaled];
      [lia | apply Z.pow_pos_nonneg; lia |].
    exists u, unit, scaled. do 4 (split; [assumption|]).
    rewrite (format_size_at_index libm_log bytes_val suffix u) by (lia || exact Hu).
    rewrite Hscaled. run. unfold list_item. cbv zeta.
    assert (Hnonneg : (u <? 0) = false) by (apply Z.ltb_ge; lia).
    rewrite !Hnonneg, Hunit. reflexivity.
Qed.

Lemma format_size_returns_labelled_value_witness :
  format_size reference_log (-1) "B" = Raise ValueError /\
  format_size reference_log 0 "B/s" = Ok "0 B" /\
  format_size reference_log 1536 "B" = Ok "1.5 KiB".
Proof.
  destruct (format_size_returns_labelled_value reference_log (-1) "B")
    as [Hneg _].
  destruct (format_size_returns_labelled_value reference_log 0 "B/s")
    as (_ & Hzero & _).
  destruct (format_size_returns_labelled_value reference_log 1536 "B")
    as (_ & _ & Hsize).
  split; [apply Hneg; lia|]. split; [apply Hzero; reflexivity|].
  destruct (Hsize ltac:(split; [lia | reflexivity]) 1
              ltac:(vm_compute; reflexivity) ltac:(lia))
    as (u & unit & scaled & Hu & _ & Hunit & Hscaled & ->).
  vm_compute in Hu. injection Hu as <-.
  vm_compute in Hunit. injection Hunit as <-.
  vm_compute in Hscaled. injection Hscaled as <-. reflexivity.
Defined.

(** ** The sources of the GPU list *)

(** X20: the list of [GPUDetector.detect] never mixes its sources.  When a
    vendor tool found a card, the list is the NVIDIA records, then the AMD
    record, then the Intel record, and WMI is not consulted; only when the
    three found nothing does the list hold the records of the Windows
    enumeration (on Windows with WMI), or else the single sentinel.  The AMD
    and Intel probes contribute at most one record each. *)
Theorem gpu_list_keeps_sources_apart (h : Host) :
  exists gpus nvidia amd intel,
    GPUDetector_detect h = Ok gpus /\
    GPUDetector_detect_nvidia h = Ok nvidia /\
    GPUDetector_detect_amd h = Ok amd /\
    GPUDetector_detect_intel h = Ok intel /\
    Forall (fun g => gpu_vendor g = "NVIDIA") nvidia /\
    Forall (fun g => gpu_vendor g = "AMD") amd /\ (length amd <= 1)%nat /\
    Forall (fun g => gpu_vendor g = "Intel") intel /\ (length intel <= 1)%nat /\
    (nvidia ++ amd ++ intel <> [] -> gpus = nvidia ++ amd ++ intel) /\
    (nvidia ++ amd ++ intel = [] ->
     gpus = [no_gpu] \/
     (WMI_AVAILABLE h = true /\ Py.startswith "win" (sys_platform h) = true /\
      GPUDetector_detect_wmi h = Ok gpus /\
      Forall (fun g => gpu_vendor g = "Integrated/Discrete") gpus)).
Proof.
  destruct (detect_nvidia_vendor h) as (nvidia & Hnvidia & Hn).
  destruct (detect_amd_vendor h) as (amd & Hamd & Ha).
  destruct (detect_intel_vendor h) as (intel & Hintel & Hi).
  assert (Hamd1 : (length amd <= 1)%nat).
  { revert Hamd. unfold GPUDetector_detect_amd.
    destruct (which h "rocm-smi"); run; [|intros [= <-]; simpl; lia].
    destruct (run_command_ok h "rocm-smi --showproductname" default_timeout) as [n ->].
    destruct (run_command_ok h "rocm-smi --showmeminfo vram" default_timeout) as [m ->].
    destruct (run_command_ok h "rocm-smi --showtemp" default_timeout) as [t ->].
    destruct (run_command_ok h "rocm-smi --showuse" default_timeout) as [u ->].
    run. destruct (Py.truthy n); run; intros [= <-]; simpl; lia. }
  assert (Hintel1 : (length intel <= 1)%nat).
  { revert Hintel. unfold GPUDetector_detect_intel.
    destruct (which h "sycl-ls"); run; [|intros [= <-]; simpl; lia].
    destruct (run_command_ok h "sycl-ls" default_timeout) as [out ->]. run.
    destruct (Py.contains "Intel" out); run; intros [= <-]; simpl; lia. }
  destruct (detect_wmi_vendor h) as (wmi & Hwmi & Hw).
  unfold GPUDetector_detect. rewrite Hnvidia, Hamd, Hintel. run.
  destruct (nvidia ++ amd ++ intel) as [|g rest] eqn:Hvendor.
  - cbn [is_nil andb].
    destruct (WMI_AVAILABLE h) eqn:Havailable; cbn [andb]; run.
    + destruct (Py.startswith "win" (sys_platform h)) eqn:Hwin; run.
      * rewrite Hwmi. run. cbn [app].
        destruct wmi as [|w wmi']; cbn [is_nil].
        -- exists [no_gpu], nvidia, amd, intel. rewrite Hvendor.
           do 9 (split; [assumption || reflexivity|]).
           split; [intros H; destruct (H eq_refl) | left; reflexivity].
        -- exists (w :: wmi'), nvidia, amd, intel. rewrite Hvendor.
           do 9 (split; [assumption || reflexivity|]).
           split; [intros H; destruct (H eq_refl)|]. right. auto.
      * exists [no_gpu], nvidia, amd, intel. rewrite Hvendor.
        do 9 (split; [assumption || reflexivity|]).
        split; [intros H; destruct (H eq_refl) | left; reflexivity].
    + exists [no_gpu], nvidia, amd, intel. rewrite Hvendor.
      do 9 (split; [assumption || reflexivity|]).
      split; [intros H; destruct (H eq_refl) | left; reflexivity].
  - cbn [is_nil andb]. run. cbn [is_nil].
    exists (g :: rest), nvidia, amd, intel. rewrite Hvendor.
    do 9 (split; [assumption || reflexivity|]).
    split; [reflexivity | discriminate].
Qed.

Lemma gpu_list_keeps_sources_apart_witness :
  exists gpus,
    GPUDetector_detect vendor_tools_host = Ok gpus /\
    gpu_vendor <$> gpus = ["NVIDIA"; "NVIDIA"; "AMD"].
Proof.
  destruct (gpu_list_keeps_sources_apart vendor_tools_host)
    as (gpus & nvidia & amd & intel & Hdetect & Hnvidia & Hamd & Hintel & _ & _
        & _ & _ & _ & Hvendor & _).
  exists gpus. split; [exact Hdetect|].
  vm_compute in Hnvidia, Hamd, Hintel.
  injection Hnvidia as <-. injection Hamd as <-. injection Hintel as <-.
  rewrite Hvendor; [reflexivity | discriminate].
Defined.

(** ** Centred text *)

Lemma length_string_append (s t : string) :
  String.length (s +:+ t) = (String.length s + String.length t)%nat.
Proof.
  induction s as [|c s IH]; [reflexivity|].
  change (String c s +:+ t) with (String c (s +:+ t)).
  cbn [String.length]. rewrite IH. reflexivity.
Qed.

Lemma length_pad (n : nat) : String.length (pad n) = n.
Proof.
  induction n as [|n IH]; [reflexivity|].
  cbn [pad String.length]. rewrite IH. reflexivity.
Qed.

Lemma ansi_match_space (r : string) : ansi_match (String " " r) = None.
Proof. destruct r; reflexivity. Qed.

Lemma sub_ansi_pad_left (n : nat) (s : string) :
  sub_ansi 0 (pad n +:+ s) = pad n +:+ sub_ansi 0 s.
Proof.
  induction n as [|n IH]; [reflexivity|].
  change (pad (S n) +:+ s) with (String " " (pad n +:+ s)).
  change (pad (S n) +:+ sub_ansi 0 s) with (String " " (pad n +:+ sub_ansi 0 s)).
  rewrite <- IH. cbn [sub_ansi]. rewrite ansi_match_space. reflexivity.
Qed.

Lemma sgr_run_pad (r : string) (m : nat) : sgr_run (r +:+ pad m) = sgr_run r.
Proof.
  induction r as [|c r IH].
  - destruct m; reflexivity.
  - change (String c r +:+ pad m) with (String c (r +:+ pad m)).
    cbn [sgr_run]. rewrite IH. reflexivity.
Qed.

Lemma sgr_run_le (r : string) : (sgr_run r <= String.length r)%nat.
Proof.
  induction r as [|c r IH]; cbn [sgr_run String.length]; [lia|].
  destruct (is_sgr c); lia.
Qed.

Lemma string_drop_append (n : nat) (r t : string) :
  (n <= String.length r)%nat ->
  string_drop n (r +:+ t) = string_drop n r +:+ t.
Proof.
  revert r. induction n as [|n IH]; intros r Hn; [reflexivity|].
  destruct r as [|c r]; cbn [String.length] in Hn; [lia|].
  change (String c r +:+ t) with (String c (r +:+ t)).
  cbn [string_drop]. apply IH. lia.
Qed.

Lemma string_drop_head (n : nat) (r : string) (c : ascii) (r' : string) :
  string_drop n r = String c r' -> (n < String.length r)%nat.
Proof.
  revert r. induction n as [|n IH]; intros [|a r]; cbn [string_drop String.length];
    try discriminate; try lia.
  intros H. apply IH in H. lia.
Qed.

Lemma ansi_match_pad (s : string) (m : nat) :
  ansi_match (s +:+ pad m) = ansi_match s.
Proof.
  destruct s as [|e [|b rest]].
  - destruct m as [|[|m]]; reflexivity.
  - destruct m as [|m]; [reflexivity|].
    change (String e "" +:+ pad (S m)) with (String e (String " " (pad m))).
    cbn [ansi_match]. change (Ascii.eqb " " "[") with false.
    rewrite andb_false_r. reflexivity.
  - change (String e (String b rest) +:+ pad m)
      with (String e (String b (rest +:+ pad m))).
    cbn [ansi_match]. destruct (Ascii.eqb e "027" && Ascii.eqb b "["); [|reflexivity].
    cbv zeta. rewrite sgr_run_pad. pose proof (sgr_run_le rest) as Hle.
    destruct (sgr_run rest) as [|n]; [reflexivity|].
    rewrite string_drop_append by exact Hle.
    destruct (string_drop (S n) rest) as [|c r']; [|reflexivity].
    destruct m; reflexivity.
Qed.

Lemma ansi_match_le (s : string) (n : nat) :
  ansi_match s = Some n -> (1 <= n <= String.length s)%nat.
Proof.
  destruct s as [|e [|b rest]]; cbn [ansi_match]; try discriminate.
  destruct (Ascii.eqb e "027" && Ascii.eqb b "["); [|discriminate].
  cbv zeta. destruct (sgr_run rest) as [|k]; [discriminate|].
  destruct (string_drop (S k) rest) as [|c r'] eqn:Hdrop; [discriminate|].
  destruct (Ascii.eqb c "m"); [|discriminate].
  intros [= <-]. apply string_drop_head in Hdrop. cbn [String.length]. lia.
Qed.

Lemma sub_ansi_pad_right (skip : nat) (s : string) (m : nat) :
  (skip <= String.length s)%nat ->
  sub_ansi skip (s +:+ pad m) = sub_ansi skip s +:+ pad m.
Proof.
  revert skip. induction s as [|c r IH]; intros skip Hskip.
  - cbn [String.length] in Hskip. assert (skip = 0%nat) as -> by lia.
    change ("" +:+ pad m) with (pad m).
    induction m as [|m IHm]; [reflexivity|].
    cbn [pad sub_ansi]. rewrite ansi_match_space, IHm. reflexivity.
  - pose proof (ansi_match_pad (String c r) m) as Hmatch.
    change (String c r +:+ pad m) with (String c (r +:+ pad m)) in *.
    cbn [sub_ansi String.length] in *.
    destruct skip as [|k]; [|apply IH; lia].
    rewrite Hmatch.
    destruct (ansi_match (String c r)) as [n|] eqn:Hn.
    + apply ansi_match_le in Hn. cbn [String.length] in Hn. apply IH. lia.
    + rewrite (IH 0%nat) by lia. reflexivity.
Qed.

(** X21: [center_text] surrounds the text with spaces only; on the
    terminal, the colour sequences not counted, the result is as wide as
    asked, or as wide as the text when that is wider; the text is in the
    middle, the odd space going to the right; and a text at least as wide as
    asked is returned unchanged. *)
Theorem center_text_fills_width (text : string) (width : Z) :
  exists left_pad right_pad,
    center_text text width = pad left_pad +:+ text +:+ pad right_pad /\
    (left_pad <= right_pad <= left_pad + 1)%nat /\
    Z.of_nat (left_pad + right_pad) = Z.max 0 (width - visible_length text) /\
    visible_length (center_text text width) =
      Z.max width (visible_length text) /\
    (width <= visible_length text -> center_text text width = text).
Proof.
  unfold center_text, spaces, visible_length. cbv zeta.
  set (clean := Z.of_nat (String.length (sub_ansi 0 text))).
  set (padding := Z.max 0 (width - clean)).
  assert (Hpadding : 0 <= padding) by (unfold padding; lia).
  exists (Z.to_nat (padding / 2)), (Z.to_nat (padding - padding / 2)).
  split; [reflexivity|].
  assert (Hhalf : 0 <= padding / 2 /\ padding / 2 <= padding - padding / 2 /\
                  padding - padding / 2 <= padding / 2 + 1)
    by (Z.div_mod_to_equations; lia).
  split; [lia|]. split; [lia|]. split.
  - rewrite sub_ansi_pad_left, length_string_append, length_pad.
    rewrite sub_ansi_pad_right by lia.
    rewrite length_string_append, length_pad. fold clean. unfold padding in *. lia.
  - intros Hwide. assert (padding = 0) as -> by (unfold padding; lia).
    change (Z.to_nat (0 / 2)) with 0%nat. change (Z.to_nat (0 - 0 / 2)) with 0%nat.
    change (pad 0 +:+ text +:+ pad 0) with (text +:+ "").
    clear. induction text as [|c r IH]; [reflexivity|].
    change (String c r +:+ "") with (String c (r +:+ "")). rewrite IH. reflexivity.
Qed.

Lemma center_text_fills_width_witness :
  visible_length bold_title = 3 /\
  center_text bold_title 10 = "   " +:+ bold_title +:+ "    " /\
  center_text bold_title 2 = bold_title.
Proof.
  split; [reflexivity|].
  destruct (center_text_fills_width bold_title 10)
    as (left_pad & right_pad & Hcentered & Hbalance & Hsum & _).
  destruct (center_text_fills_width bold_title 2) as (_ & _ & _ & _ & _ & Hwide).
  split; [|apply Hwide; vm_compute; discriminate].
  change (visible_length bold_title) with 3 in Hsum.
  assert (left_pad = 3%nat) as -> by lia. assert (right_pad = 4%nat) as -> by lia.
  exact Hcentered.
Defined.

(** ** The interactive prompt and the export *)

(** X22: the detail level of [interactive_mode] is always 1, 2 or 3.  It is
    1 or 3 only for a line that is that digit with whitespace around it;
    every other line, Ctrl-C and the end of the input give the default 2; an
    exception of [input] other than these two leaves the function. *)
Theorem interactive_mode_level_in_range (answer : input_outcome) :
  (forall level, interactive_mode answer = Ok level ->
     1 <= level <= 3 /\
     (level <> 2 ->
      exists line, answer = InputLine line /\
                   Py.strip line = Float.str_of_int level)) /\
  (forall line, answer = InputLine line ->
     Py.strip line ∉ ["1"; "2"; "3"] -> interactive_mode answer = Ok 2) /\
  (answer = InputKeyboardInterrupt \/ answer = InputEOFError ->
   interactive_mode answer = Ok 2) /\
  (forall e, answer = InputRaises e -> interactive_mode answer = Raise e).
Proof.
  split; [|split; [|split]].
  - intros level. destruct answer as [line| | |e]; cbn [interactive_mode];
      try (intros [= <-]; split; [lia | intros H; destruct (H eq_refl)]);
      try discriminate.
    cbv zeta. destruct (bool_decide_reflect (Py.strip line ∈ ["1"; "2"; "3"]))
      as [Hin|_]; [|intros [= <-]; split; [lia | intros H; destruct (H eq_refl)]].
    intros [= <-].
    repeat (apply elem_of_cons in Hin as [Hin|Hin]);
      [| | |apply elem_of_nil in Hin; destruct Hin];
      rewrite Hin; (split; [vm_compute; split; discriminate|]); intros _;
      exists line; (split; [reflexivity | rewrite Hin; vm_compute; reflexivity]).
  - intros line -> Hout. cbn [interactive_mode]. cbv zeta.
    rewrite bool_decide_eq_false_2 by exact Hout. reflexivity.
  - intros [-> | ->]; reflexivity.
  - intros e ->. reflexivity.
Qed.

Lemma interactive_mode_level_in_range_witness :
  (exists level,
     interactive_mode (InputLine (" 3 " +:+ newline)) = Ok level /\
     1 <= level <= 3) /\
  interactive_mode (InputLine "detailed") = Ok 2.
Proof.
  split.
  - destruct (interactive_mode (InputLine (" 3 " +:+ newline))) as [level|]
      eqn:Hlevel; [|vm_compute in Hlevel; discriminate].
    exists level. split; [reflexivity|].
    destruct (interactive_mode_level_in_range (InputLine (" 3 " +:+ newline)))
      as [Hrange _].
    destruct (Hrange level Hlevel) as [Hin _]. exact Hin.
  - destruct (interactive_mode_level_in_range (InputLine "detailed"))
      as (_ & Hother & _).
    apply (Hother "detailed" eq_refl).
    change (Py.strip "detailed") with "detailed". intros Hin.
    repeat (apply elem_of_cons in Hin as [Hin|Hin]; [discriminate Hin|]).
    apply elem_of_nil in Hin. exact Hin.
Defined.



